(** * HariBookStore order backend: lifecycle engine and deferred e-mail sweeper

    A shallow embedding of
    - [src/models/payment.model.js]        (the Payment schema and its validators),
    - [src/controller/otp.controller.js]   (the payment controller it contains:
      [createOrder], [getOrder], [getAllOrders], [confirmOrder],
      [updateOrderStatus] and the e-mail helpers, and the OTP controller before
      it), and
    - the e-mail scheduler service         ([checkAndSendEmails], [sendStatusEmail]),
    followed by the properties of the order lifecycle that the specification
    states about them.

    Modelling conventions.
    - A request body field is a scalar JSON value ([jsval]); objects and arrays
      are not modelled.  A number is an integer literal, standing for the
      double it is read as.
    - A string is the sequence of the bytes of its UTF-8 encoding.  [trim]
      removes the white space of [String.prototype.trim], also where it takes
      two or three bytes; [toLowerCase] lower-cases the letters A-Z only and
      leaves the letters outside ASCII, which the engine's Unicode tables
      would map too, as they are.
    - Dates are milliseconds since the epoch ([Z]); a handler reads the clock
      once ([now]).  An unset or [null] date is [None].
    - The MongoDB collection is a list of documents; the [_id] of a document is
      its position, so a Mongoose document is a pair of an id and its fields.
      The store is always available (no connection failures).
    - JavaScript exceptions are explicit: a computation returns [Ok] or [Throw]
      and threads the world (store and mail log) through, and what was written
      before a throw stays written.
    - The mail transport and the book catalogue are outside this repository
      and are taken as parameters ([env]).
    - The OTP handlers of the same file ([sendOTP], [verifyOTP]) have a world
      of their own, the users and the OTP mails; the user model, bcrypt,
      jsonwebtoken and the random source of [generateOTP] are parameters. *)

From Stdlib Require Import ZArith String Ascii List Bool Lia DecimalString.
From stdpp Require Import base list sorting.
Import ListNotations.

Local Open Scope string_scope.
Local Open Scope Z_scope.
Local Open Scope list_scope.

(** ** JavaScript values as they arrive in [req.body] *)

Inductive jsval : Type :=
| JUndefined
| JNull
| JBool (b : bool)
| JNum (n : Z)
| JStr (s : string).

(** [!!v] of JavaScript. *)
Definition truthy (v : jsval) : bool :=
  match v with
  | JUndefined | JNull => false
  | JBool b => b
  | JNum n => negb (n =? 0)
  | JStr s => negb (String.eqb s "")
  end.

(** [v === "literal"]. *)
Definition strict_eq_str (v : jsval) (s : string) : bool :=
  match v with
  | JStr t => String.eqb t s
  | _ => false
  end.

(** [v === n] for a number literal [n]. *)
Definition strict_eq_num (v : jsval) (n : Z) : bool :=
  match v with
  | JNum m => m =? n
  | _ => false
  end.

(** [list.includes(v)] for an array of string literals. *)
Definition includes (l : list string) (v : jsval) : bool :=
  existsb (strict_eq_str v) l.

Definition str_includes (l : list string) (s : string) : bool :=
  existsb (String.eqb s) l.

(** *** [Number.prototype.toString] on an integer literal *)

(** The Number value of the integer literal [m >= 0]: the nearest double, ties
    going to the even significand. *)
Definition double_of (m : Z) : Z :=
  if m <? 2 ^ 53 then m
  else
    let sh := Z.log2 m - 52 in
    let q := Z.shiftr m sh in
    let rem := m - Z.shiftl q sh in
    let half := Z.shiftl 1 (sh - 1) in
    Z.shiftl (if (half <? rem) || ((rem =? half) && Z.odd q) then q + 1 else q) sh.

Definition decimal (v : Z) : string := NilZero.string_of_uint (N.to_uint (Z.to_N v)).

(** The decimal of [k] significant digits that is nearest to the double [x]
    and is read back as [x], if there is one; of two equally near, the one
    with the even last digit. *)
Definition nearest_with (x : Z) (k : nat) : option Z :=
  let sc := 10 ^ (Z.of_nat (String.length (decimal x)) - Z.of_nat k) in
  let v1 := (x / sc) * sc in
  let v2 := v1 + sc in
  match double_of v1 =? x, double_of v2 =? x with
  | true, true =>
      Some (if x - v1 <? v2 - x then v1
            else if v2 - x <? x - v1 then v2
            else if Z.even (x / sc) then v1 else v2)
  | true, false => Some v1
  | false, true => Some v2
  | false, false => None
  end.

Fixpoint shortest_from (x : Z) (k : nat) (fuel : nat) : Z :=
  match fuel with
  | O => x
  | S fuel' =>
      match nearest_with x k with
      | Some v => v
      | None => shortest_from x (S k) fuel'
      end
  end.

(** The digits printed for the double [x >= 2^53]: the shortest decimal that
    is read back as [x] (17 significant digits always are). *)
Definition shortest (x : Z) : Z := shortest_from x 1 17.

Fixpoint strip_zeros (s : string) : string :=
  match s with
  | EmptyString => EmptyString
  | String c r =>
      match strip_zeros r with
      | EmptyString => if Ascii.eqb c "0" then EmptyString else String c EmptyString
      | r' => String c r'
      end
  end.

(** [d.ddde+n], the form of a number of more than 21 digits. *)
Definition exponential (ds : string) : string :=
  match ds with
  | EmptyString => EmptyString
  | String c r =>
      String c
        ((match strip_zeros r with
          | EmptyString => EmptyString
          | f => String "." f
          end)
         ++ "e+" ++ NilZero.string_of_uint (Nat.to_uint (String.length r)))%string
  end.

(** [String(n)] for the number whose literal is the integer [n].  Up to
    [2^53] every digit is printed; beyond, the literal is first rounded to a
    double, which is printed with its shortest digits, in exponent form from
    [1e21] on, and as [Infinity] past the largest double. *)
Definition Number_toString (n : Z) : string :=
  if Z.abs n <? 2 ^ 53 then NilZero.string_of_int (Z.to_int n)
  else
    let x := double_of (Z.abs n) in
    String.append
      (if n <? 0 then "-" else "")
      (if 2 ^ 1024 <=? x then "Infinity"
       else
         let ds := decimal (shortest x) in
         if Nat.leb (String.length ds) 21 then ds else exponential ds).

(** Mongoose's cast of a value to a [String] path.  On [undefined] and [null],
    which Mongoose leaves as they are, the result here is the empty string;
    every call below is behind a truthiness test, so that case is not reached. *)
Definition castString (v : jsval) : string :=
  match v with
  | JStr s => s
  | JNum n => Number_toString n
  | JBool true => "true"
  | JBool false => "false"
  | JUndefined | JNull => ""
  end.

(** *** String helpers: [\d], [trim], [toLowerCase] *)

Definition is_digit (c : ascii) : bool :=
  let n := nat_of_ascii c in (Nat.leb 48 n && Nat.leb n 57)%bool.

Fixpoint all_digits (s : string) : bool :=
  match s with
  | EmptyString => true
  | String c r => is_digit c && all_digits r
  end.

(** [/^\d{n}$/.test(s)] *)
Definition digits_exactly (n : nat) (s : string) : bool :=
  Nat.eqb (String.length s) n && all_digits s.

(** The white space of [String.prototype.trim] (WhiteSpace and LineTerminator
    of ECMAScript) in UTF-8.  One byte: U+0009 to U+000D and U+0020. *)
Definition is_space (c : ascii) : bool :=
  let n := nat_of_ascii c in ((Nat.leb 9 n && Nat.leb n 13) || Nat.eqb n 32)%bool.

(** Two bytes: U+00A0. *)
Definition is_space2 (c1 c2 : ascii) : bool :=
  (Nat.eqb (nat_of_ascii c1) 194 && Nat.eqb (nat_of_ascii c2) 160)%bool.

(** Three bytes: U+1680, U+2000 to U+200A, U+2028, U+2029, U+202F, U+205F,
    U+3000 and U+FEFF. *)
Definition is_space3 (c1 c2 c3 : ascii) : bool :=
  let a := nat_of_ascii c1 in
  let b := nat_of_ascii c2 in
  let c := nat_of_ascii c3 in
  ((Nat.eqb a 225 && Nat.eqb b 154 && Nat.eqb c 128)
   || (Nat.eqb a 226 && Nat.eqb b 128
       && ((Nat.leb 128 c && Nat.leb c 138) || Nat.eqb c 168 || Nat.eqb c 169
           || Nat.eqb c 175))
   || (Nat.eqb a 226 && Nat.eqb b 129 && Nat.eqb c 159)
   || (Nat.eqb a 227 && Nat.eqb b 128 && Nat.eqb c 128)
   || (Nat.eqb a 239 && Nat.eqb b 187 && Nat.eqb c 191))%bool.

(** The string after its first character, when that is white space. *)
Definition strip_space (s : string) : option string :=
  match s with
  | String c1 r1 =>
      if is_space c1 then Some r1
      else match r1 with
           | String c2 r2 =>
               if is_space2 c1 c2 then Some r2
               else match r2 with
                    | String c3 r3 => if is_space3 c1 c2 c3 then Some r3 else None
                    | EmptyString => None
                    end
           | EmptyString => None
           end
  | EmptyString => None
  end.

Fixpoint trimStart (s : string) : string :=
  match s with
  | String c1 r1 =>
      if is_space c1 then trimStart r1
      else match r1 with
           | String c2 r2 =>
               if is_space2 c1 c2 then trimStart r2
               else match r2 with
                    | String c3 r3 => if is_space3 c1 c2 c3 then trimStart r3 else s
                    | EmptyString => s
                    end
           | EmptyString => s
           end
  | EmptyString => s
  end.

(** The string is white space from end to end. *)
Fixpoint all_space (s : string) : bool :=
  match s with
  | String c1 r1 =>
      if is_space c1 then all_space r1
      else match r1 with
           | String c2 r2 =>
               if is_space2 c1 c2 then all_space r2
               else match r2 with
                    | String c3 r3 => if is_space3 c1 c2 c3 then all_space r3 else false
                    | EmptyString => false
                    end
           | EmptyString => false
           end
  | EmptyString => true
  end.

(** The string is cut where what is left of it is white space. *)
Fixpoint trimEnd (s : string) : string :=
  match s with
  | EmptyString => EmptyString
  | String c r => if all_space s then EmptyString else String c (trimEnd r)
  end.

Definition trim (s : string) : string := trimEnd (trimStart s).

(** [toLowerCase] on the letters A-Z.  The bytes of the characters outside
    ASCII are left unchanged. *)
Definition lower_ascii (c : ascii) : ascii :=
  let n := nat_of_ascii c in
  if (Nat.leb 65 n && Nat.leb n 90)%bool then ascii_of_nat (n + 32) else c.

Fixpoint toLowerCase (s : string) : string :=
  match s with
  | EmptyString => EmptyString
  | String c r => String (lower_ascii c) (toLowerCase r)
  end.

(** ** The Payment schema ([src/models/payment.model.js]) *)

Record Address : Type := mkAddress {
  village : string;
  district : string;
  pincode : string;
  state : string
}.

Record BookDetails : Type := mkBookDetails {
  bookCode : string;
  bookName : string;
  price : Z
}.

Record PaymentInfo : Type := mkPaymentInfo {
  utr : string;
  amount : Z;
  upiId : string;
  verificationStatus : string
}.

(** One order document.  [updatedAt], which Mongoose maintains and nothing
    reads, is left out. *)
Record Payment : Type := mkPayment {
  customerName : string;
  customerEmail : string;
  mobile : string;
  address : Address;
  bookDetails : BookDetails;
  payment : PaymentInfo;
  orderStatus : string;
  adminNotes : string;
  orderDate : Z;
  confirmedDate : option Z;
  shippedDate : option Z;
  deliveredDate : option Z;
  emailSent : bool;
  emailSentDate : option Z;
  createdAt : Z
}.

(** A Mongoose document: the [_id] and the fields. *)
Abbreviation doc := (nat * Payment)%type.

Definition stateEnum : list string := ["Andhra Pradesh"; "Telangana"; "Odisha"].
Definition verificationStatusEnum : list string := ["pending"; "verified"; "failed"].
Definition orderStatusEnum : list string :=
  ["pending"; "confirmed"; "processing"; "shipped"; "delivered"; "cancelled"].

(** [required: true] on a String path: the value is a non-empty string. *)
Definition required (s : string) : bool := negb (String.eqb s "").

(** The validators of the paths that are written once, at creation: the
    customer, the address, the book and the payment claim. *)
Definition validate_claim (o : Payment) : bool :=
  required (customerName o)
  && required (customerEmail o)
  && (required (mobile o) && digits_exactly 10 (mobile o))
  && required (village (address o))
  && required (district (address o))
  && (required (pincode (address o)) && digits_exactly 6 (pincode (address o)))
  && (required (state (address o)) && str_includes stateEnum (state (address o)))
  && required (bookCode (bookDetails o))
  && required (bookName (bookDetails o))
  && (1 <=? price (bookDetails o))
  && (required (utr (payment o)) && digits_exactly 12 (utr (payment o)))
  && (1 <=? amount (payment o))
  && required (upiId (payment o)).

(** The validators that run on [save()]: those above and the two [enum]s of
    the status paths. *)
Definition validate (o : Payment) : bool :=
  validate_claim o
  && str_includes verificationStatusEnum (verificationStatus (payment o))
  && str_includes orderStatusEnum (orderStatus o).

(** Field assignments [order.f = v]. *)
Definition set_verificationStatus (v : string) (o : Payment) : Payment :=
  mkPayment (customerName o) (customerEmail o) (mobile o) (address o) (bookDetails o)
    (mkPaymentInfo (utr (payment o)) (amount (payment o)) (upiId (payment o)) v)
    (orderStatus o) (adminNotes o) (orderDate o) (confirmedDate o) (shippedDate o)
    (deliveredDate o) (emailSent o) (emailSentDate o) (createdAt o).

Definition set_orderStatus (v : string) (o : Payment) : Payment :=
  mkPayment (customerName o) (customerEmail o) (mobile o) (address o) (bookDetails o)
    (payment o) v (adminNotes o) (orderDate o) (confirmedDate o) (shippedDate o)
    (deliveredDate o) (emailSent o) (emailSentDate o) (createdAt o).

Definition set_adminNotes (v : string) (o : Payment) : Payment :=
  mkPayment (customerName o) (customerEmail o) (mobile o) (address o) (bookDetails o)
    (payment o) (orderStatus o) v (orderDate o) (confirmedDate o) (shippedDate o)
    (deliveredDate o) (emailSent o) (emailSentDate o) (createdAt o).

Definition set_confirmedDate (v : option Z) (o : Payment) : Payment :=
  mkPayment (customerName o) (customerEmail o) (mobile o) (address o) (bookDetails o)
    (payment o) (orderStatus o) (adminNotes o) (orderDate o) v (shippedDate o)
    (deliveredDate o) (emailSent o) (emailSentDate o) (createdAt o).

Definition set_shippedDate (v : option Z) (o : Payment) : Payment :=
  mkPayment (customerName o) (customerEmail o) (mobile o) (address o) (bookDetails o)
    (payment o) (orderStatus o) (adminNotes o) (orderDate o) (confirmedDate o) v
    (deliveredDate o) (emailSent o) (emailSentDate o) (createdAt o).

Definition set_deliveredDate (v : option Z) (o : Payment) : Payment :=
  mkPayment (customerName o) (customerEmail o) (mobile o) (address o) (bookDetails o)
    (payment o) (orderStatus o) (adminNotes o) (orderDate o) (confirmedDate o)
    (shippedDate o) v (emailSent o) (emailSentDate o) (createdAt o).

Definition set_emailSent (v : bool) (o : Payment) : Payment :=
  mkPayment (customerName o) (customerEmail o) (mobile o) (address o) (bookDetails o)
    (payment o) (orderStatus o) (adminNotes o) (orderDate o) (confirmedDate o)
    (shippedDate o) (deliveredDate o) v (emailSentDate o) (createdAt o).

Definition set_emailSentDate (v : option Z) (o : Payment) : Payment :=
  mkPayment (customerName o) (customerEmail o) (mobile o) (address o) (bookDetails o)
    (payment o) (orderStatus o) (adminNotes o) (orderDate o) (confirmedDate o)
    (shippedDate o) (deliveredDate o) (emailSent o) v (createdAt o).

(** ** E-mails, the world, and computations that may throw *)

Inductive template : Type :=
| AdminOrderNotification        (* controller: sendAdminOrderNotification *)
| CustomerOrderConfirmation     (* controller: sendCustomerOrderConfirmation *)
| OrderConfirmedEmail           (* controller: sendOrderConfirmedEmail *)
| OrderCancelledEmail           (* controller: sendOrderCancelledEmail *)
| OrderStatusUpdateEmail        (* controller: sendOrderStatusUpdateEmail *)
| DeferredConfirmedEmail        (* scheduler: sendOrderConfirmedEmail *)
| DeferredCancelledEmail.       (* scheduler: sendOrderCancelledEmail *)

Record email : Type := mkEmail {
  mail_template : template;
  mail_to : string;
  mail_order : nat
}.

Definition ADMIN_EMAIL : string := "payment.haribookstore1@gmail.com".

(** Every template but the admin notification goes to [order.customerEmail]. *)
Definition customer_facing (e : email) : bool :=
  match mail_template e with
  | AdminOrderNotification => false
  | _ => true
  end.

Definition deferred_template (t : template) : bool :=
  match t with
  | DeferredConfirmedEmail | DeferredCancelledEmail => true
  | _ => false
  end.

(** The store and the log of send attempts, each with whether the transport
    accepted it. *)
Record world : Type := mkWorld {
  payments : list Payment;
  outbox : list (email * bool)
}.

(** What lies outside the repository: the book catalogue
    ([Book.findOne({bookcode})], giving [book.name]) and the mail transport
    (does the n-th attempt go through, or does it throw). *)
Record env : Type := mkEnv {
  Book_findOne : string -> option string;
  transport : nat -> email -> bool
}.

Inductive exn : Type :=
| ValidationError
| DuplicateKeyError
| CastError
| DocumentNotFoundError
| TransportError.

Inductive outcome (A : Type) : Type :=
| Done (a : A)
| Throw (e : exn).
Arguments Done {A} a.
Arguments Throw {A} e.

Definition M (A : Type) : Type := world -> outcome A * world.

Definition ret {A : Type} (a : A) : M A := fun w => (Done a, w).

Definition throw {A : Type} (e : exn) : M A := fun w => (Throw e, w).

Definition bind {A B : Type} (m : M A) (k : A -> M B) : M B :=
  fun w =>
    match m w with
    | (Done a, w') => k a w'
    | (Throw e, w') => (Throw e, w')
    end.

(** [try { m } catch (error) { h error }] *)
Definition try_catch {A : Type} (m : M A) (h : exn -> M A) : M A :=
  fun w =>
    match m w with
    | (Done a, w') => (Done a, w')
    | (Throw e, w') => h e w'
    end.

Notation "x <- m ;; k" := (bind m (fun x => k))
  (at level 100, m at next level, right associativity).
Notation "m ;; k" := (bind m (fun _ => k))
  (at level 100, right associativity).

(** [for (const x of l) { await f(x) }] *)
Fixpoint for_of {A : Type} (l : list A) (f : A -> M unit) : M unit :=
  match l with
  | [] => ret tt
  | x :: r => f x ;; for_of r f
  end.

(** *** The collection *)

(** The [orderId] route parameter: Mongoose casts it to an ObjectId and throws
    on a string that is not one. *)
Inductive idparam : Type :=
| ObjectId (n : nat)
| MalformedId.

Definition documents (l : list Payment) : list doc := imap (fun i o => (i, o)) l.

Definition Payment_find (p : Payment -> bool) : M (list doc) :=
  fun w => (Done (List.filter (fun d => p (snd d)) (documents (payments w))), w).

Definition Payment_findOne (p : Payment -> bool) : M (option doc) :=
  fun w => (Done (List.find (fun d => p (snd d)) (documents (payments w))), w).

Definition Payment_findById (id : idparam) : M (option doc) :=
  match id with
  | MalformedId => throw CastError
  | ObjectId n => fun w => (Done (option_map (fun o => (n, o)) (payments w !! n)), w)
  end.

(** [save()] of a new document: validation, then the insert, which the unique
    index on [payment.utr] refuses on a collision.  [createdAt] is stamped by
    the [timestamps] option. *)
Definition save_new (o : Payment) : M doc :=
  fun w =>
    if negb (validate o) then (Throw ValidationError, w)
    else if existsb (fun o' => String.eqb (utr (payment o')) (utr (payment o))) (payments w)
    then (Throw DuplicateKeyError, w)
    else (Done (List.length (payments w), o),
          mkWorld (payments w ++ [o]) (outbox w)).

(** [save()] of a document that was loaded from the collection. *)
Definition save (d : doc) : M unit :=
  fun w =>
    if negb (validate (snd d)) then (Throw ValidationError, w)
    else if Nat.ltb (fst d) (List.length (payments w))
    then (Done tt, mkWorld (<[fst d := snd d]> (payments w)) (outbox w))
    else (Throw DocumentNotFoundError, w).

(** ** HTTP responses *)

Inductive reply : Type :=
| AllFieldsRequired
| StateNotServed
| BookNotFound
| PriceMismatch (expected : Z) (received : jsval)
| UtrAlreadyUsed
| OrderPlaced (orderId : nat) (name : string) (amt : jsval) (ref : jsval)
| FailedToCreateOrder
| OrderNotFound
| OrderFound (d : doc)
| FailedToFetchOrder
| OrderDecided (confirmed : bool) (d : doc)
| FailedToUpdateStatus
| InvalidStatus
| StatusUpdated (d : doc).

Record response : Type := mkResponse {
  status : nat;
  success : bool;
  body : reply
}.

(** Request bodies. *)
Record CreateBody : Type := mkCreateBody {
  req_customerName : jsval;
  req_customerEmail : jsval;
  req_mobile : jsval;
  req_village : jsval;
  req_district : jsval;
  req_pincode : jsval;
  req_state : jsval;
  req_bookCode : jsval;
  req_bookName : jsval;
  req_utr : jsval;
  req_amount : jsval
}.

Record ConfirmBody : Type := mkConfirmBody {
  req_adminNotes : jsval;
  req_verificationStatus : jsval
}.

Record StatusBody : Type := mkStatusBody {
  req_status : jsval;
  req_statusNotes : jsval
}.

(** One run of the body of an e-mail helper: [getEmailTransporter()], the
    [verify()] where the code has one, and [transporter.sendMail].  The attempt
    is logged, and it throws when the transport refuses it, be it because the
    transporter cannot be built ([nodemailer.createTransporter] in the payment
    controller and in the scheduler), because [verify()] fails or because the
    message is not accepted. *)
Definition deliver (E : env) (e : email) : M unit :=
  fun w =>
    let ok := transport E (List.length (outbox w)) e in
    (if ok then Done tt else Throw TransportError,
     mkWorld (payments w) (outbox w ++ [(e, ok)])).

(** [a || b] *)
Definition js_or (a b : jsval) : jsval := if truthy a then a else b.

(** Mongoose's cast to a [Number] path; reached only with a number. *)
Definition castNumber (v : jsval) : Z :=
  match v with
  | JNum n => n
  | _ => 0
  end.

(** [!date] for an optional date: a Date object is always truthy. *)
Definition unset (d : option Z) : bool :=
  match d with
  | None => true
  | Some _ => false
  end.

(** ** The payment controller *)

Module PaymentController.
Section Handlers.
Context (E : env).

Definition FIXED_BOOK_PRICE : Z := 1.
Definition DELIVERY_CHARGE : Z := 34.
Definition EXPECTED_TOTAL : Z := FIXED_BOOK_PRICE + DELIVERY_CHARGE.

Definition allowedStates : list string := ["Andhra Pradesh"; "Telangana"; "Odisha"].

Definition validStatuses : list string :=
  ["pending"; "confirmed"; "processing"; "shipped"; "delivered"; "cancelled"].

(** Each e-mail helper wraps its whole body in [try]/[catch] and only logs. *)
Definition sendAdminOrderNotification (order : doc) : M unit :=
  try_catch (deliver E (mkEmail AdminOrderNotification ADMIN_EMAIL (fst order)))
            (fun _ => ret tt).

Definition sendCustomerOrderConfirmation (order : doc) : M unit :=
  try_catch (deliver E (mkEmail CustomerOrderConfirmation (customerEmail (snd order)) (fst order)))
            (fun _ => ret tt).

Definition sendOrderConfirmedEmail (order : doc) : M unit :=
  try_catch (deliver E (mkEmail OrderConfirmedEmail (customerEmail (snd order)) (fst order)))
            (fun _ => ret tt).

Definition sendOrderCancelledEmail (order : doc) : M unit :=
  try_catch (deliver E (mkEmail OrderCancelledEmail (customerEmail (snd order)) (fst order)))
            (fun _ => ret tt).

Definition sendOrderStatusUpdateEmail (order : doc) : M unit :=
  try_catch
    (if str_includes ["processing"; "shipped"; "delivered"] (orderStatus (snd order))
     then deliver E (mkEmail OrderStatusUpdateEmail (customerEmail (snd order)) (fst order))
     else ret tt)
    (fun _ => ret tt).

(** The document [new Payment({...})] of [createOrder], with the schema's
    setters ([trim], [lowercase]) and defaults applied. *)
Definition newOrder (b : CreateBody) (bookname : string) (now : Z) : Payment :=
  mkPayment
    (trim (castString (req_customerName b)))
    (toLowerCase (trim (castString (req_customerEmail b))))
    (castString (req_mobile b))
    (mkAddress (trim (castString (req_village b)))
               (trim (castString (req_district b)))
               (castString (req_pincode b))
               (castString (req_state b)))
    (mkBookDetails (trim (castString (req_bookCode b))) (trim bookname) FIXED_BOOK_PRICE)
    (mkPaymentInfo (castString (req_utr b)) (castNumber (req_amount b))
                   "7416219267@ybl" "pending")
    "pending" "" now None None None false None now.

(** [!customerName || !customerEmail || ... || !amount] *)
Definition missing_field (b : CreateBody) : bool :=
  negb (truthy (req_customerName b)) || negb (truthy (req_customerEmail b))
  || negb (truthy (req_mobile b)) || negb (truthy (req_village b))
  || negb (truthy (req_district b)) || negb (truthy (req_pincode b))
  || negb (truthy (req_state b)) || negb (truthy (req_bookCode b))
  || negb (truthy (req_bookName b)) || negb (truthy (req_utr b))
  || negb (truthy (req_amount b)).

Definition createOrder (b : CreateBody) (now : Z) : M response :=
  try_catch
    (if missing_field b
     then ret (mkResponse 400 false AllFieldsRequired)
     else if negb (includes allowedStates (req_state b))
     then ret (mkResponse 400 false StateNotServed)
     else
       match Book_findOne E (castString (req_bookCode b)) with
       | None => ret (mkResponse 404 false BookNotFound)
       | Some bookname =>
           if negb (strict_eq_num (req_amount b) EXPECTED_TOTAL)
           then ret (mkResponse 400 false (PriceMismatch EXPECTED_TOTAL (req_amount b)))
           else
             existingOrder <-
               Payment_findOne
                 (fun o => String.eqb (utr (payment o)) (castString (req_utr b))) ;;
             match existingOrder with
             | Some _ => ret (mkResponse 400 false UtrAlreadyUsed)
             | None =>
                 saved <- save_new (newOrder b bookname now) ;;
                 (sendAdminOrderNotification saved ;;
                  sendCustomerOrderConfirmation saved ;;
                  ret (mkResponse 201 true
                         (OrderPlaced (fst saved) bookname (req_amount b) (req_utr b))))
             end
       end)
    (fun _ => ret (mkResponse 500 false FailedToCreateOrder)).

Definition getOrder (orderId : idparam) : M response :=
  try_catch
    (order <- Payment_findById orderId ;;
     match order with
     | None => ret (mkResponse 404 false OrderNotFound)
     | Some d => ret (mkResponse 200 true (OrderFound d))
     end)
    (fun _ => ret (mkResponse 500 false FailedToFetchOrder)).

(** The four assignments of [confirmOrder]. *)
Definition decided (b : ConfirmBody) (now : Z) (o : Payment) : Payment :=
  let verified := strict_eq_str (req_verificationStatus b) "verified" in
  set_adminNotes (castString (js_or (req_adminNotes b) (JStr "")))
    (set_confirmedDate (if verified then Some now else None)
       (set_orderStatus (if verified then "confirmed" else "cancelled")
          (set_verificationStatus
             (castString (js_or (req_verificationStatus b) (JStr "verified"))) o))).

Definition confirmOrder (orderId : idparam) (b : ConfirmBody) (now : Z) : M response :=
  try_catch
    (order <- Payment_findById orderId ;;
     match order with
     | None => ret (mkResponse 404 false OrderNotFound)
     | Some (id, o) =>
         let order' := (id, decided b now o) in
         save order' ;;
         (if strict_eq_str (req_verificationStatus b) "verified"
          then sendOrderConfirmedEmail order'
          else sendOrderCancelledEmail order') ;;
         ret (mkResponse 200 true
                (OrderDecided (strict_eq_str (req_verificationStatus b) "verified") order'))
     end)
    (fun _ => ret (mkResponse 500 false FailedToUpdateStatus)).

(** The assignments of [updateOrderStatus]. *)
Definition advanced (b : StatusBody) (now : Z) (o : Payment) : Payment :=
  let o1 := set_orderStatus (castString (req_status b)) o in
  let o2 := set_adminNotes
              (if truthy (req_statusNotes b) then castString (req_statusNotes b)
               else adminNotes o1) o1 in
  let o3 := if strict_eq_str (req_status b) "shipped" && unset (shippedDate o2)
            then set_shippedDate (Some now) o2 else o2 in
  if strict_eq_str (req_status b) "delivered" && unset (deliveredDate o3)
  then set_deliveredDate (Some now) o3 else o3.

Definition updateOrderStatus (orderId : idparam) (b : StatusBody) (now : Z) : M response :=
  try_catch
    (if negb (includes validStatuses (req_status b))
     then ret (mkResponse 400 false InvalidStatus)
     else
       order <- Payment_findById orderId ;;
       match order with
       | None => ret (mkResponse 404 false OrderNotFound)
       | Some (id, o) =>
           let order' := (id, advanced b now o) in
           save order' ;;
           sendOrderStatusUpdateEmail order' ;;
           ret (mkResponse 200 true (StatusUpdated order'))
       end)
    (fun _ => ret (mkResponse 500 false FailedToUpdateStatus)).

End Handlers.
End PaymentController.

(** ** The e-mail scheduler service *)

Module EmailScheduler.
Section Sweep.
Context (E : env).

(** [new Date(Date.now() - 2 * 60 * 60 * 1000)] *)
Definition twoHoursAgo (now : Z) : Z := now - 2 * 60 * 60 * 1000.

Definition sendOrderConfirmedEmail (order : doc) : M unit :=
  try_catch (deliver E (mkEmail DeferredConfirmedEmail (customerEmail (snd order)) (fst order)))
            (fun _ => ret tt).

Definition sendOrderCancelledEmail (order : doc) : M unit :=
  try_catch (deliver E (mkEmail DeferredCancelledEmail (customerEmail (snd order)) (fst order)))
            (fun _ => ret tt).

Definition sendStatusEmail (now : Z) (order : doc) : M unit :=
  try_catch
    ((if String.eqb (orderStatus (snd order)) "confirmed"
      then sendOrderConfirmedEmail order
      else if String.eqb (orderStatus (snd order)) "cancelled"
      then sendOrderCancelledEmail order
      else ret tt) ;;
     save (fst order, set_emailSentDate (Some now) (set_emailSent true (snd order))))
    (fun _ => ret tt).

(** The filter of [Payment.find] in [checkAndSendEmails]. *)
Definition readyForEmail (now : Z) (o : Payment) : bool :=
  (createdAt o <=? twoHoursAgo now)
  && negb (emailSent o)
  && str_includes ["confirmed"; "cancelled"] (orderStatus o).

Definition checkAndSendEmails (now : Z) : M unit :=
  try_catch
    (ordersToEmail <- Payment_find (readyForEmail now) ;;
     for_of ordersToEmail (sendStatusEmail now))
    (fun _ => ret tt).

End Sweep.
End EmailScheduler.

(** ** Requests and runs *)

Inductive request : Type :=
| CreateOrder (b : CreateBody)
| GetOrder (orderId : idparam)
| ConfirmOrder (orderId : idparam) (b : ConfirmBody)
| UpdateOrderStatus (orderId : idparam) (b : StatusBody)
| Sweep.

(** The world after one request served at time [now]. *)
Definition handle (E : env) (r : request) (now : Z) (w : world) : world :=
  match r with
  | CreateOrder b => snd (PaymentController.createOrder E b now w)
  | GetOrder i => snd (PaymentController.getOrder i w)
  | ConfirmOrder i b => snd (PaymentController.confirmOrder E i b now w)
  | UpdateOrderStatus i b => snd (PaymentController.updateOrderStatus E i b now w)
  | Sweep => snd (EmailScheduler.checkAndSendEmails E now w)
  end.

Fixpoint run (E : env) (tr : list (request * Z)) (w : world) : world :=
  match tr with
  | [] => w
  | (r, now) :: rest => run E rest (handle E r now w)
  end.

Definition empty_world : world := mkWorld [] [].

(** The worlds the running system can be in. *)
Definition reachable (E : env) (w : world) : Prop :=
  exists tr, w = run E tr empty_world.

(** ** Derived descriptions used in the statements *)

(** The world with one more send attempt in the log. *)
Definition logged (E : env) (e : email) (w : world) : world :=
  mkWorld (payments w) (outbox w ++ [(e, transport E (List.length (outbox w)) e)]).

(** The log entries of a sequence of attempts, the first being attempt [n]. *)
Fixpoint attempts (E : env) (n : nat) (es : list email) : list (email * bool) :=
  match es with
  | [] => []
  | e :: r => (e, transport E n e) :: attempts E (S n) r
  end.

(** The e-mail [confirmOrder] sends for a decision. *)
Definition decision_email (b : ConfirmBody) (d : doc) : email :=
  mkEmail (if strict_eq_str (req_verificationStatus b) "verified"
           then OrderConfirmedEmail else OrderCancelledEmail)
          (customerEmail (snd d)) (fst d).

(** The e-mail, if any, [updateOrderStatus] sends after the save. *)
Definition status_email (d : doc) : list email :=
  if str_includes ["processing"; "shipped"; "delivered"] (orderStatus (snd d))
  then [mkEmail OrderStatusUpdateEmail (customerEmail (snd d)) (fst d)]
  else [].

(** The e-mail the sweep sends for a decided order. *)
Definition deferred_email (d : doc) : email :=
  mkEmail (if String.eqb (orderStatus (snd d)) "confirmed"
           then DeferredConfirmedEmail else DeferredCancelledEmail)
          (customerEmail (snd d)) (fst d).

(** [order.emailSent = true; order.emailSentDate = new Date()] *)
Definition marked (now : Z) (o : Payment) : Payment :=
  set_emailSentDate (Some now) (set_emailSent true o).

(** What one sweep does to one stored order. *)
Definition swept (now : Z) (o : Payment) : Payment :=
  if EmailScheduler.readyForEmail now o && validate o then marked now o else o.

(** The documents a sweep at [now] selects. *)
Definition selected (now : Z) (l : list Payment) : list doc :=
  List.filter (fun d => EmailScheduler.readyForEmail now (snd d)) (documents l).

(** The checks [createOrder] makes itself before it builds the document. *)
Definition controller_checks (E : env) (b : CreateBody) (w : world) : bool :=
  negb (PaymentController.missing_field b)
  && includes PaymentController.allowedStates (req_state b)
  && (match Book_findOne E (castString (req_bookCode b)) with Some _ => true | None => false end)
  && strict_eq_num (req_amount b) PaymentController.EXPECTED_TOTAL
  && negb (existsb (fun o => String.eqb (utr (payment o)) (castString (req_utr b)))
             (payments w)).

(** The checks that come before the price check in [createOrder]. *)
Definition reaches_price_check (E : env) (b : CreateBody) : bool :=
  negb (PaymentController.missing_field b)
  && includes PaymentController.allowedStates (req_state b)
  && (match Book_findOne E (castString (req_bookCode b)) with Some _ => true | None => false end).

Definition store_valid (l : list Payment) : Prop :=
  forall i o, l !! i = Some o -> validate o = true.

(** What one request can do to the collection: nothing, append the new
    order, replace one document by its decided or advanced version, or sweep. *)
Inductive store_step (E : env) (now : Z) (l : list Payment) : request -> list Payment -> Prop :=
| step_same r : store_step E now l r l
| step_create b bookname :
    controller_checks E b (mkWorld l []) = true ->
    Book_findOne E (castString (req_bookCode b)) = Some bookname ->
    validate (PaymentController.newOrder b bookname now) = true ->
    store_step E now l (CreateOrder b) (l ++ [PaymentController.newOrder b bookname now])
| step_confirm n o b :
    l !! n = Some o ->
    validate (PaymentController.decided b now o) = true ->
    store_step E now l (ConfirmOrder (ObjectId n) b)
      (<[n := PaymentController.decided b now o]> l)
| step_update n o b :
    includes PaymentController.validStatuses (req_status b) = true ->
    l !! n = Some o ->
    validate (PaymentController.advanced b now o) = true ->
    store_step E now l (UpdateOrderStatus (ObjectId n) b)
      (<[n := PaymentController.advanced b now o]> l)
| step_sweep : store_step E now l Sweep (List.map (swept now) l).

(** How a stored order can differ after one request. *)
Inductive order_step (now : Z) (i : nat) (o : Payment) : request -> Payment -> Prop :=
| order_same r : order_step now i o r o
| order_decided b :
    validate (PaymentController.decided b now o) = true ->
    order_step now i o (ConfirmOrder (ObjectId i) b) (PaymentController.decided b now o)
| order_advanced b :
    includes PaymentController.validStatuses (req_status b) = true ->
    validate (PaymentController.advanced b now o) = true ->
    order_step now i o (UpdateOrderStatus (ObjectId i) b) (PaymentController.advanced b now o)
| order_swept : order_step now i o Sweep (swept now o).

(** The payment references held by the collection. *)
Definition utrs (l : list Payment) : list string :=
  List.map (fun o => utr (payment o)) l.

(** ** The specification's sentences that the code does not satisfy

    Each is written here as the specification states it, for one call, so that
    it can be evaluated on a concrete world. *)

(** "Decide sets [confirmedDate] to now if and only if the outcome is verified
    and it was not already set", and otherwise leaves it as it is. *)
Definition confirmedDate_set_once
    (E : env) (w : world) (i : nat) (b : ConfirmBody) (now : Z) : Prop :=
  forall o o',
    payments w !! i = Some o ->
    payments (handle E (ConfirmOrder (ObjectId i) b) now w) !! i = Some o' ->
    confirmedDate o' =
      if strict_eq_str (req_verificationStatus b) "verified" && unset (confirmedDate o)
      then Some now else confirmedDate o.

(** "Decide sends no customer-facing e-mail synchronously." *)
Definition decide_sends_nothing
    (E : env) (w : world) (i : nat) (b : ConfirmBody) (now : Z) : Prop :=
  List.filter customer_facing
    (List.map fst (outbox (handle E (ConfirmOrder (ObjectId i) b) now w))) =
  List.filter customer_facing (List.map fst (outbox w)).



(** A creation input whose mobile, pincode or UTR has the wrong shape. *)
Definition malformed (b : CreateBody) : Prop :=
  digits_exactly 10 (castString (req_mobile b)) = false
  \/ digits_exactly 6 (castString (req_pincode b)) = false
  \/ digits_exactly 12 (castString (req_utr b)) = false.

(** "A malformed mobile, pincode or UTR is reported as a 400 response, and no
    order is persisted." *)
Definition malformed_is_400 (E : env) (b : CreateBody) (now : Z) (w : world) : Prop :=
  malformed b ->
  exists r, PaymentController.createOrder E b now w = (Done r, w) /\ status r = 400%nat.

(** "Every creation input with an amount other than 35 fails with the
    price-mismatch rejection, and no order is persisted." *)
Definition wrong_amount_is_price_mismatch
    (E : env) (b : CreateBody) (now : Z) (w : world) : Prop :=
  strict_eq_num (req_amount b) 35 = false ->
  PaymentController.createOrder E b now w =
    (Done (mkResponse 400 false (PriceMismatch 35 (req_amount b))), w).

(** The verification status and the order status have diverged. *)
Definition diverged (o : Payment) : Prop :=
  verificationStatus (payment o) = "verified" /\ orderStatus o = "cancelled".

(** "No operation other than Decide without an outcome produces that
    divergence." *)
Definition only_absent_outcome_diverges
    (E : env) (w : world) (i : nat) (r : request) (now : Z) : Prop :=
  forall o o',
    payments w !! i = Some o ->
    payments (handle E r now w) !! i = Some o' ->
    ~ diverged o -> diverged o' ->
    exists notes, r = ConfirmOrder (ObjectId i) (mkConfirmBody notes JUndefined).

(** ** A small shop to evaluate the handlers on *)

Module Sample.

Definition catalogue (code : string) : option string :=
  if String.eqb code "B001" then Some "Ramayana" else None.

(** A transport that refuses every attempt, and one that accepts every one. *)
Definition E_down : env := mkEnv catalogue (fun _ _ => false).
Definition E_up : env := mkEnv catalogue (fun _ _ => true).

Definition order_body : CreateBody :=
  mkCreateBody (JStr "Asha") (JStr "asha@example.com") (JStr "9876543210")
    (JStr "Kota") (JStr "Guntur") (JStr "522001") (JStr "Telangana")
    (JStr "B001") (JStr "Ramayana") (JStr "123456789012") (JNum 35).

(** The same order with a five-digit mobile number. *)
Definition short_mobile_body : CreateBody :=
  mkCreateBody (JStr "Asha") (JStr "asha@example.com") (JStr "12345")
    (JStr "Kota") (JStr "Guntur") (JStr "522001") (JStr "Telangana")
    (JStr "B001") (JStr "Ramayana") (JStr "123456789012") (JNum 35).

(** The same order with the amount 10 and a book code the catalogue lacks. *)
Definition wrong_amount_body : CreateBody :=
  mkCreateBody (JStr "Asha") (JStr "asha@example.com") (JStr "9876543210")
    (JStr "Kota") (JStr "Guntur") (JStr "522001") (JStr "Telangana")
    (JStr "B999") (JStr "Ramayana") (JStr "123456789012") (JNum 10).

(** The same order with the amount 34. *)
Definition underpaid_body : CreateBody :=
  mkCreateBody (JStr "Asha") (JStr "asha@example.com") (JStr "9876543210")
    (JStr "Kota") (JStr "Guntur") (JStr "522001") (JStr "Telangana")
    (JStr "B001") (JStr "Ramayana") (JStr "123456789012") (JNum 34).

(** The same order for a state outside the allow-list. *)
Definition kerala_body : CreateBody :=
  mkCreateBody (JStr "Asha") (JStr "asha@example.com") (JStr "9876543210")
    (JStr "Kota") (JStr "Guntur") (JStr "522001") (JStr "Kerala")
    (JStr "B001") (JStr "Ramayana") (JStr "123456789012") (JNum 35).

Definition verified : ConfirmBody := mkConfirmBody JUndefined (JStr "verified").
Definition failed : ConfirmBody := mkConfirmBody (JStr "bad UTR") (JStr "failed").
Definition no_outcome : ConfirmBody := mkConfirmBody JUndefined JUndefined.
Definition to_status (s : string) : StatusBody := mkStatusBody (JStr s) JUndefined.

Definition placed_order : Payment := PaymentController.newOrder order_body "Ramayana" 1000.
Definition confirmed_order : Payment := PaymentController.decided verified 2000 placed_order.
Definition shipped_order : Payment :=
  PaymentController.advanced (to_status "shipped") 3000 confirmed_order.
Definition delivered_order : Payment :=
  PaymentController.advanced (to_status "delivered") 4000 shipped_order.

Definition placed : list (request * Z) := [(CreateOrder order_body, 1000)].
Definition confirmed : list (request * Z) :=
  placed ++ [(ConfirmOrder (ObjectId 0) verified, 2000)].
Definition shipped : list (request * Z) :=
  confirmed ++ [(UpdateOrderStatus (ObjectId 0) (to_status "shipped"), 3000)].
Definition delivered : list (request * Z) :=
  shipped ++ [(UpdateOrderStatus (ObjectId 0) (to_status "delivered"), 4000)].

Definition w_placed : world := run E_down placed empty_world.
Definition w_confirmed : world := run E_down confirmed empty_world.
Definition w_shipped : world := run E_down shipped empty_world.
Definition w_delivered : world := run E_down delivered empty_world.

End Sample.

(** ** The listing of the payment controller *)

(** The body of the response of [getAllOrders]. *)
Inductive listing : Type :=
| OrdersListed (orders : list doc) (total : nat)
| FailedToFetchOrders.

Record list_response : Type := mkListResponse {
  list_status : nat;
  list_success : bool;
  list_body : listing
}.

(** [sort({ createdAt: -1 })]: the order created later comes first. *)
Definition newer_first (d1 d2 : doc) : Prop :=
  createdAt (snd d2) <= createdAt (snd d1).

#[global] Instance newer_first_dec : RelDecision newer_first.
Proof. intros d1 d2. unfold newer_first. apply Z_le_dec. Defined.

(** [Payment.find().sort({ createdAt: -1 }).limit(n)].  MongoDB leaves the
    relative order of documents with equal [createdAt] open; the sort used here
    fixes one, and nothing below depends on which. *)
Definition Payment_find_newest (n : nat) : M (list doc) :=
  fun w => (Done (take n (merge_sort newer_first (documents (payments w)))), w).

Definition getAllOrders : M list_response :=
  try_catch
    (orders <- Payment_find_newest 100 ;;
     ret (mkListResponse 200 true (OrdersListed orders (List.length orders))))
    (fun _ => ret (mkListResponse 500 false FailedToFetchOrders)).

(** ** Further descriptions used in the statements *)

(** What the HTTP caller is answered; the sweep answers nobody. *)
Definition answer (E : env) (r : request) (now : Z) (w : world) : option (outcome response) :=
  match r with
  | CreateOrder b => Some (fst (PaymentController.createOrder E b now w))
  | GetOrder i => Some (fst (PaymentController.getOrder i w))
  | ConfirmOrder i b => Some (fst (PaymentController.confirmOrder E i b now w))
  | UpdateOrderStatus i b => Some (fst (PaymentController.updateOrderStatus E i b now w))
  | Sweep => None
  end.

(** Whether [createOrder] goes through: its own checks pass and the schema
    accepts the document. *)
Definition accepted (E : env) (b : CreateBody) (now : Z) (w : world) : bool :=
  controller_checks E b w
  && match Book_findOne E (castString (req_bookCode b)) with
     | Some bookname => validate (PaymentController.newOrder b bookname now)
     | None => false
     end.

(** The paths of an order that are written at creation: [o'] has them as [o]. *)
Definition same_claim (o o' : Payment) : Prop :=
  customerName o' = customerName o
  /\ customerEmail o' = customerEmail o
  /\ mobile o' = mobile o
  /\ address o' = address o
  /\ bookDetails o' = bookDetails o
  /\ utr (payment o') = utr (payment o)
  /\ amount (payment o') = amount (payment o)
  /\ upiId (payment o') = upiId (payment o)
  /\ orderDate o' = orderDate o
  /\ createdAt o' = createdAt o.

(** A run whose clock never goes back, starting no earlier than [t]. *)
Fixpoint clocked (t : Z) (tr : list (request * Z)) : Prop :=
  match tr with
  | [] => True
  | (_, now) :: rest => t <= now /\ clocked now rest
  end.

(** The time of the last request of a run that starts at [t]. *)
Fixpoint last_time (t : Z) (tr : list (request * Z)) : Z :=
  match tr with
  | [] => t
  | (_, now) :: rest => last_time now rest
  end.

(** An optional date, when set, lies between [lo] and [hi]. *)
Definition dated_within (lo hi : Z) (d : option Z) : Prop :=
  forall x, d = Some x -> lo <= x <= hi.

(** Every date of the order lies between its creation and [t]. *)
Definition dates_in_order (t : Z) (o : Payment) : Prop :=
  createdAt o <= t
  /\ dated_within (createdAt o) t (confirmedDate o)
  /\ dated_within (createdAt o) t (shippedDate o)
  /\ dated_within (createdAt o) t (deliveredDate o)
  /\ dated_within (createdAt o) t (emailSentDate o).

(** The status code of an answer. *)
Definition status_of_answer (a : outcome response) : nat :=
  match a with
  | Done r => status r
  | Throw _ => 0
  end.

(** ** The OTP controller ([sendOTP], [verifyOTP])

    The first half of [src/controller/otp.controller.js].  The user model
    ([user.model.js]), bcrypt, jsonwebtoken and the random source are not part
    of the sources; what the handlers need of them is taken from the
    environment [otp_env]. *)

Module OtpController.

(** The fields of a user document that the two handlers read or write. *)
Record User : Type := mkUser {
  u_email : string;
  u_fullname : string;
  u_password : string;
  u_otp : option string;
  u_otpExpiresAt : option Z;
  u_verified : bool
}.

(** What nodemailer's error carries: [err.code] and whether
    [err.responseCode === 535]. *)
Inductive mail_code : Type := EAUTH | ECONNECTION | OtherCode.

Record mail_error : Type := mkMailError {
  err_code : mail_code;
  err_535 : bool
}.

Inductive mail_result : Type :=
| MailSent
| MailFailed (e : mail_error).

(** One attempt to send an OTP: the [to] of the message, the OTP in its body,
    and how [verify()] and [sendMail] ended. *)
Record otp_mail : Type := mkOtpMail {
  otp_to : jsval;
  otp_code : string;
  otp_result : mail_result
}.

Record otp_world : Type := mkOtpWorld {
  users : list User;
  otp_outbox : list otp_mail;
  draws : nat
}.

Record otp_env : Type := mkOtpEnv {
  (** [process.env.EMAIL_USER] and [process.env.EMAIL_PASS] are both set *)
  mail_configured : bool;
  (** the schema's cast of the [email] and [fullname] paths *)
  User_email : jsval -> string;
  User_fullname : jsval -> string;
  (** the validators that run on [user.save()] *)
  User_validate : User -> bool;
  (** the result of the n-th call of [generateOTP] *)
  generateOTP : nat -> string;
  (** [bcrypt.hash(v, 10)]; [None] when it rejects *)
  bcrypt_hash : jsval -> option string;
  (** [bcrypt.compare(v, hash)]; [None] when it rejects *)
  bcrypt_compare : jsval -> string -> option bool;
  (** how the n-th mail attempt ends *)
  otp_transport : nat -> jsval -> mail_result;
  (** [jwt.sign({ id, email }, JWT_SECRET, { expiresIn: "7d" })] *)
  jwt_sign : nat -> string -> string
}.

Inductive otp_exn : Type :=
| BcryptError
| UserValidationError
| MailError (e : mail_error).

Inductive otp_outcome (A : Type) : Type :=
| ODone (a : A)
| OThrow (e : otp_exn).
Arguments ODone {A} a.
Arguments OThrow {A} e.

Definition OM (A : Type) : Type := otp_world -> otp_outcome A * otp_world.

Definition oret {A : Type} (a : A) : OM A := fun w => (ODone a, w).

Definition othrow {A : Type} (e : otp_exn) : OM A := fun w => (OThrow e, w).

Definition obind {A B : Type} (m : OM A) (k : A -> OM B) : OM B :=
  fun w =>
    match m w with
    | (ODone a, w') => k a w'
    | (OThrow e, w') => (OThrow e, w')
    end.

Definition otry {A : Type} (m : OM A) (h : otp_exn -> OM A) : OM A :=
  fun w =>
    match m w with
    | (ODone a, w') => (ODone a, w')
    | (OThrow e, w') => h e w'
    end.

Notation "x <~ m ;; k" := (obind m (fun x => k))
  (at level 100, m at next level, right associativity).
Notation "m ;;; k" := (obind m (fun _ => k))
  (at level 100, right associativity).

(** The message of a 500 answer of [sendOTP]. *)
Inductive send_failure : Type :=
| FailedToSendOTP
| AuthenticationFailed
| CannotConnect
| InvalidCredentials.

Inductive otp_reply : Type :=
| FieldsRequired
| NotConfigured
| AlreadyVerified
| OtpSent
| SendFailed (m : send_failure)
| EmailAndOtpRequired
| UserNotFoundOrOtpMissing
| OtpExpired
| InvalidOtp
| AccountCreated (id : nat) (email fullname : string) (verified : bool) (token : string)
| VerificationFailed.

Record otp_response : Type := mkOtpResponse {
  otp_status : nat;
  otp_success : bool;
  otp_body : otp_reply
}.

Record SendBody : Type := mkSendBody {
  send_email : jsval;
  send_fullname : jsval;
  send_password : jsval
}.

Record VerifyBody : Type := mkVerifyBody {
  verify_email : jsval;
  verify_otp : jsval
}.

Section Handlers.
Context (E : otp_env).

(** The position of the first user with the e-mail address [e]. *)
Fixpoint find_email (e : string) (l : list User) : option nat :=
  match l with
  | [] => None
  | u :: r => if String.eqb (u_email u) e then Some 0%nat
              else option_map S (find_email e r)
  end.

(** [User.findOne({ email })] *)
Definition User_findOne (email : jsval) : OM (option (nat * User)) :=
  fun w =>
    (ODone match find_email (User_email E email) (users w) with
           | Some i => option_map (fun u => (i, u)) (users w !! i)
           | None => None
           end, w).

(** [User.findOneAndUpdate({ email }, { fullname, password, otp, otpExpiresAt,
    verified: false }, { upsert: true, new: true })]: the first user with the
    address is updated, and one is inserted when there is none. *)
Definition User_upsert (email fullname : jsval) (passwordHash otpHash : string)
    (otpExpiresAt : Z) : OM (nat * User) :=
  fun w =>
    let u := mkUser (User_email E email) (User_fullname E fullname) passwordHash
               (Some otpHash) (Some otpExpiresAt) false in
    match find_email (User_email E email) (users w) with
    | Some i => (ODone (i, u), mkOtpWorld (<[i := u]> (users w)) (otp_outbox w) (draws w))
    | None => (ODone (List.length (users w), u),
               mkOtpWorld (users w ++ [u]) (otp_outbox w) (draws w))
    end.

(** [user.save()] *)
Definition User_save (d : nat * User) : OM unit :=
  fun w =>
    if User_validate E (snd d)
    then (ODone tt, mkOtpWorld (<[fst d := snd d]> (users w)) (otp_outbox w) (draws w))
    else (OThrow UserValidationError, w).

Definition draw_otp : OM string :=
  fun w => (ODone (generateOTP E (draws w)),
            mkOtpWorld (users w) (otp_outbox w) (S (draws w))).

Definition hash (v : jsval) : OM string :=
  match bcrypt_hash E v with
  | Some h => oret h
  | None => othrow BcryptError
  end.

Definition compare (v : jsval) (h : string) : OM bool :=
  match bcrypt_compare E v h with
  | Some r => oret r
  | None => othrow BcryptError
  end.

(** [transporter.verify()] and [transporter.sendMail(...)] *)
Definition send_mail (to : jsval) (otp : string) : OM unit :=
  fun w =>
    let r := otp_transport E (List.length (otp_outbox w)) to in
    (match r with MailSent => ODone tt | MailFailed e => OThrow (MailError e) end,
     mkOtpWorld (users w) (otp_outbox w ++ [mkOtpMail to otp r]) (draws w)).

(** The message the [catch] of [sendOTP] picks from the error. *)
Definition failure_message (e : otp_exn) : send_failure :=
  match e with
  | MailError m =>
      match err_code m with
      | EAUTH => AuthenticationFailed
      | ECONNECTION => CannotConnect
      | OtherCode => if err_535 m then InvalidCredentials else FailedToSendOTP
      end
  | _ => FailedToSendOTP
  end.

Definition FIVE_MINUTES : Z := 5 * 60 * 1000.

Definition sendOTP (b : SendBody) (now : Z) : OM otp_response :=
  if negb (truthy (send_email b)) || negb (truthy (send_fullname b))
     || negb (truthy (send_password b))
  then oret (mkOtpResponse 400 false FieldsRequired)
  else if negb (mail_configured E)
  then oret (mkOtpResponse 500 false NotConfigured)
  else
    otry
      (existingUser <~ User_findOne (send_email b) ;;
       if match existingUser with Some (_, u) => u_verified u | None => false end
       then oret (mkOtpResponse 400 false AlreadyVerified)
       else
         otp <~ draw_otp ;;
         otpHash <~ hash (JStr otp) ;;
         passwordHash <~ hash (send_password b) ;;
         (User_upsert (send_email b) (send_fullname b) passwordHash otpHash
            (now + FIVE_MINUTES) ;;;
          send_mail (send_email b) otp ;;;
          oret (mkOtpResponse 200 true OtpSent)))
      (fun err => oret (mkOtpResponse 500 false (SendFailed (failure_message err)))).

(** [!user.otp] *)
Definition no_otp (u : User) : bool :=
  match u_otp u with
  | None => true
  | Some h => String.eqb h ""
  end.

(** [user.otpExpiresAt < Date.now()]; false when the date is not set. *)
Definition expired (u : User) (now : Z) : bool :=
  match u_otpExpiresAt u with
  | Some t => t <? now
  | None => false
  end.

(** [user.verified = true; user.otp = undefined; user.otpExpiresAt = undefined] *)
Definition verified_user (u : User) : User :=
  mkUser (u_email u) (u_fullname u) (u_password u) None None true.

Definition verifyOTP (b : VerifyBody) (now : Z) : OM otp_response :=
  if negb (truthy (verify_email b)) || negb (truthy (verify_otp b))
  then oret (mkOtpResponse 400 false EmailAndOtpRequired)
  else
    otry
      (found <~ User_findOne (verify_email b) ;;
       match found with
       | None => oret (mkOtpResponse 400 false UserNotFoundOrOtpMissing)
       | Some (id, user) =>
           if no_otp user
           then oret (mkOtpResponse 400 false UserNotFoundOrOtpMissing)
           else if expired user now
           then oret (mkOtpResponse 400 false OtpExpired)
           else
             isMatch <~ compare (verify_otp b)
                          (match u_otp user with Some h => h | None => "" end) ;;
             if negb isMatch
             then oret (mkOtpResponse 400 false InvalidOtp)
             else
               User_save (id, verified_user user) ;;;
               oret (mkOtpResponse 200 true
                       (AccountCreated id (u_email user) (u_fullname user) true
                          (jwt_sign E id (u_email user))))
       end)
      (fun _ => oret (mkOtpResponse 500 false VerificationFailed)).

(** The two requests, and runs of them. *)
Inductive otp_request : Type :=
| SendOTP (b : SendBody)
| VerifyOTP (b : VerifyBody).

Definition otp_handle (r : otp_request) (now : Z) (w : otp_world) : otp_world :=
  match r with
  | SendOTP b => snd (sendOTP b now w)
  | VerifyOTP b => snd (verifyOTP b now w)
  end.

Fixpoint otp_run (tr : list (otp_request * Z)) (w : otp_world) : otp_world :=
  match tr with
  | [] => w
  | (r, now) :: rest => otp_run rest (otp_handle r now w)
  end.

End Handlers.

Definition empty_otp_world : otp_world := mkOtpWorld [] [] 0.

End OtpController.

(** A sample environment for the OTP handlers: string paths without setters,
    no validators, the OTP "123456" at every draw, and a toy hash. *)
Module OtpSample.

Definition toy_hash (v : jsval) : option string :=
  match v with
  | JStr s => Some (String "#" s)
  | _ => None
  end.

Definition toy_compare (v : jsval) (h : string) : option bool :=
  match v with
  | JStr s => Some (String.eqb (String "#" s) h)
  | _ => None
  end.

Definition env_with (t : nat -> jsval -> OtpController.mail_result) : OtpController.otp_env :=
  OtpController.mkOtpEnv true castString castString (fun _ => true) (fun _ => "123456")
    toy_hash toy_compare t (fun _ e => e).

Definition E_up : OtpController.otp_env := env_with (fun _ _ => OtpController.MailSent).

Definition E_down : OtpController.otp_env :=
  env_with (fun _ _ =>
              OtpController.MailFailed (OtpController.mkMailError OtpController.EAUTH true)).

Definition signup : OtpController.SendBody :=
  OtpController.mkSendBody (JStr "asha@example.com") (JStr "Asha") (JStr "secret").

Definition right_otp : OtpController.VerifyBody :=
  OtpController.mkVerifyBody (JStr "asha@example.com") (JStr "123456").

Definition wrong_otp : OtpController.VerifyBody :=
  OtpController.mkVerifyBody (JStr "asha@example.com") (JStr "654321").

Definition w_sent : OtpController.otp_world :=
  OtpController.otp_handle E_up (OtpController.SendOTP signup) 1000
    OtpController.empty_otp_world.

Definition w_verified : OtpController.otp_world :=
  OtpController.otp_handle E_up (OtpController.VerifyOTP right_otp) 2000 w_sent.

End OtpSample.

(** ** Proof steps for the field assignments *)

Ltac norm_fields :=
  cbn [set_verificationStatus set_orderStatus set_adminNotes set_confirmedDate
       set_shippedDate set_deliveredDate set_emailSent set_emailSentDate
       customerName customerEmail mobile address bookDetails payment orderStatus
       adminNotes orderDate confirmedDate shippedDate deliveredDate emailSent
       emailSentDate createdAt].

Ltac split_advanced sb o :=
  unfold PaymentController.advanced; cbv zeta; norm_fields;
  destruct (strict_eq_str (req_status sb) "shipped" && unset (shippedDate o));
  norm_fields;
  destruct (strict_eq_str (req_status sb) "delivered" && unset (deliveredDate o));
  norm_fields.

(** ** Basic facts about the store and the helpers *)

Section Facts.
Context (E : env).

Lemma save_ok d w :
  validate (snd d) = true ->
  (fst d < List.length (payments w))%nat ->
  save d w = (Done tt, mkWorld (<[fst d := snd d]> (payments w)) (outbox w)).
Proof.
  intros Hv Hlt. unfold save. rewrite Hv. simpl.
  apply Nat.ltb_lt in Hlt. now rewrite Hlt.
Qed.

Lemma save_invalid d w :
  validate (snd d) = false -> save d w = (Throw ValidationError, w).
Proof. intros Hv. unfold save. now rewrite Hv. Qed.

Lemma deliver_logged e w :
  try_catch (deliver E e) (fun _ => ret tt) w = (Done tt, logged E e w).
Proof.
  unfold try_catch, deliver, logged, ret.
  destruct (transport E (List.length (outbox w)) e); reflexivity.
Qed.

Lemma findById_some n o w :
  payments w !! n = Some o -> Payment_findById (ObjectId n) w = (Done (Some (n, o)), w).
Proof. intros H. unfold Payment_findById. now rewrite H. Qed.

Lemma findById_none n w :
  payments w !! n = None -> Payment_findById (ObjectId n) w = (Done None, w).
Proof. intros H. unfold Payment_findById. now rewrite H. Qed.

Lemma world_eta w : mkWorld (payments w) (outbox w) = w.
Proof. now destruct w. Qed.

(** *** [confirmOrder] *)

Lemma confirmOrder_found n o b now w :
  payments w !! n = Some o ->
  PaymentController.confirmOrder E (ObjectId n) b now w =
    if validate (PaymentController.decided b now o)
    then (Done (mkResponse 200 true
                  (OrderDecided (strict_eq_str (req_verificationStatus b) "verified")
                                (n, PaymentController.decided b now o))),
          logged E (decision_email b (n, PaymentController.decided b now o))
            (mkWorld (<[n := PaymentController.decided b now o]> (payments w)) (outbox w)))
    else (Done (mkResponse 500 false FailedToUpdateStatus), w).
Proof.
  intros Hn. unfold PaymentController.confirmOrder, try_catch at 1, bind at 1.
  rewrite (findById_some _ _ _ Hn).
  destruct (validate (PaymentController.decided b now o)) eqn:Hv.
  - unfold bind at 1. rewrite save_ok; simpl; auto.
    2:{ apply lookup_lt_Some in Hn. exact Hn. }
    unfold bind, decision_email,
      PaymentController.sendOrderConfirmedEmail, PaymentController.sendOrderCancelledEmail.
    destruct (strict_eq_str (req_verificationStatus b) "verified");
      rewrite deliver_logged; reflexivity.
  - unfold bind at 1. rewrite save_invalid; auto.
Qed.

Lemma confirmOrder_missing n b now w :
  payments w !! n = None ->
  PaymentController.confirmOrder E (ObjectId n) b now w =
    (Done (mkResponse 404 false OrderNotFound), w).
Proof.
  intros Hn. unfold PaymentController.confirmOrder, try_catch, bind.
  now rewrite (findById_none _ _ Hn).
Qed.

Lemma confirmOrder_malformed b now w :
  PaymentController.confirmOrder E MalformedId b now w =
    (Done (mkResponse 500 false FailedToUpdateStatus), w).
Proof. reflexivity. Qed.

(** *** [updateOrderStatus] *)

Lemma updateOrderStatus_invalid i b now w :
  includes PaymentController.validStatuses (req_status b) = false ->
  PaymentController.updateOrderStatus E i b now w =
    (Done (mkResponse 400 false InvalidStatus), w).
Proof.
  intros H. unfold PaymentController.updateOrderStatus, try_catch. now rewrite H.
Qed.

Lemma updateOrderStatus_found n o b now w :
  includes PaymentController.validStatuses (req_status b) = true ->
  payments w !! n = Some o ->
  PaymentController.updateOrderStatus E (ObjectId n) b now w =
    if validate (PaymentController.advanced b now o)
    then (Done (mkResponse 200 true (StatusUpdated (n, PaymentController.advanced b now o))),
          mkWorld (<[n := PaymentController.advanced b now o]> (payments w))
                  (outbox w ++ attempts E (List.length (outbox w))
                                 (status_email (n, PaymentController.advanced b now o))))
    else (Done (mkResponse 500 false FailedToUpdateStatus), w).
Proof.
  intros Hs Hn. unfold PaymentController.updateOrderStatus, try_catch at 1.
  rewrite Hs. cbn [negb]. cbv beta iota. unfold bind at 1.
  rewrite (findById_some _ _ _ Hn).
  destruct (validate (PaymentController.advanced b now o)) eqn:Hv.
  - unfold bind at 1. rewrite save_ok; simpl; auto.
    2:{ apply lookup_lt_Some in Hn. exact Hn. }
    unfold bind, PaymentController.sendOrderStatusUpdateEmail, status_email.
    cbn [fst snd].
    destruct (str_includes _ (orderStatus (PaymentController.advanced b now o))).
    + rewrite deliver_logged. reflexivity.
    + unfold try_catch, ret. cbn [attempts]. now rewrite app_nil_r.
  - unfold bind at 1. rewrite save_invalid; auto.
Qed.

Lemma updateOrderStatus_missing n b now w :
  includes PaymentController.validStatuses (req_status b) = true ->
  payments w !! n = None ->
  PaymentController.updateOrderStatus E (ObjectId n) b now w =
    (Done (mkResponse 404 false OrderNotFound), w).
Proof.
  intros Hs Hn. unfold PaymentController.updateOrderStatus, try_catch, bind.
  rewrite Hs. cbn [negb]. cbv beta iota. now rewrite (findById_none _ _ Hn).
Qed.

Lemma updateOrderStatus_malformed b now w :
  includes PaymentController.validStatuses (req_status b) = true ->
  PaymentController.updateOrderStatus E MalformedId b now w =
    (Done (mkResponse 500 false FailedToUpdateStatus), w).
Proof.
  intros Hs. unfold PaymentController.updateOrderStatus, try_catch, bind.
  rewrite Hs. reflexivity.
Qed.

End Facts.

(** ** [createOrder] and the sweep as equations *)

Section Equations.
Context (E : env).

Lemma find_documents_none (p : Payment -> bool) (f : nat -> Payment -> doc) l :
  (forall i o, snd (f i o) = o) ->
  existsb p l = false ->
  List.find (fun d => p (snd d)) (imap f l) = None.
Proof.
  revert f. induction l as [|o r IH]; intros f Hf Hex; [reflexivity|].
  simpl in Hex. apply orb_false_iff in Hex as [Ho Hr].
  cbn [imap List.find]. rewrite Hf, Ho.
  apply IH; [intros; apply Hf | exact Hr].
Qed.

Lemma find_documents_some (p : Payment -> bool) (f : nat -> Payment -> doc) l :
  (forall i o, snd (f i o) = o) ->
  existsb p l = true ->
  exists d, List.find (fun d => p (snd d)) (imap f l) = Some d.
Proof.
  revert f. induction l as [|o r IH]; intros f Hf Hex; [discriminate|].
  cbn [imap List.find]. rewrite Hf. simpl in Hex.
  destruct (p o); [eauto|]. apply IH; [intros; apply Hf | exact Hex].
Qed.

Lemma createOrder_eq b now w :
  PaymentController.createOrder E b now w =
    if PaymentController.missing_field b
    then (Done (mkResponse 400 false AllFieldsRequired), w)
    else if negb (includes PaymentController.allowedStates (req_state b))
    then (Done (mkResponse 400 false StateNotServed), w)
    else
      match Book_findOne E (castString (req_bookCode b)) with
      | None => (Done (mkResponse 404 false BookNotFound), w)
      | Some bookname =>
          if negb (strict_eq_num (req_amount b) PaymentController.EXPECTED_TOTAL)
          then (Done (mkResponse 400 false
                        (PriceMismatch PaymentController.EXPECTED_TOTAL (req_amount b))), w)
          else if existsb (fun o => String.eqb (utr (payment o)) (castString (req_utr b)))
                          (payments w)
          then (Done (mkResponse 400 false UtrAlreadyUsed), w)
          else if validate (PaymentController.newOrder b bookname now)
          then
            let id := List.length (payments w) in
            let o := PaymentController.newOrder b bookname now in
            (Done (mkResponse 201 true (OrderPlaced id bookname (req_amount b) (req_utr b))),
             logged E (mkEmail CustomerOrderConfirmation (customerEmail o) id)
               (logged E (mkEmail AdminOrderNotification ADMIN_EMAIL id)
                  (mkWorld (payments w ++ [o]) (outbox w))))
          else (Done (mkResponse 500 false FailedToCreateOrder), w)
      end.
Proof.
  unfold PaymentController.createOrder, try_catch at 1.
  destruct (PaymentController.missing_field b); [reflexivity|].
  destruct (negb (includes _ (req_state b))); [reflexivity|].
  destruct (Book_findOne E _) as [bookname|]; [|reflexivity].
  destruct (negb (strict_eq_num _ _)); [reflexivity|].
  unfold bind at 1, Payment_findOne. cbv beta.
  destruct (existsb _ (payments w)) eqn:Hex.
  - destruct (find_documents_some _ (fun i o => (i, o)) _ (fun _ _ => eq_refl) Hex)
      as [d Hd].
    unfold documents. now rewrite Hd.
  - unfold documents.
    rewrite (find_documents_none _ (fun i o => (i, o)) _ (fun _ _ => eq_refl) Hex).
    unfold bind at 1, save_new.
    destruct (validate _) eqn:Hv; cbn [negb]; cbv beta iota; [|reflexivity].
    assert (Hdup : existsb
              (fun o' => String.eqb (utr (payment o'))
                           (utr (payment (PaymentController.newOrder b bookname now))))
              (payments w) = false) by exact Hex.
    rewrite Hdup.
    unfold bind, PaymentController.sendAdminOrderNotification,
      PaymentController.sendCustomerOrderConfirmation.
    rewrite deliver_logged. cbn [fst snd]. rewrite deliver_logged. reflexivity.
Qed.

(** *** The sweep *)

Lemma validate_marked now o : validate (marked now o) = validate o.
Proof. reflexivity. Qed.

Lemma readyForEmail_status now o :
  EmailScheduler.readyForEmail now o = true ->
  orderStatus o = "confirmed" \/ orderStatus o = "cancelled".
Proof.
  unfold EmailScheduler.readyForEmail. intros H.
  apply andb_true_iff in H as [_ H]. cbn [str_includes existsb] in H.
  rewrite orb_false_r in H. apply orb_true_iff in H as [H|H];
    apply String.eqb_eq in H; auto.
Qed.

Lemma sendStatusEmail_ready now i o w :
  EmailScheduler.readyForEmail now o = true ->
  EmailScheduler.sendStatusEmail E now (i, o) w =
    (Done tt,
     mkWorld (if validate o then <[i := marked now o]> (payments w) else payments w)
             (outbox w ++ [(deferred_email (i, o),
                            transport E (List.length (outbox w)) (deferred_email (i, o)))])).
Proof.
  intros Hr. unfold EmailScheduler.sendStatusEmail, try_catch at 1, bind.
  assert (Hsend :
    (if String.eqb (orderStatus (snd (i, o))) "confirmed"
     then EmailScheduler.sendOrderConfirmedEmail E (i, o)
     else if String.eqb (orderStatus (snd (i, o))) "cancelled"
          then EmailScheduler.sendOrderCancelledEmail E (i, o)
          else ret tt) w = (Done tt, logged E (deferred_email (i, o)) w)).
  { unfold deferred_email, EmailScheduler.sendOrderConfirmedEmail,
      EmailScheduler.sendOrderCancelledEmail. cbn [fst snd].
    destruct (readyForEmail_status _ _ Hr) as [Hs|Hs]; rewrite Hs; cbn [String.eqb];
      simpl; rewrite deliver_logged; reflexivity. }
  rewrite Hsend. unfold save. cbn [fst snd].
  change (set_emailSentDate (Some now) (set_emailSent true o)) with (marked now o).
  rewrite validate_marked.
  destruct (validate o); cbn [negb]; cbv beta iota; [|reflexivity].
  unfold logged. cbn [payments outbox].
  destruct (Nat.ltb i (List.length (payments w))) eqn:Hlt; [reflexivity|].
  apply Nat.ltb_ge in Hlt. now rewrite list_insert_ge.
Qed.

Lemma for_of_sweep now l : forall pre ob,
  for_of (List.filter (fun d => EmailScheduler.readyForEmail now (snd d))
            (imap (fun i o => ((List.length pre + i)%nat, o)) l))
         (EmailScheduler.sendStatusEmail E now) (mkWorld (pre ++ l) ob) =
  (Done tt,
   mkWorld (pre ++ List.map (swept now) l)
           (ob ++ attempts E (List.length ob)
                    (List.map deferred_email
                       (List.filter (fun d => EmailScheduler.readyForEmail now (snd d))
                          (imap (fun i o => ((List.length pre + i)%nat, o)) l))))).
Proof.
  induction l as [|o r IH]; intros pre ob.
  - cbn. now rewrite !app_nil_r.
  - cbn [imap]. 
    assert (Himap : imap ((fun i o0 => ((List.length pre + i)%nat, o0)) ∘ S) r =
                    imap (fun i o0 => ((List.length (pre ++ [swept now o]) + i)%nat, o0)) r).
    { apply imap_ext. intros j x _. cbn. f_equal. rewrite length_app. cbn. lia. }
    rewrite Himap. cbn [List.filter snd List.map].
    assert (Happ : forall x : Payment,
               (pre ++ x :: List.map (swept now) r
                = (pre ++ [x]) ++ List.map (swept now) r)%list).
    { intros x. now rewrite <- app_assoc. }
    destruct (EmailScheduler.readyForEmail now o) eqn:Hr.
    + cbn [for_of List.map attempts]. unfold bind at 1.
      rewrite (sendStatusEmail_ready _ _ _ _ Hr). cbn [payments outbox].
      assert (Hps : (if validate o
                     then <[(List.length pre + 0)%nat := marked now o]> (pre ++ o :: r)
                     else pre ++ o :: r) = (pre ++ [swept now o]) ++ r).
      { unfold swept. rewrite Hr. cbn [andb].
        destruct (validate o).
        - rewrite insert_app_r. cbn. now rewrite <- app_assoc.
        - now rewrite <- app_assoc. }
      rewrite Hps, IH. rewrite Happ. f_equal. f_equal.
      rewrite <- app_assoc. cbn [app]. do 3 f_equal.
      rewrite length_app. cbn. lia.
    + assert (Hsw : swept now o = o) by (unfold swept; now rewrite Hr).
      rewrite Hsw in *.
      replace (pre ++ o :: r) with ((pre ++ [o]) ++ r) by (now rewrite <- app_assoc).
      rewrite IH. now rewrite Happ.
Qed.

Lemma checkAndSendEmails_eq now w :
  EmailScheduler.checkAndSendEmails E now w =
    (Done tt,
     mkWorld (List.map (swept now) (payments w))
             (outbox w ++ attempts E (List.length (outbox w))
                            (List.map deferred_email (selected now (payments w))))).
Proof.
  unfold EmailScheduler.checkAndSendEmails, try_catch, bind, Payment_find, selected, documents.
  pose proof (for_of_sweep now (payments w) [] (outbox w)) as H.
  cbn [app List.length Nat.add] in H. rewrite world_eta in H. now rewrite H.
Qed.

End Equations.

(** ** One request, seen from the collection *)

Section Steps.
Context (E : env).

Lemma handle_store_step r now w :
  store_step E now (payments w) r (payments (handle E r now w)).
Proof.
  destruct r as [b|i|i b|i b|]; cbn [handle].
  - rewrite createOrder_eq.
    destruct (PaymentController.missing_field b) eqn:Hm; [constructor|].
    destruct (includes _ (req_state b)) eqn:Hs; cbn [negb]; [|constructor].
    destruct (Book_findOne E _) as [bookname|] eqn:Hb; [|constructor].
    destruct (strict_eq_num _ _) eqn:Ha; cbn [negb]; [|constructor].
    destruct (existsb _ (payments w)) eqn:Hex; [constructor|].
    destruct (validate _) eqn:Hv; [|constructor].
    cbn. apply step_create; auto.
    unfold controller_checks. cbn [payments]. now rewrite Hm, Hs, Hb, Ha, Hex.
  - unfold PaymentController.getOrder, try_catch, bind.
    destruct i as [n|]; [|constructor]. cbn.
    destruct (payments w !! n); constructor.
  - destruct i as [n|]; [|constructor].
    destruct (payments w !! n) as [o|] eqn:Hn.
    + rewrite (confirmOrder_found E _ _ _ _ _ Hn).
      destruct (validate _) eqn:Hv; [|constructor].
      cbn. now apply step_confirm.
    + rewrite (confirmOrder_missing E _ _ _ _ Hn). constructor.
  - destruct (includes PaymentController.validStatuses (req_status b)) eqn:Hs.
    2:{ rewrite (updateOrderStatus_invalid E _ _ _ _ Hs). constructor. }
    destruct i as [n|].
    2:{ rewrite (updateOrderStatus_malformed E _ _ _ Hs). constructor. }
    destruct (payments w !! n) as [o|] eqn:Hn.
    + rewrite (updateOrderStatus_found E _ _ _ _ _ Hs Hn).
      destruct (validate _) eqn:Hv; [|constructor].
      cbn. now apply step_update.
    + rewrite (updateOrderStatus_missing E _ _ _ _ Hs Hn). constructor.
  - rewrite checkAndSendEmails_eq. cbn. constructor.
Qed.

Lemma lookup_map {A B : Type} (f : A -> B) (l : list A) (i : nat) :
  List.map f l !! i = option_map f (l !! i).
Proof.
  revert i. induction l as [|x r IH]; intros [|i]; cbn; auto.
Qed.

Lemma store_step_lookup now l r l' i o :
  store_step E now l r l' ->
  l !! i = Some o ->
  exists o', l' !! i = Some o' /\ order_step now i o r o'.
Proof.
  intros Hstep Hi. destruct Hstep as [r|b bookname _ _ _|n o0 b Hn Hv|n o0 b Hs Hn Hv|].
  - exists o. split; [exact Hi|constructor].
  - exists o. split; [|constructor]. now apply lookup_app_l_Some.
  - destruct (decide (n = i)) as [->|Hne].
    + rewrite Hi in Hn. injection Hn as <-. eexists. split.
      * apply list_lookup_insert_eq. now apply lookup_lt_Some in Hi.
      * now constructor.
    + exists o. split; [|constructor]. now rewrite list_lookup_insert_ne.
  - destruct (decide (n = i)) as [->|Hne].
    + rewrite Hi in Hn. injection Hn as <-. eexists. split.
      * apply list_lookup_insert_eq. now apply lookup_lt_Some in Hi.
      * now constructor.
    + exists o. split; [|constructor]. now rewrite list_lookup_insert_ne.
  - exists (swept now o). split; [|constructor].
    rewrite lookup_map, Hi. reflexivity.
Qed.

Lemma handle_lookup r now w i o :
  payments w !! i = Some o ->
  exists o', payments (handle E r now w) !! i = Some o' /\ order_step now i o r o'.
Proof. apply store_step_lookup, handle_store_step. Qed.

(** A relation between the versions of an order that every single request
    respects is respected by every run. *)
Lemma run_lookup (R : Payment -> Payment -> Prop) :
  (forall o, R o o) ->
  (forall a b c, R a b -> R b c -> R a c) ->
  (forall now i o r o', order_step now i o r o' -> R o o') ->
  forall tr w i o,
    payments w !! i = Some o ->
    exists o', payments (run E tr w) !! i = Some o' /\ R o o'.
Proof.
  intros Hrefl Htrans Hstep tr.
  induction tr as [|[r now] rest IH]; intros w i o Hi; cbn [run].
  - eauto.
  - destruct (handle_lookup r now w i o Hi) as (o1 & H1 & Hs1).
    destruct (IH _ _ _ H1) as (o2 & H2 & HR).
    exists o2. split; [exact H2|]. eapply Htrans; [|exact HR]. eapply Hstep; eauto.
Qed.

(** Induction over the reachable worlds. *)
Lemma run_invariant (P : world -> Prop) :
  (forall w r now, P w -> P (handle E r now w)) ->
  forall tr w, P w -> P (run E tr w).
Proof.
  intros Hstep tr. induction tr as [|[r now] rest IH]; intros w Hw; cbn [run]; auto.
Qed.

Lemma reachable_invariant (P : world -> Prop) :
  P empty_world ->
  (forall w r now, P w -> P (handle E r now w)) ->
  forall w, reachable E w -> P w.
Proof.
  intros H0 Hstep w [tr ->]. now apply run_invariant.
Qed.

End Steps.

(** ** What the three writers do to each field *)

Section Fields.
Context (b : ConfirmBody) (sb : StatusBody) (now : Z) (o : Payment).

Lemma decided_verificationStatus :
  verificationStatus (payment (PaymentController.decided b now o)) =
    castString (js_or (req_verificationStatus b) (JStr "verified")).
Proof. reflexivity. Qed.

Lemma decided_orderStatus :
  orderStatus (PaymentController.decided b now o) =
    if strict_eq_str (req_verificationStatus b) "verified" then "confirmed" else "cancelled".
Proof. reflexivity. Qed.

Lemma decided_confirmedDate :
  confirmedDate (PaymentController.decided b now o) =
    if strict_eq_str (req_verificationStatus b) "verified" then Some now else None.
Proof. reflexivity. Qed.

Lemma decided_validate :
  validate (PaymentController.decided b now o) =
    validate_claim o
    && str_includes verificationStatusEnum
         (castString (js_or (req_verificationStatus b) (JStr "verified"))).
Proof.
  unfold validate. rewrite decided_orderStatus.
  change (validate_claim (PaymentController.decided b now o)) with (validate_claim o).
  rewrite decided_verificationStatus.
  destruct (strict_eq_str _ _); now rewrite andb_true_r.
Qed.

Lemma advanced_orderStatus :
  orderStatus (PaymentController.advanced sb now o) = castString (req_status sb).
Proof. split_advanced sb o; reflexivity. Qed.

Lemma advanced_shippedDate :
  shippedDate (PaymentController.advanced sb now o) =
    if strict_eq_str (req_status sb) "shipped" && unset (shippedDate o)
    then Some now else shippedDate o.
Proof. split_advanced sb o; reflexivity. Qed.

Lemma advanced_deliveredDate :
  deliveredDate (PaymentController.advanced sb now o) =
    if strict_eq_str (req_status sb) "delivered" && unset (deliveredDate o)
    then Some now else deliveredDate o.
Proof. split_advanced sb o; reflexivity. Qed.

(** The fields [updateOrderStatus] never assigns. *)
Lemma advanced_keeps :
  confirmedDate (PaymentController.advanced sb now o) = confirmedDate o
  /\ payment (PaymentController.advanced sb now o) = payment o
  /\ bookDetails (PaymentController.advanced sb now o) = bookDetails o
  /\ emailSent (PaymentController.advanced sb now o) = emailSent o
  /\ createdAt (PaymentController.advanced sb now o) = createdAt o
  /\ customerEmail (PaymentController.advanced sb now o) = customerEmail o
  /\ validate_claim (PaymentController.advanced sb now o) = validate_claim o.
Proof. split_advanced sb o; repeat split; reflexivity. Qed.

Lemma includes_validStatuses (v : jsval) :
  includes PaymentController.validStatuses v = true <->
  v = JStr "pending" \/ v = JStr "confirmed" \/ v = JStr "processing"
  \/ v = JStr "shipped" \/ v = JStr "delivered" \/ v = JStr "cancelled".
Proof.
  unfold includes, PaymentController.validStatuses. cbn [existsb].
  rewrite !orb_true_iff. unfold strict_eq_str. split.
  - destruct v as [| | |?|s]; intros H;
      repeat (destruct H as [H|H]); try discriminate;
      apply String.eqb_eq in H; subst; tauto.
  - intros H; repeat (destruct H as [H|H]); subst; cbn; tauto.
Qed.

Lemma advanced_validate :
  includes PaymentController.validStatuses (req_status sb) = true ->
  validate (PaymentController.advanced sb now o) =
    validate_claim o && str_includes verificationStatusEnum (verificationStatus (payment o)).
Proof.
  intros Hs. unfold validate. rewrite advanced_orderStatus.
  destruct advanced_keeps as (_ & -> & _ & _ & _ & _ & ->).
  apply includes_validStatuses in Hs.
  assert (Hin : str_includes orderStatusEnum (castString (req_status sb)) = true).
  { repeat (destruct Hs as [Hs|Hs]); rewrite Hs; reflexivity. }
  now rewrite Hin, andb_true_r.
Qed.


Lemma decided_valid :
  validate o = true ->
  str_includes verificationStatusEnum
    (castString (js_or (req_verificationStatus b) (JStr "verified"))) = true ->
  validate (PaymentController.decided b now o) = true.
Proof.
  intros Hv Hin. rewrite decided_validate, Hin, andb_true_r.
  unfold validate in Hv. apply andb_true_iff in Hv as [Hv _].
  now apply andb_true_iff in Hv as [Hv _].
Qed.

Lemma swept_validate : validate (swept now o) = validate o.
Proof. unfold swept. destruct (_ && _); reflexivity. Qed.

(** The fields the sweep never assigns. *)
Lemma swept_keeps :
  confirmedDate (swept now o) = confirmedDate o
  /\ shippedDate (swept now o) = shippedDate o
  /\ deliveredDate (swept now o) = deliveredDate o
  /\ payment (swept now o) = payment o
  /\ bookDetails (swept now o) = bookDetails o
  /\ orderStatus (swept now o) = orderStatus o
  /\ createdAt (swept now o) = createdAt o.
Proof. unfold swept. destruct (_ && _); repeat split; reflexivity. Qed.

Lemma swept_emailSent :
  emailSent (swept now o) = emailSent o || (EmailScheduler.readyForEmail now o && validate o).
Proof.
  unfold swept. destruct (_ && _); cbn [marked set_emailSent set_emailSentDate emailSent].
  - now rewrite orb_true_r.
  - now rewrite orb_false_r.
Qed.

End Fields.

(** ** Invariants of the collection *)

Section Invariants.
Context (E : env).

Lemma store_step_valid now l r l' :
  store_step E now l r l' -> store_valid l -> store_valid l'.
Proof.
  intros Hstep Hl i o Hi.
  destruct Hstep as [r|b bookname _ _ Hv|n o0 b Hn Hv|n o0 b Hs Hn Hv|].
  - eauto.
  - apply lookup_app_Some in Hi as [Hi|[_ Hi]]; [eauto|].
    apply list_lookup_singleton_Some in Hi as [_ <-]. exact Hv.
  - apply list_lookup_insert_Some in Hi as [(-> & <- & _)|[_ Hi]]; eauto.
  - apply list_lookup_insert_Some in Hi as [(-> & <- & _)|[_ Hi]]; eauto.
  - rewrite lookup_map in Hi. destruct (l !! i) as [o0|] eqn:H0; [|discriminate].
    injection Hi as <-. rewrite swept_validate. eauto.
Qed.

Lemma reachable_valid w : reachable E w -> store_valid (payments w).
Proof.
  revert w. apply reachable_invariant.
  - intros i o Hi. discriminate.
  - intros w r now Hw. eapply store_step_valid; [apply handle_store_step|exact Hw].
Qed.

Lemma map_insert_same {A B : Type} (f : A -> B) (l : list A) n x y :
  l !! n = Some y -> f x = f y -> List.map f (<[n := x]> l) = List.map f l.
Proof.
  revert n. induction l as [|a r IH]; intros [|n] Hn Hf; cbn in *; try discriminate.
  - injection Hn as ->. now rewrite Hf.
  - f_equal. now apply IH.
Qed.

Lemma existsb_utr_false l u :
  existsb (fun o => String.eqb (utr (payment o)) u) l = false -> ~ In u (utrs l).
Proof.
  induction l as [|o r IH]; cbn; [tauto|].
  intros H [Heq|Hin]; apply orb_false_iff in H as [Ho Hr].
  - rewrite Heq, String.eqb_refl in Ho. discriminate.
  - now apply IH.
Qed.

Lemma store_step_utrs now l r l' :
  store_step E now l r l' -> NoDup (utrs l) -> NoDup (utrs l').
Proof.
  intros Hstep Hl.
  destruct Hstep as [r|b bookname Hc _ _|n o0 b Hn Hv|n o0 b Hs Hn Hv|].
  - exact Hl.
  - unfold utrs. rewrite List.map_app. cbn [List.map].
    apply NoDup_app. split; [exact Hl|]. split; [|apply NoDup_singleton].
    intros u Hu Hu'. apply list_elem_of_singleton in Hu'. subst u.
    unfold controller_checks in Hc. apply andb_true_iff in Hc as [_ Hc].
    apply negb_true_iff in Hc. cbn [payments] in Hc.
    apply existsb_utr_false in Hc. apply Hc. now apply list_elem_of_In.
  - unfold utrs. now rewrite (map_insert_same _ _ _ _ _ Hn).
  - unfold utrs. rewrite (map_insert_same _ _ _ _ _ Hn); [exact Hl|].
    now destruct (advanced_keeps b now o0) as (_ & -> & _).
  - unfold utrs. rewrite List.map_map.
    erewrite List.map_ext; [exact Hl|].
    intros o. cbv beta. now destruct (swept_keeps now o) as (_ & _ & _ & -> & _).
Qed.

Lemma reachable_utrs w : reachable E w -> NoDup (utrs (payments w)).
Proof.
  revert w. apply reachable_invariant.
  - constructor.
  - intros w r now Hw. eapply store_step_utrs; [apply handle_store_step|exact Hw].
Qed.

Lemma lookup_utrs l i o : l !! i = Some o -> utrs l !! i = Some (utr (payment o)).
Proof. intros H. unfold utrs. now rewrite lookup_map, H. Qed.

End Invariants.

(** ** The sample worlds *)

Lemma sample_placed : payments Sample.w_placed = [Sample.placed_order].
Proof. vm_compute. reflexivity. Qed.

Lemma sample_confirmed : payments Sample.w_confirmed = [Sample.confirmed_order].
Proof. vm_compute. reflexivity. Qed.

Lemma sample_shipped : payments Sample.w_shipped = [Sample.shipped_order].
Proof. vm_compute. reflexivity. Qed.

Lemma sample_delivered : payments Sample.w_delivered = [Sample.delivered_order].
Proof. vm_compute. reflexivity. Qed.

Lemma sample_reachable tr : reachable Sample.E_down (run Sample.E_down tr empty_world).
Proof. now exists tr. Qed.

(** The end-to-end scenarios of the specification, evaluated. *)

(** A: the order with amount 35 is placed, with book price 1 and amount 35, and
    the admin and the customer are written to. *)
Example scenario_A :
  PaymentController.createOrder Sample.E_up Sample.order_body 1000 empty_world =
    (Done (mkResponse 201 true (OrderPlaced 0 "Ramayana" (JNum 35) (JStr "123456789012"))),
     mkWorld [Sample.placed_order]
       [(mkEmail AdminOrderNotification ADMIN_EMAIL 0, true);
        (mkEmail CustomerOrderConfirmation "asha@example.com" 0, true)])
  /\ price (bookDetails Sample.placed_order) = 1
  /\ amount (payment Sample.placed_order) = 35
  /\ orderStatus Sample.placed_order = "pending".
Proof. vm_compute. repeat split. Qed.

(** B: an order for Kerala is answered with 400 and not stored. *)
Example scenario_B :
  PaymentController.createOrder Sample.E_up Sample.kerala_body 1000 empty_world =
    (Done (mkResponse 400 false StateNotServed), empty_world).
Proof. vm_compute. reflexivity. Qed.

(** C: an order rejected at time 2000 is not selected by a sweep one hour
    after its creation, and is selected once by a sweep two hours after it,
    which leaves it marked; the rejection itself had already written to the
    customer. *)
Example scenario_C :
  let w := run Sample.E_up
             (Sample.placed ++ [(ConfirmOrder (ObjectId 0) Sample.failed, 2000)])
             empty_world in
  List.map fst (outbox w) =
    [mkEmail AdminOrderNotification ADMIN_EMAIL 0;
     mkEmail CustomerOrderConfirmation "asha@example.com" 0;
     mkEmail OrderCancelledEmail "asha@example.com" 0]
  /\ handle Sample.E_up Sweep 3601000 w = w
  /\ List.map fst (outbox (handle Sample.E_up Sweep 7201000 w)) =
       List.map fst (outbox w) ++ [mkEmail DeferredCancelledEmail "asha@example.com" 0]
  /\ List.map emailSent (payments (handle Sample.E_up Sweep 7201000 w)) = [true]
  /\ handle Sample.E_up Sweep 7202000 (handle Sample.E_up Sweep 7201000 w) =
       handle Sample.E_up Sweep 7201000 w.
Proof. vm_compute. repeat split. Qed.

(** ** C1: the lifecycle timestamps *)

Section Timestamps.
Context (E : env).

(** Whatever a request does to an order, a shipping or delivery date that was
    set stays as it is. *)
Lemma order_step_dates now i o r o' :
  order_step now i o r o' ->
  (forall t, shippedDate o = Some t -> shippedDate o' = Some t)
  /\ (forall t, deliveredDate o = Some t -> deliveredDate o' = Some t).
Proof.
  intros [r0|b _|b _ _|]; split; intros t Ht; auto.
  - rewrite advanced_shippedDate, Ht. cbn [unset]. now rewrite andb_false_r.
  - rewrite advanced_deliveredDate, Ht. cbn [unset]. now rewrite andb_false_r.
  - now destruct (swept_keeps now o) as (_ & -> & _).
  - now destruct (swept_keeps now o) as (_ & _ & -> & _).
Qed.

Lemma order_step_confirmedDate now i o r o' :
  order_step now i o r o' ->
  (forall b, r <> ConfirmOrder (ObjectId i) b) ->
  confirmedDate o' = confirmedDate o.
Proof.
  intros [r0|b _|b _ _|] Hr; auto.
  - now destruct (Hr b).
  - now destruct (advanced_keeps b now o) as (-> & _).
  - now destruct (swept_keeps now o) as (-> & _).
Qed.

End Timestamps.

(** C1, as stated, fails on the code.  An order confirmed at time 2000 and then
    rejected at time 3000 loses its [confirmedDate], and confirmed again at time
    3000 it gets a new one: [confirmOrder] assigns the field on every call. *)
Lemma confirmedDate_is_rewritten :
  ~ confirmedDate_set_once Sample.E_down Sample.w_confirmed 0 Sample.failed 3000
  /\ ~ confirmedDate_set_once Sample.E_down Sample.w_confirmed 0 Sample.verified 3000.
Proof.
  split; intros H.
  - specialize (H Sample.confirmed_order
                  (PaymentController.decided Sample.failed 3000 Sample.confirmed_order)).
    assert (H' := H ltac:(vm_compute; reflexivity) ltac:(vm_compute; reflexivity)).
    vm_compute in H'. discriminate.
  - specialize (H Sample.confirmed_order
                  (PaymentController.decided Sample.verified 3000 Sample.confirmed_order)).
    assert (H' := H ltac:(vm_compute; reflexivity) ltac:(vm_compute; reflexivity)).
    vm_compute in H'. discriminate.
Qed.

(** C1, amended.  For a stored order [o]:
    - a Decide whose save is accepted writes [confirmedDate]: now when the
      outcome is verified, null otherwise, whatever the field held; it leaves
      [shippedDate] and [deliveredDate] alone; a refused save changes nothing;
    - an AdvanceStatus that is accepted sets [shippedDate] (resp.
      [deliveredDate]) to now exactly when the new status is shipped (resp.
      delivered) and the field is unset, and leaves [confirmedDate] alone;
    - no request other than a Decide on this order changes [confirmedDate];
    - over any run of requests, a [shippedDate] or [deliveredDate] that is set
      is never overwritten or cleared. *)
Theorem timestamps_lifecycle (E : env) (w : world) (i : nat) (o : Payment) :
  payments w !! i = Some o ->
  (forall b now,
      exists o',
        payments (handle E (ConfirmOrder (ObjectId i) b) now w) !! i = Some o'
        /\ shippedDate o' = shippedDate o
        /\ deliveredDate o' = deliveredDate o
        /\ if validate (PaymentController.decided b now o)
           then confirmedDate o' =
                  (if strict_eq_str (req_verificationStatus b) "verified"
                   then Some now else None)
           else o' = o)
  /\ (forall b now,
      exists o',
        payments (handle E (UpdateOrderStatus (ObjectId i) b) now w) !! i = Some o'
        /\ confirmedDate o' = confirmedDate o
        /\ if includes PaymentController.validStatuses (req_status b)
              && validate (PaymentController.advanced b now o)
           then shippedDate o' =
                  (if strict_eq_str (req_status b) "shipped" && unset (shippedDate o)
                   then Some now else shippedDate o)
                /\ deliveredDate o' =
                  (if strict_eq_str (req_status b) "delivered" && unset (deliveredDate o)
                   then Some now else deliveredDate o)
           else o' = o)
  /\ (forall r now,
      (forall b, r <> ConfirmOrder (ObjectId i) b) ->
      exists o',
        payments (handle E r now w) !! i = Some o' /\ confirmedDate o' = confirmedDate o)
  /\ (forall tr,
      exists o',
        payments (run E tr w) !! i = Some o'
        /\ (forall t, shippedDate o = Some t -> shippedDate o' = Some t)
        /\ (forall t, deliveredDate o = Some t -> deliveredDate o' = Some t)).
Proof.
  intros Hi. pose proof (lookup_lt_Some _ _ _ Hi) as Hlt.
  split; [|split; [|split]].
  - intros b now. cbn [handle]. rewrite (confirmOrder_found E _ _ _ _ _ Hi).
    destruct (validate _) eqn:Hv; cbn [snd logged payments].
    + eexists. split; [now apply list_lookup_insert_eq|]. repeat split.
    + exists o. auto.
  - intros b now. cbn [handle].
    destruct (includes _ (req_status b)) eqn:Hs; cbn [andb].
    + rewrite (updateOrderStatus_found E _ _ _ _ _ Hs Hi).
      destruct (validate _) eqn:Hv; cbn [snd payments].
      * eexists. split; [now apply list_lookup_insert_eq|].
        destruct (advanced_keeps b now o) as (-> & _).
        rewrite advanced_shippedDate, advanced_deliveredDate. auto.
      * exists o. auto.
    + rewrite (updateOrderStatus_invalid E _ _ _ _ Hs). exists o. auto.
  - intros r now Hr. destruct (handle_lookup E r now w i o Hi) as (o' & Ho' & Hstep).
    exists o'. split; [exact Ho'|]. eapply order_step_confirmedDate; eauto.
  - intros tr.
    apply (run_lookup E
             (fun a c => (forall t, shippedDate a = Some t -> shippedDate c = Some t)
                         /\ (forall t, deliveredDate a = Some t -> deliveredDate c = Some t)));
      auto.
    + intros a c d [H1 H2] [H3 H4]. split; auto.
    + intros now j a r c Hstep. eapply order_step_dates; eauto.
Qed.

(** The theorem at the sample order that was shipped at time 3000: neither a
    second "shipped" nor a rejection changes its [shippedDate]. *)
Lemma timestamps_lifecycle_witness :
  exists o',
    payments (run Sample.E_down
                [(UpdateOrderStatus (ObjectId 0) (Sample.to_status "shipped"), 9000);
                 (ConfirmOrder (ObjectId 0) Sample.failed, 9500)]
                Sample.w_shipped) !! 0%nat = Some o'
    /\ shippedDate o' = Some 3000.
Proof.
  destruct (timestamps_lifecycle Sample.E_down Sample.w_shipped 0 Sample.shipped_order)
    as (_ & _ & _ & Hrun).
  - vm_compute. reflexivity.
  - destruct (Hrun [(UpdateOrderStatus (ObjectId 0) (Sample.to_status "shipped"), 9000);
                    (ConfirmOrder (ObjectId 0) Sample.failed, 9500)])
      as (o' & Ho' & Hs & _).
    exists o'. split; [exact Ho'|]. apply Hs. vm_compute. reflexivity.
Defined.

(** ** C2: what Decide sends *)

(** C2, as stated, fails on the code.  Confirming the sample order adds an
    attempt of the order-confirmed e-mail to the log before the response: the
    handler awaits [sendOrderConfirmedEmail] (or [sendOrderCancelledEmail])
    right after the save. *)
Lemma decide_sends_at_once :
  ~ decide_sends_nothing Sample.E_down Sample.w_placed 0 Sample.verified 2000.
Proof.
  unfold decide_sends_nothing. intros H. vm_compute in H. discriminate.
Qed.

(** C2, amended.  For a stored order, a Decide whose save is accepted makes
    exactly one synchronous attempt at a customer-facing e-mail, the
    order-confirmed one when the outcome is verified and the order-cancelled
    one otherwise, addressed to the order's customer; it does not touch
    [emailSent], so an order not yet notified by the sweep is selected by every
    sweep that runs two hours or more after the order was created.  A Decide
    whose save is refused sends nothing and changes nothing. *)
Theorem confirmOrder_notifies_at_once
    (E : env) (w : world) (i : nat) (o : Payment) (b : ConfirmBody) (now : Z) :
  payments w !! i = Some o ->
  let w' := handle E (ConfirmOrder (ObjectId i) b) now w in
  let e := decision_email b (i, PaymentController.decided b now o) in
  if validate (PaymentController.decided b now o)
  then outbox w' = outbox w ++ [(e, transport E (List.length (outbox w)) e)]
       /\ customer_facing e = true
       /\ mail_to e = customerEmail o
       /\ mail_order e = i
       /\ mail_template e =
            (if strict_eq_str (req_verificationStatus b) "verified"
             then OrderConfirmedEmail else OrderCancelledEmail)
       /\ exists o',
            payments w' !! i = Some o'
            /\ emailSent o' = emailSent o
            /\ emailSentDate o' = emailSentDate o
            /\ forall later,
                 emailSent o = false ->
                 createdAt o <= EmailScheduler.twoHoursAgo later ->
                 EmailScheduler.readyForEmail later o' = true
  else w' = w.
Proof.
  intros Hi w' e. subst w' e. cbn [handle].
  rewrite (confirmOrder_found E _ _ _ _ _ Hi).
  destruct (validate _) eqn:Hv; cbn [snd]; [|reflexivity].
  unfold logged. cbn [outbox payments].
  split; [reflexivity|].
  split; [unfold customer_facing, decision_email; cbn; now destruct (strict_eq_str _ _)|].
  do 3 (split; [reflexivity|]).
  eexists. split; [apply list_lookup_insert_eq; now apply lookup_lt_Some in Hi|].
  do 2 (split; [reflexivity|]).
  intros later Hsent Hlate. unfold EmailScheduler.readyForEmail.
  change (createdAt (PaymentController.decided b now o)) with (createdAt o).
  change (emailSent (PaymentController.decided b now o)) with (emailSent o).
  rewrite Hsent, decided_orderStatus.
  assert (Hle : (createdAt o <=? EmailScheduler.twoHoursAgo later) = true)
    by (now apply Z.leb_le).
  rewrite Hle. now destruct (strict_eq_str _ _).
Qed.

(** The theorem at the sample order: confirming it logs one order-confirmed
    attempt to the customer. *)
Lemma confirmOrder_notifies_at_once_witness :
  outbox (handle Sample.E_down (ConfirmOrder (ObjectId 0) Sample.verified) 2000
            Sample.w_placed) =
  outbox Sample.w_placed ++ [(mkEmail OrderConfirmedEmail "asha@example.com" 0, false)].
Proof.
  pose proof (confirmOrder_notifies_at_once Sample.E_down Sample.w_placed 0
                Sample.placed_order Sample.verified 2000) as H.
  assert (Hi : payments Sample.w_placed !! 0%nat = Some Sample.placed_order)
    by (vm_compute; reflexivity).
  specialize (H Hi). cbv zeta in H.
  assert (Hv : validate (PaymentController.decided Sample.verified 2000 Sample.placed_order)
               = true) by (vm_compute; reflexivity).
  rewrite Hv in H. destruct H as (H & _). rewrite H. vm_compute. reflexivity.
Defined.

(** ** C3, C4, C5: the sweep *)

Section SweepFacts.
Context (E : env).

Lemma readyForEmail_iff now o :
  EmailScheduler.readyForEmail now o = true <->
  (orderStatus o = "confirmed" \/ orderStatus o = "cancelled")
  /\ emailSent o = false
  /\ 2 * 60 * 60 * 1000 <= now - createdAt o.
Proof.
  unfold EmailScheduler.readyForEmail, EmailScheduler.twoHoursAgo.
  rewrite !andb_true_iff, negb_true_iff, Z.leb_le.
  cbn [str_includes existsb]. rewrite orb_false_r, orb_true_iff, !String.eqb_eq.
  split; intros H; repeat split; try tauto; lia.
Qed.

Lemma selected_lookup now l i o :
  In (i, o) (selected now l) <-> l !! i = Some o /\ EmailScheduler.readyForEmail now o = true.
Proof.
  unfold selected, documents. rewrite List.filter_In, <- list_elem_of_In.
  rewrite elem_of_lookup_imap. cbn [snd]. split.
  - intros [(j & x & Heq & Hj) Hr]. injection Heq as -> ->. auto.
  - intros [Hi Hr]. split; [eauto|exact Hr].
Qed.

Lemma selected_ids_from (p : doc -> bool) l : forall k,
  NoDup (List.map fst (List.filter p (imap (fun j o => ((k + j)%nat, o)) l)))
  /\ forall x, In x (List.map fst (List.filter p (imap (fun j o => ((k + j)%nat, o)) l))) ->
               (k <= x)%nat.
Proof.
  induction l as [|o r IH]; intros k.
  - cbn. split; [constructor|tauto].
  - cbn [imap].
    assert (Himap : imap ((fun j o0 => ((k + j)%nat, o0)) ∘ S) r =
                    imap (fun j o0 => ((S k + j)%nat, o0)) r).
    { apply imap_ext. intros j x _. cbn. f_equal. lia. }
    rewrite Himap. destruct (IH (S k)) as [Hnd Hge]. cbn [List.filter].
    destruct (p _).
    + cbn [List.map fst]. split.
      * constructor; [|exact Hnd].
        intros Hin. apply list_elem_of_In, Hge in Hin. lia.
      * intros x [<-|Hin]; [lia|]. apply Hge in Hin. lia.
    + split; [exact Hnd|]. intros x Hin. apply Hge in Hin. lia.
Qed.

Lemma selected_NoDup now l : NoDup (List.map fst (selected now l)).
Proof.
  unfold selected, documents.
  exact (proj1 (selected_ids_from (fun d => EmailScheduler.readyForEmail now (snd d)) l 0)).
Qed.

Lemma attempts_emails n es : List.map fst (attempts E n es) = es.
Proof. revert n. induction es as [|e r IH]; intros n; cbn; [|rewrite IH]; reflexivity. Qed.

Lemma deferred_email_ids ds :
  List.map mail_order (List.map deferred_email ds) = List.map fst ds.
Proof. rewrite List.map_map. reflexivity. Qed.

Lemma attempts_In n es e :
  In e es -> exists ok, In (e, ok) (attempts E n es).
Proof.
  intros Hin. rewrite <- (attempts_emails n es) in Hin.
  apply List.in_map_iff in Hin as ([e' ok] & Heq & Hin). cbn in Heq. subst e'. eauto.
Qed.

Lemma sweep_payments now w :
  payments (handle E Sweep now w) = List.map (swept now) (payments w).
Proof. cbn [handle]. now rewrite checkAndSendEmails_eq. Qed.

Lemma sweep_outbox now w :
  outbox (handle E Sweep now w) =
    outbox w ++ attempts E (List.length (outbox w))
                  (List.map deferred_email (selected now (payments w))).
Proof. cbn [handle]. now rewrite checkAndSendEmails_eq. Qed.

Lemma order_step_emailSent now i o r o' :
  order_step now i o r o' -> emailSent o = true -> emailSent o' = true.
Proof.
  intros [r0|b _|b _ _|] Hs; auto.
  - now destruct (advanced_keeps b now o) as (_ & _ & _ & -> & _).
  - rewrite swept_emailSent, Hs. reflexivity.
Qed.

End SweepFacts.

(** C3.  A sweep at time [now] adds to the log one attempt per selected order,
    in store order, with the template picked by the order's status; the
    selected orders are exactly the stored orders whose status is confirmed or
    cancelled, whose [emailSent] is false and whose creation lies two hours
    (7,200,000 ms) or more before [now]; no order is selected twice. *)
Theorem sweep_dispatches_eligible (E : env) (now : Z) (w : world) :
  exists log,
    outbox (handle E Sweep now w) = outbox w ++ log
    /\ List.map fst log = List.map deferred_email (selected now (payments w))
    /\ (forall i o,
          In (i, o) (selected now (payments w)) <->
          payments w !! i = Some o
          /\ (orderStatus o = "confirmed" \/ orderStatus o = "cancelled")
          /\ emailSent o = false
          /\ 2 * 60 * 60 * 1000 <= now - createdAt o)
    /\ NoDup (List.map fst (selected now (payments w)))
    /\ (forall i o,
          deferred_email (i, o) =
            mkEmail (if String.eqb (orderStatus o) "confirmed"
                     then DeferredConfirmedEmail else DeferredCancelledEmail)
                    (customerEmail o) i).
Proof.
  eexists. split; [apply sweep_outbox|].
  split; [apply attempts_emails|].
  split; [|split; [apply selected_NoDup|reflexivity]].
  intros i o. rewrite selected_lookup, readyForEmail_iff. tauto.
Qed.

(** The theorem in the sample world, two hours after the order was placed: the
    one order, confirmed and not yet notified, is selected. *)
Lemma sweep_dispatches_eligible_witness :
  In (0%nat, Sample.confirmed_order) (selected 7201000 (payments Sample.w_confirmed)).
Proof.
  destruct (sweep_dispatches_eligible Sample.E_down 7201000 Sample.w_confirmed)
    as (log & _ & _ & Hsel & _).
  apply Hsel. vm_compute. repeat split; try discriminate. now left.
Defined.

(** C4.  For every transport, and so whether each send goes through or throws:
    every order the sweep selects has its attempt logged, and, its save being
    accepted, ends with [emailSent] true and [emailSentDate] stamped with the
    time of the sweep, whatever happened to the orders before it in the loop.
    In a reachable world every stored order is accepted by the save. *)
Theorem sweep_marks_sent (E : env) (now : Z) (w : world) (i : nat) (o : Payment) :
  payments w !! i = Some o ->
  EmailScheduler.readyForEmail now o = true ->
  (exists log ok,
      outbox (handle E Sweep now w) = outbox w ++ log
      /\ In (deferred_email (i, o), ok) log)
  /\ (validate o = true ->
      exists o',
        payments (handle E Sweep now w) !! i = Some o'
        /\ emailSent o' = true
        /\ emailSentDate o' = Some now)
  /\ (reachable E w -> validate o = true).
Proof.
  intros Hi Hr. split; [|split].
  - assert (Hin : In (deferred_email (i, o))
                     (List.map deferred_email (selected now (payments w)))).
    { apply List.in_map. now apply selected_lookup. }
    destruct (attempts_In E (List.length (outbox w)) _ _ Hin) as [ok Hok].
    eexists. exists ok. split; [apply sweep_outbox|exact Hok].
  - intros Hv. exists (marked now o). rewrite sweep_payments, lookup_map, Hi.
    cbn [option_map]. unfold swept. rewrite Hr, Hv. auto.
  - intros Hreach. eapply reachable_valid; eauto.
Qed.

(** The theorem in the sample world, once with the transport that refuses
    every attempt and once with the one that accepts every one: the order is
    marked as sent both times. *)
Lemma sweep_marks_sent_witness :
  (exists o',
      payments (handle Sample.E_down Sweep 7201000 Sample.w_confirmed) !! 0%nat = Some o'
      /\ emailSent o' = true
      /\ emailSentDate o' = Some 7201000)
  /\ (exists o',
      payments (handle Sample.E_up Sweep 7201000 Sample.w_confirmed) !! 0%nat = Some o'
      /\ emailSent o' = true
      /\ emailSentDate o' = Some 7201000).
Proof.
  split.
  - destruct (sweep_marks_sent Sample.E_down 7201000 Sample.w_confirmed 0
                Sample.confirmed_order) as (_ & Hmark & _).
    + vm_compute. reflexivity.
    + vm_compute. reflexivity.
    + apply Hmark. vm_compute. reflexivity.
  - destruct (sweep_marks_sent Sample.E_up 7201000 Sample.w_confirmed 0
                Sample.confirmed_order) as (_ & Hmark & _).
    + vm_compute. reflexivity.
    + vm_compute. reflexivity.
    + apply Hmark. vm_compute. reflexivity.
Defined.

(** C5.  From a reachable world, two sweeps in a row (at any two times) send
    only decision notifications, and no order has two of them: an order the
    first sweep selected is not selected by the second, because the first left
    it with [emailSent] true; and over any run of requests, an [emailSent] that
    is true stays true. *)
Theorem sweep_twice (E : env) (w : world) (now1 now2 : Z) :
  reachable E w ->
  let w1 := handle E Sweep now1 w in
  let w2 := handle E Sweep now2 w1 in
  exists log1 log2,
    outbox w1 = outbox w ++ log1
    /\ outbox w2 = outbox w1 ++ log2
    /\ (forall i o,
          In (i, o) (selected now1 (payments w)) ->
          ~ In i (List.map fst (selected now2 (payments w1))))
    /\ NoDup (List.map mail_order (List.map fst (log1 ++ log2)))
    /\ (forall e ok, In (e, ok) (log1 ++ log2) -> deferred_template (mail_template e) = true)
    /\ (forall tr i o,
          payments w !! i = Some o ->
          emailSent o = true ->
          exists o', payments (run E tr w) !! i = Some o' /\ emailSent o' = true).
Proof.
  intros Hreach w1 w2. subst w1 w2.
  pose proof (reachable_valid E w Hreach) as Hvalid.
  assert (Hdisj : forall i o,
             In (i, o) (selected now1 (payments w)) ->
             ~ In i (List.map fst (selected now2 (payments (handle E Sweep now1 w))))).
  { intros i o Hsel Hin. apply selected_lookup in Hsel as [Hi Hr1].
    apply List.in_map_iff in Hin as ([j o2] & Hj & Hin). cbn in Hj. subst j.
    apply selected_lookup in Hin as [Hi2 Hr2].
    rewrite sweep_payments, lookup_map, Hi in Hi2. cbn in Hi2. injection Hi2 as <-.
    apply readyForEmail_iff in Hr2 as (_ & Hsent & _).
    rewrite swept_emailSent, Hr1, (Hvalid _ _ Hi), orb_true_r in Hsent. discriminate. }
  eexists. eexists.
  split; [apply sweep_outbox|]. split; [apply sweep_outbox|].
  split; [exact Hdisj|]. split; [|split].
  - rewrite !List.map_app, !attempts_emails, !deferred_email_ids.
    apply NoDup_app. split; [apply selected_NoDup|]. split; [|apply selected_NoDup].
    intros i Hi1 Hi2. apply list_elem_of_In in Hi1, Hi2.
    apply List.in_map_iff in Hi1 as ([j o] & Hj & Hin). cbn in Hj. subst j.
    exact (Hdisj _ _ Hin Hi2).
  - intros e ok Hin.
    assert (He : In e (List.map fst
                         (attempts E (List.length (outbox w))
                            (List.map deferred_email (selected now1 (payments w)))
                          ++ attempts E (List.length (outbox (handle E Sweep now1 w)))
                               (List.map deferred_email
                                  (selected now2 (payments (handle E Sweep now1 w))))))).
    { apply List.in_map_iff. exists (e, ok). auto. }
    rewrite List.map_app, !attempts_emails in He.
    apply List.in_app_iff in He as [He|He];
      apply List.in_map_iff in He as (d & <- & _);
      unfold deferred_email; cbn [mail_template];
      destruct (String.eqb _ _); reflexivity.
  - intros tr i o Hi Hs.
    destruct (run_lookup E (fun a c => emailSent a = true -> emailSent c = true))
      with (tr := tr) (w := w) (i := i) (o := o) as (o' & Ho' & HR); auto.
    + intros now j a r c Hstep. eapply order_step_emailSent; eauto.
    + eauto.
Qed.

(** The theorem from the sample world: the second sweep does not select the
    order again. *)
Lemma sweep_twice_witness :
  ~ In 0%nat
      (List.map fst
         (selected 7202000
            (payments (handle Sample.E_down Sweep 7201000 Sample.w_confirmed)))).
Proof.
  destruct (sweep_twice Sample.E_down Sample.w_confirmed 7201000 7202000
              (sample_reachable Sample.confirmed))
    as (log1 & log2 & _ & _ & Hdisj & _).
  apply (Hdisj 0%nat Sample.confirmed_order).
  apply selected_lookup. split; vm_compute; reflexivity.
Defined.

(** ** C6: which statuses AdvanceStatus accepts, and whether any is terminal *)




(** ** C7, C8, C9: what [createOrder] refuses *)

Section Creation.
Context (E : env).

Lemma validate_shapes o :
  validate o = true ->
  digits_exactly 10 (mobile o) = true
  /\ digits_exactly 6 (pincode (address o)) = true
  /\ digits_exactly 12 (utr (payment o)) = true.
Proof.
  unfold validate, validate_claim. rewrite !andb_true_iff. tauto.
Qed.

Lemma malformed_invalid b bookname now :
  malformed b -> validate (PaymentController.newOrder b bookname now) = false.
Proof.
  intros Hm. destruct (validate _) eqn:Hv; [|reflexivity].
  apply validate_shapes in Hv as (H1 & H2 & H3).
  cbn [PaymentController.newOrder mobile address pincode payment utr] in H1, H2, H3.
  destruct Hm as [H|[H|H]]; congruence.
Qed.

Lemma strict_eq_num_eq v n : strict_eq_num v n = true -> v = JNum n.
Proof.
  destruct v as [| | |m|]; cbn; try discriminate.
  intros H. apply Z.eqb_eq in H. now subst.
Qed.

Lemma lookup_existsb_utr (l : list Payment) i o u :
  l !! i = Some o -> utr (payment o) = u ->
  existsb (fun o' => String.eqb (utr (payment o')) u) l = true.
Proof.
  intros Hi Hu. apply existsb_exists. exists o. split.
  - apply list_elem_of_In. eapply list_elem_of_lookup_2; eauto.
  - rewrite Hu. apply String.eqb_refl.
Qed.

(** The fields of the payment claim are written at creation only. *)
Lemma order_step_claim now i o r o' :
  order_step now i o r o' ->
  price (bookDetails o') = price (bookDetails o)
  /\ amount (payment o') = amount (payment o)
  /\ utr (payment o') = utr (payment o).
Proof.
  intros [r0|b _|b _ _|]; auto.
  - now destruct (advanced_keeps b now o) as (_ & -> & -> & _).
  - now destruct (swept_keeps now o) as (_ & _ & _ & -> & -> & _).
Qed.

Lemma store_step_forall (Q : Payment -> Prop) now l r l' :
  (forall i o r0 o', order_step now i o r0 o' -> Q o -> Q o') ->
  (forall b bookname,
      controller_checks E b (mkWorld l []) = true ->
      validate (PaymentController.newOrder b bookname now) = true ->
      Q (PaymentController.newOrder b bookname now)) ->
  store_step E now l r l' ->
  (forall i o, l !! i = Some o -> Q o) ->
  forall i o, l' !! i = Some o -> Q o.
Proof.
  intros Hstep Hnew Hs Hl i o' Hi.
  destruct Hs as [r|b bookname Hc _ Hv|n o0 b Hn Hv|n o0 b Hst Hn Hv|].
  - eauto.
  - apply lookup_app_Some in Hi as [Hi|[_ Hi]]; [eauto|].
    apply list_lookup_singleton_Some in Hi as [_ <-]. auto.
  - apply list_lookup_insert_Some in Hi as [(-> & <- & _)|[_ Hi]]; [|eauto].
    eapply (Hstep i o0); [now apply order_decided|eauto].
  - apply list_lookup_insert_Some in Hi as [(-> & <- & _)|[_ Hi]]; [|eauto].
    eapply (Hstep i o0); [now apply order_advanced|eauto].
  - rewrite lookup_map in Hi. destruct (l !! i) as [o0|] eqn:H0; [|discriminate].
    injection Hi as <-. eapply (Hstep i o0); [apply order_swept|eauto].
Qed.

Lemma reachable_amounts w :
  reachable E w ->
  forall i o, payments w !! i = Some o ->
              price (bookDetails o) = 1 /\ amount (payment o) = 35.
Proof.
  revert w.
  apply (reachable_invariant E
           (fun w => forall i o, payments w !! i = Some o ->
                                 price (bookDetails o) = 1 /\ amount (payment o) = 35)).
  - intros i o Hi. discriminate.
  - intros w r now Hw.
    apply (store_step_forall
             (fun o => price (bookDetails o) = 1 /\ amount (payment o) = 35)
             now (payments w) r); auto.
    + intros i o r0 o' Hstep [Hp Ha].
      destruct (order_step_claim _ _ _ _ _ Hstep) as (-> & -> & _). auto.
    + intros b bookname Hc _. split; [reflexivity|].
      unfold controller_checks in Hc. rewrite !andb_true_iff in Hc.
      destruct Hc as [[_ Ha] _]. apply strict_eq_num_eq in Ha.
      cbn [PaymentController.newOrder payment amount]. now rewrite Ha.
    + apply handle_store_step.
Qed.

End Creation.

(** C7, as stated, fails on the code.  The sample order with a five-digit
    mobile number passes every check the controller makes itself; the schema
    validator refuses it at [save()], and the handler's [catch] answers 500. *)
Lemma short_mobile_is_500 :
  ~ malformed_is_400 Sample.E_down Sample.short_mobile_body 1000 empty_world.
Proof.
  intros H. destruct H as (r & Heq & Hst).
  - left. vm_compute. reflexivity.
  - vm_compute in Heq. injection Heq as <-. discriminate.
Qed.

(** C7, amended.  A creation input whose mobile is not exactly 10 digits, whose
    pincode is not exactly 6 digits or whose UTR is not exactly 12 digits is
    refused, and neither the store nor the mail log changes.  The answer is 400
    or 404 when one of the controller's own checks (a missing field, the state,
    the book, the amount, a UTR already used) refuses it, and 500, the generic
    failure, when it passes them and the schema validation refuses it. *)
Theorem malformed_order_is_rejected (E : env) (b : CreateBody) (now : Z) (w : world) :
  malformed b ->
  exists r,
    PaymentController.createOrder E b now w = (Done r, w)
    /\ success r = false
    /\ (if controller_checks E b w
        then r = mkResponse 500 false FailedToCreateOrder
        else status r = 400%nat \/ status r = 404%nat).
Proof.
  intros Hm. rewrite createOrder_eq. unfold controller_checks.
  destruct (PaymentController.missing_field b); cbn [negb andb]; [eauto 6|].
  destruct (includes _ (req_state b)); cbn [negb andb]; [|eauto 6].
  destruct (Book_findOne E _) as [bookname|]; cbn [andb]; [|eauto 6].
  destruct (strict_eq_num _ _); cbn [negb andb]; [|eauto 6].
  destruct (existsb _ (payments w)); cbn [negb andb]; [eauto 6|].
  rewrite (malformed_invalid b bookname now Hm). eauto 6.
Qed.

(** The theorem at the sample order with the five-digit mobile number. *)
Lemma malformed_order_is_rejected_witness :
  PaymentController.createOrder Sample.E_down Sample.short_mobile_body 1000 empty_world =
    (Done (mkResponse 500 false FailedToCreateOrder), empty_world).
Proof.
  destruct (malformed_order_is_rejected Sample.E_down Sample.short_mobile_body 1000
              empty_world) as (r & Heq & _ & Hr).
  - left. vm_compute. reflexivity.
  - assert (Hc : controller_checks Sample.E_down Sample.short_mobile_body empty_world = true)
      by (vm_compute; reflexivity).
    rewrite Hc in Hr. rewrite Heq, Hr. reflexivity.
Defined.

(** C8, as stated, fails on the code.  The sample order with the amount 10 and
    a book code that the catalogue lacks is answered with 404, book not found:
    the price check comes fourth, after the required fields, the state and the
    book. *)
Lemma wrong_amount_unknown_book_is_404 :
  ~ wrong_amount_is_price_mismatch Sample.E_down Sample.wrong_amount_body 1000 empty_world.
Proof.
  intros H. specialize (H ltac:(vm_compute; reflexivity)).
  vm_compute in H. discriminate.
Qed.

(** C8, amended.  The expected total is 35.  A creation input whose amount is
    not the number 35 is refused, and neither the store nor the mail log
    changes; the refusal is the price mismatch whenever the input has every
    required field, an allowed state and a book code that resolves, and
    otherwise the 400 or 404 of the earlier check that failed.  On every
    successful creation the stored order has book price 1 and amount 35, and
    so has every order of every reachable store. *)
Theorem wrong_amount_is_rejected (E : env) :
  PaymentController.EXPECTED_TOTAL = 35
  /\ (forall b now w,
        strict_eq_num (req_amount b) 35 = false ->
        exists r,
          PaymentController.createOrder E b now w = (Done r, w)
          /\ success r = false
          /\ (if reaches_price_check E b
              then r = mkResponse 400 false (PriceMismatch 35 (req_amount b))
              else status r = 400%nat \/ status r = 404%nat))
  /\ (forall b now w r w',
        PaymentController.createOrder E b now w = (Done r, w') ->
        status r = 201%nat ->
        exists o,
          payments w' = payments w ++ [o]
          /\ price (bookDetails o) = 1
          /\ amount (payment o) = 35)
  /\ (forall w,
        reachable E w ->
        forall i o, payments w !! i = Some o ->
                    price (bookDetails o) = 1 /\ amount (payment o) = 35).
Proof.
  split; [reflexivity|]. split; [|split].
  - intros b now w Ha. rewrite createOrder_eq. unfold reaches_price_check.
    change PaymentController.EXPECTED_TOTAL with 35. rewrite Ha.
    destruct (PaymentController.missing_field b); cbn [negb andb]; [eauto 6|].
    destruct (includes _ (req_state b)); cbn [negb andb]; [|eauto 6].
    destruct (Book_findOne E _) as [bookname|]; cbn [andb]; eauto 6.
  - intros b now w r w' Heq Hst. rewrite createOrder_eq in Heq.
    destruct (PaymentController.missing_field b);
      [injection Heq as <- <-; discriminate|].
    destruct (negb (includes _ (req_state b)));
      [injection Heq as <- <-; discriminate|].
    destruct (Book_findOne E _) as [bookname|];
      [|injection Heq as <- <-; discriminate].
    destruct (strict_eq_num _ _) eqn:Ha; cbn [negb] in Heq;
      [|injection Heq as <- <-; discriminate].
    destruct (existsb _ (payments w));
      [injection Heq as <- <-; discriminate|].
    destruct (validate _);
      [|injection Heq as <- <-; discriminate].
    cbv zeta in Heq. injection Heq as <- <-. cbn [logged payments].
    eexists. split; [reflexivity|]. split; [reflexivity|].
    apply strict_eq_num_eq in Ha.
    cbn [PaymentController.newOrder payment amount]. now rewrite Ha.
  - intros w Hreach. exact (reachable_amounts E w Hreach).
Qed.

(** The theorem at the sample order with the amount 34, which passes the
    checks before the price check. *)
Lemma wrong_amount_is_rejected_witness :
  PaymentController.createOrder Sample.E_down Sample.underpaid_body 1000 empty_world =
    (Done (mkResponse 400 false (PriceMismatch 35 (JNum 34))), empty_world).
Proof.
  destruct (wrong_amount_is_rejected Sample.E_down) as (_ & Hrej & _).
  destruct (Hrej Sample.underpaid_body 1000 empty_world) as (r & Heq & _ & Hr).
  - vm_compute. reflexivity.
  - assert (Hc : reaches_price_check Sample.E_down Sample.underpaid_body = true)
      by (vm_compute; reflexivity).
    rewrite Hc in Hr. rewrite Heq, Hr. reflexivity.
Defined.

(** C9.  A creation input whose UTR is that of a stored order is refused
    whatever the rest of it, and neither the store nor the mail log changes
    (when it passes the checks that come first, with the answer that the UTR is
    already used); in every reachable world no two stored orders have the same
    UTR. *)
Theorem utr_is_unique (E : env) :
  (forall b now w i o,
      payments w !! i = Some o ->
      utr (payment o) = castString (req_utr b) ->
      exists r,
        PaymentController.createOrder E b now w = (Done r, w)
        /\ success r = false
        /\ status r <> 201%nat
        /\ (reaches_price_check E b && strict_eq_num (req_amount b) 35 = true ->
            r = mkResponse 400 false UtrAlreadyUsed))
  /\ (forall w,
        reachable E w ->
        forall i j o1 o2,
          payments w !! i = Some o1 ->
          payments w !! j = Some o2 ->
          utr (payment o1) = utr (payment o2) ->
          i = j).
Proof.
  split.
  - intros b now w i o Hi Hu. rewrite createOrder_eq. unfold reaches_price_check.
    change PaymentController.EXPECTED_TOTAL with 35.
    rewrite (lookup_existsb_utr _ _ _ _ Hi Hu).
    destruct (PaymentController.missing_field b); cbn [negb andb];
      [eexists; repeat split; try discriminate|].
    destruct (includes _ (req_state b)); cbn [negb andb];
      [|eexists; repeat split; try discriminate].
    destruct (Book_findOne E _) as [bookname|]; cbn [andb];
      [|eexists; repeat split; try discriminate].
    destruct (strict_eq_num _ _); cbn [negb andb];
      eexists; repeat split; try discriminate.
  - intros w Hreach i j o1 o2 Hi Hj Hu.
    pose proof (reachable_utrs E w Hreach) as Hnd.
    apply (NoDup_lookup _ i j (utr (payment o1)) Hnd).
    + now apply lookup_utrs.
    + rewrite Hu. now apply lookup_utrs.
Qed.

(** The theorem in the sample world: the order placed a second time, with the
    UTR that is already stored, is refused. *)
Lemma utr_is_unique_witness :
  PaymentController.createOrder Sample.E_down Sample.order_body 5000 Sample.w_placed =
    (Done (mkResponse 400 false UtrAlreadyUsed), Sample.w_placed).
Proof.
  destruct (utr_is_unique Sample.E_down) as (Hdup & _).
  destruct (Hdup Sample.order_body 5000 Sample.w_placed 0%nat Sample.placed_order)
    as (r & Heq & _ & _ & Hr).
  - vm_compute. reflexivity.
  - vm_compute. reflexivity.
  - rewrite Heq, Hr; [reflexivity|]. vm_compute. reflexivity.
Defined.

(** ** C10: Decide without an outcome *)

Section Divergence.
Context (E : env).

(** A decision leaves the order verified and cancelled exactly when the
    outcome is not the string "verified" and yet the status that is stored,
    the cast of [verificationStatus || "verified"], is "verified". *)
Lemma decided_diverged b now o :
  diverged (PaymentController.decided b now o) <->
  strict_eq_str (req_verificationStatus b) "verified" = false
  /\ castString (js_or (req_verificationStatus b) (JStr "verified")) = "verified".
Proof.
  unfold diverged. rewrite decided_verificationStatus, decided_orderStatus.
  destruct (strict_eq_str (req_verificationStatus b) "verified"); split.
  - intros [_ Hos]. discriminate.
  - intros [Hs _]. discriminate.
  - intros [Hvs _]. now split.
  - intros [_ Hvs]. now split.
Qed.

(** A falsy outcome is of that kind: the default is stored. *)
Lemma falsy_diverged b now o :
  truthy (req_verificationStatus b) = false ->
  diverged (PaymentController.decided b now o).
Proof.
  intros Ht. apply decided_diverged. unfold js_or. rewrite Ht. split; [|reflexivity].
  destruct (req_verificationStatus b) as [| |[|]|n|s]; try reflexivity; try discriminate.
  cbn [truthy] in Ht. apply negb_false_iff, String.eqb_eq in Ht. now subst s.
Qed.

Lemma advanced_diverged b now o :
  includes PaymentController.validStatuses (req_status b) = true ->
  diverged (PaymentController.advanced b now o) ->
  req_status b = JStr "cancelled" /\ verificationStatus (payment o) = "verified".
Proof.
  intros Hs [Hvs Hos]. rewrite advanced_orderStatus in Hos.
  destruct (advanced_keeps b now o) as (_ & Hp & _). rewrite Hp in Hvs.
  split; [|exact Hvs]. apply includes_validStatuses in Hs.
  repeat (destruct Hs as [Hs|Hs]); rewrite Hs in *; cbn in Hos;
    try discriminate; reflexivity.
Qed.

End Divergence.

(** C10, as stated, fails on the code: Decide without an outcome is not the
    only request that leaves an order verified and cancelled.  AdvanceStatus
    with the status "cancelled" on the sample order, which was verified and
    confirmed, does so too. *)
Lemma advance_to_cancelled_diverges :
  ~ only_absent_outcome_diverges Sample.E_down Sample.w_confirmed 0
      (UpdateOrderStatus (ObjectId 0) (Sample.to_status "cancelled")) 3000.
Proof.
  intros H.
  destruct (H Sample.confirmed_order
              (PaymentController.advanced (Sample.to_status "cancelled") 3000
                 Sample.confirmed_order)) as (notes & Hr).
  - vm_compute. reflexivity.
  - vm_compute. reflexivity.
  - intros [_ Hos]. vm_compute in Hos. discriminate.
  - split; vm_compute; reflexivity.
  - discriminate.
Qed.

(** C10, amended.  For a stored order that validates, Decide with the outcome
    absent from the body answers 200, stores the verification status verified
    (the default) with the order status cancelled and [confirmedDate] null, and
    attempts the order-cancelled e-mail.  A Decide with any other falsy outcome
    (null, false, 0, the empty string) leaves the order verified and cancelled
    in the same way.  Among all requests, an order that was not
    verified-and-cancelled becomes so only through a Decide on it whose outcome
    is not the string "verified" while the status that is stored, the schema's
    cast of [verificationStatus || "verified"], is "verified", or through an
    AdvanceStatus to "cancelled" on an order whose payment is already
    verified. *)
Theorem confirmOrder_without_outcome
    (E : env) (w : world) (i : nat) (o : Payment) (notes : jsval) (now : Z) :
  payments w !! i = Some o ->
  validate o = true ->
  (exists w' o',
      PaymentController.confirmOrder E (ObjectId i) (mkConfirmBody notes JUndefined) now w =
        (Done (mkResponse 200 true (OrderDecided false (i, o'))), w')
      /\ payments w' !! i = Some o'
      /\ verificationStatus (payment o') = "verified"
      /\ orderStatus o' = "cancelled"
      /\ confirmedDate o' = None
      /\ outbox w' =
           outbox w ++
             [(mkEmail OrderCancelledEmail (customerEmail o) i,
               transport E (List.length (outbox w))
                 (mkEmail OrderCancelledEmail (customerEmail o) i))])
  /\ (forall b now',
        truthy (req_verificationStatus b) = false ->
        exists o',
          payments (handle E (ConfirmOrder (ObjectId i) b) now' w) !! i = Some o'
          /\ diverged o')
  /\ (forall r now' o',
        payments (handle E r now' w) !! i = Some o' ->
        ~ diverged o ->
        diverged o' ->
        (exists b, r = ConfirmOrder (ObjectId i) b
                   /\ strict_eq_str (req_verificationStatus b) "verified" = false
                   /\ castString (js_or (req_verificationStatus b) (JStr "verified"))
                      = "verified")
        \/ (exists b, r = UpdateOrderStatus (ObjectId i) b
                      /\ req_status b = JStr "cancelled"
                      /\ verificationStatus (payment o) = "verified")).
Proof.
  intros Hi Hv. split; [|split].
  - rewrite (confirmOrder_found E _ _ _ _ _ Hi).
    rewrite (decided_valid (mkConfirmBody notes JUndefined) now o Hv eq_refl).
    eexists. eexists. split; [reflexivity|].
    unfold logged. cbn [payments outbox].
    split; [apply list_lookup_insert_eq; now apply lookup_lt_Some in Hi|].
    repeat split.
  - intros b now' Ht.
    exists (PaymentController.decided b now' o). split; [|now apply falsy_diverged].
    cbn [handle]. rewrite (confirmOrder_found E _ _ _ _ _ Hi).
    rewrite (decided_valid b now' o Hv) by (unfold js_or; now rewrite Ht).
    unfold logged. cbn [snd payments].
    apply list_lookup_insert_eq. now apply lookup_lt_Some in Hi.
  - intros r now' o' Ho' Hnot Hdiv.
    destruct (handle_lookup E r now' w i o Hi) as (o'' & Ho'' & Hstep).
    rewrite Ho' in Ho''. injection Ho'' as <-.
    destruct Hstep as [r0|b _|b Hs _|].
    + contradiction.
    + left. exists b. split; [reflexivity|]. now apply (decided_diverged b now' o).
    + right. exists b. split; [reflexivity|]. eapply advanced_diverged; eauto.
    + exfalso. apply Hnot. destruct Hdiv as [Hvs Hos].
      destruct (swept_keeps now' o) as (_ & _ & _ & Hp & _ & Hst & _).
      rewrite Hp in Hvs. rewrite Hst in Hos. now split.
Qed.

(** The theorem at the sample order, placed and not yet decided. *)
Lemma confirmOrder_without_outcome_witness :
  exists w' o',
    PaymentController.confirmOrder Sample.E_down (ObjectId 0) Sample.no_outcome 2000
      Sample.w_placed =
      (Done (mkResponse 200 true (OrderDecided false (0%nat, o'))), w')
    /\ verificationStatus (payment o') = "verified"
    /\ orderStatus o' = "cancelled"
    /\ confirmedDate o' = None.
Proof.
  destruct (confirmOrder_without_outcome Sample.E_down Sample.w_placed 0
              Sample.placed_order JUndefined 2000)
    as ((w' & o' & Heq & _ & Hvs & Hos & Hcd & _) & _).
  - vm_compute. reflexivity.
  - vm_compute. reflexivity.
  - exists w', o'. auto.
Defined.

(** * Further properties of the payment controller and the sweep *)

(** ** Creation *)

Section MoreCreation.
Context (E : env).

Lemma order_step_same_claim now i o r o' :
  order_step now i o r o' -> same_claim o o'.
Proof.
  intros [r0|b _|b _ _|]; unfold same_claim.
  - repeat split.
  - repeat split.
  - split_advanced b o; repeat split.
  - unfold swept. destruct (_ && _); repeat split.
Qed.

Lemma same_claim_refl o : same_claim o o.
Proof. unfold same_claim. repeat split. Qed.

Lemma same_claim_trans a b c : same_claim a b -> same_claim b c -> same_claim a c.
Proof.
  unfold same_claim.
  intros (H1 & H2 & H3 & H4 & H5 & H6 & H7 & H8 & H9 & H10)
         (K1 & K2 & K3 & K4 & K5 & K6 & K7 & K8 & K9 & K10).
  repeat split; congruence.
Qed.

Lemma run_same_claim tr w i o :
  payments w !! i = Some o ->
  exists o', payments (run E tr w) !! i = Some o' /\ same_claim o o'.
Proof.
  apply (run_lookup E same_claim).
  - apply same_claim_refl.
  - apply same_claim_trans.
  - intros now j a r c. apply order_step_same_claim.
Qed.

Lemma getOrder_found n o w :
  payments w !! n = Some o ->
  PaymentController.getOrder (ObjectId n) w = (Done (mkResponse 200 true (OrderFound (n, o))), w).
Proof.
  intros Hn. unfold PaymentController.getOrder, try_catch, bind.
  now rewrite (findById_some _ _ _ Hn).
Qed.

Lemma getOrder_missing n w :
  payments w !! n = None ->
  PaymentController.getOrder (ObjectId n) w = (Done (mkResponse 404 false OrderNotFound), w).
Proof.
  intros Hn. unfold PaymentController.getOrder, try_catch, bind.
  now rewrite (findById_none _ _ Hn).
Qed.

End MoreCreation.

(** X1.  [createOrder] goes through exactly when its own checks pass and the
    schema accepts the document.  Then it answers 201 with the new id, which is
    the number of orders stored before; one order is appended, which the schema
    accepts and which holds the cast (and, for the name, the village, the
    district and the book, trimmed) values of the request, the price 1, the
    amount 35, the statuses pending, no lifecycle date and no notification
    mark; and two e-mails are attempted, first to the admin and then to the
    customer at the stored address.  Otherwise it answers 400, 404 or 500 and
    neither the store nor the mail log changes.  (What the setters make of the
    e-mail address is not described.) *)
Theorem createOrder_outcome (E : env) (b : CreateBody) (now : Z) (w : world) :
  if accepted E b now w
  then exists bookname o w',
      Book_findOne E (castString (req_bookCode b)) = Some bookname
      /\ PaymentController.createOrder E b now w =
           (Done (mkResponse 201 true
                    (OrderPlaced (List.length (payments w)) bookname
                       (req_amount b) (req_utr b))), w')
      /\ payments w' = payments w ++ [o]
      /\ List.map fst (outbox w') =
           List.map fst (outbox w)
           ++ [mkEmail AdminOrderNotification ADMIN_EMAIL (List.length (payments w));
               mkEmail CustomerOrderConfirmation (customerEmail o)
                 (List.length (payments w))]
      /\ validate o = true
      /\ customerName o = trim (castString (req_customerName b))
      /\ mobile o = castString (req_mobile b)
      /\ address o =
           mkAddress (trim (castString (req_village b))) (trim (castString (req_district b)))
             (castString (req_pincode b)) (castString (req_state b))
      /\ bookDetails o = mkBookDetails (trim (castString (req_bookCode b))) (trim bookname) 1
      /\ payment o = mkPaymentInfo (castString (req_utr b)) 35 "7416219267@ybl" "pending"
      /\ orderStatus o = "pending"
      /\ adminNotes o = ""
      /\ emailSent o = false
      /\ confirmedDate o = None
      /\ shippedDate o = None
      /\ deliveredDate o = None
      /\ emailSentDate o = None
      /\ orderDate o = now
      /\ createdAt o = now
  else exists r,
      PaymentController.createOrder E b now w = (Done r, w)
      /\ success r = false
      /\ (status r = 400 \/ status r = 404 \/ status r = 500)%nat.
Proof.
  unfold accepted, controller_checks. rewrite createOrder_eq.
  destruct (PaymentController.missing_field b); cbn [negb andb]; [eauto 8|].
  destruct (includes _ (req_state b)); cbn [negb andb]; [|eauto 8].
  destruct (Book_findOne E _) as [bookname|]; cbn [andb]; [|eauto 8].
  destruct (strict_eq_num _ _) eqn:Hamt; cbn [negb andb]; [|eauto 8].
  destruct (existsb _ (payments w)); cbn [negb andb]; [eauto 8|].
  destruct (validate _) eqn:Hv; [|eauto 8].
  exists bookname, (PaymentController.newOrder b bookname now). eexists.
  split; [reflexivity|]. split; [reflexivity|].
  unfold logged. cbn [payments outbox]. split; [reflexivity|].
  split; [rewrite !List.map_app; cbn [List.map fst]; now rewrite <- app_assoc|].
  split; [exact Hv|].
  apply strict_eq_num_eq in Hamt.
  cbn [PaymentController.newOrder customerName mobile address bookDetails payment
       orderStatus adminNotes emailSent confirmedDate shippedDate deliveredDate
       emailSentDate orderDate createdAt].
  rewrite Hamt. repeat split.
Qed.

(** A name that is nothing but a no-break space (U+00A0) is trimmed to the
    empty string, which the schema refuses: the answer is 500 and nothing is
    stored, as for a name of ordinary spaces. *)
Example createOrder_blank_name :
  PaymentController.createOrder Sample.E_down
    (mkCreateBody (JStr (String (ascii_of_nat 194) (String (ascii_of_nat 160) "")))
       (JStr "asha@example.com") (JStr "9876543210")
       (JStr "Kota") (JStr "Guntur") (JStr "522001") (JStr "Telangana")
       (JStr "B001") (JStr "Ramayana") (JStr "123456789012") (JNum 35))
    1000 empty_world
  = (Done (mkResponse 500 false FailedToCreateOrder), empty_world).
Proof. vm_compute. reflexivity. Qed.

(** X2.  An order that was placed stays: after any further run of requests the
    id that [createOrder] returned still resolves, [getOrder] answers 200 with
    the stored document without changing anything, and the document still has
    the customer, address, book, UTR, amount and creation time it was placed
    with. *)
Theorem placed_order_stays
    (E : env) (b : CreateBody) (now : Z) (w w' : world) (id : nat) (name : string)
    (amt ref : jsval) :
  PaymentController.createOrder E b now w =
    (Done (mkResponse 201 true (OrderPlaced id name amt ref)), w') ->
  payments w' !! id = Some (PaymentController.newOrder b name now)
  /\ forall tr,
       exists o',
         payments (run E tr w') !! id = Some o'
         /\ same_claim (PaymentController.newOrder b name now) o'
         /\ PaymentController.getOrder (ObjectId id) (run E tr w') =
              (Done (mkResponse 200 true (OrderFound (id, o'))), run E tr w').
Proof.
  intros Heq. rewrite createOrder_eq in Heq.
  destruct (PaymentController.missing_field b); [discriminate|].
  destruct (negb (includes _ (req_state b))); [discriminate|].
  destruct (Book_findOne E _) as [bookname|]; [|discriminate].
  destruct (negb (strict_eq_num _ _)); [discriminate|].
  destruct (existsb _ (payments w)); [discriminate|].
  destruct (validate _); [|discriminate].
  cbv zeta in Heq. injection Heq as <- <- _ _ <-.
  assert (Hid : payments
                  (logged E
                     (mkEmail CustomerOrderConfirmation
                        (customerEmail (PaymentController.newOrder b bookname now))
                        (List.length (payments w)))
                     (logged E (mkEmail AdminOrderNotification ADMIN_EMAIL
                                  (List.length (payments w)))
                        (mkWorld (payments w ++ [PaymentController.newOrder b bookname now])
                           (outbox w)))) !! List.length (payments w)
                = Some (PaymentController.newOrder b bookname now)).
  { cbn [logged payments]. apply list_lookup_middle. reflexivity. }
  split; [exact Hid|]. intros tr.
  destruct (run_same_claim E tr _ _ _ Hid) as (o' & Ho' & Hsame).
  exists o'. split; [exact Ho'|]. split; [exact Hsame|].
  now apply getOrder_found.
Qed.

(** The theorem for the sample order, looked up after it was confirmed and
    shipped. *)
Lemma placed_order_stays_witness :
  exists o',
    PaymentController.getOrder (ObjectId 0)
      (run Sample.E_down
         [(ConfirmOrder (ObjectId 0) Sample.verified, 2000);
          (UpdateOrderStatus (ObjectId 0) (Sample.to_status "shipped"), 3000)]
         Sample.w_placed) =
      (Done (mkResponse 200 true (OrderFound (0%nat, o'))),
       run Sample.E_down
         [(ConfirmOrder (ObjectId 0) Sample.verified, 2000);
          (UpdateOrderStatus (ObjectId 0) (Sample.to_status "shipped"), 3000)]
         Sample.w_placed)
    /\ same_claim Sample.placed_order o'.
Proof.
  destruct (placed_order_stays Sample.E_down Sample.order_body 1000 empty_world
              Sample.w_placed 0 "Ramayana" (JNum 35) (JStr "123456789012"))
    as (_ & Hrun).
  - vm_compute. reflexivity.
  - destruct (Hrun [(ConfirmOrder (ObjectId 0) Sample.verified, 2000);
                    (UpdateOrderStatus (ObjectId 0) (Sample.to_status "shipped"), 3000)])
      as (o' & _ & Hsame & Hget).
    exists o'. split; [exact Hget|exact Hsame].
Defined.

(** ** What holds of every stored order *)

Section StoredOrders.
Context (E : env).

(** A property of orders that every new order has and that every change to a
    stored order keeps holds of every order of every reachable world. *)
Lemma reachable_orders (Q : Payment -> Prop) :
  (forall now i o r o', order_step now i o r o' -> Q o -> Q o') ->
  (forall b bookname now,
      validate (PaymentController.newOrder b bookname now) = true ->
      Q (PaymentController.newOrder b bookname now)) ->
  forall w, reachable E w ->
  forall i o, payments w !! i = Some o -> Q o.
Proof.
  intros Hstep Hnew.
  apply (reachable_invariant E (fun w => forall i o, payments w !! i = Some o -> Q o)).
  - intros i o Hi. discriminate.
  - intros w r now Hw.
    apply (store_step_forall E Q now (payments w) r); auto.
    + intros i o r0 o'. apply Hstep.
    + apply handle_store_step.
Qed.

Lemma str_includes_In l s : str_includes l s = true -> In s l.
Proof.
  unfold str_includes. intros H. apply existsb_exists in H as (x & Hin & Heq).
  apply String.eqb_eq in Heq. now subst.
Qed.

Lemma required_nonempty s : required s = true -> s <> "".
Proof.
  unfold required. intros H ->. discriminate.
Qed.

Lemma strict_eq_str_eq v s : strict_eq_str v s = true -> v = JStr s.
Proof.
  destruct v as [| | | |t]; cbn; try discriminate.
  intros H. apply String.eqb_eq in H. now subst.
Qed.

Lemma advanced_emailSentDate b now o :
  emailSentDate (PaymentController.advanced b now o) = emailSentDate o.
Proof. split_advanced b o; reflexivity. Qed.

End StoredOrders.

(** X3.  Every order of every reachable store has passed the schema: a mobile
    of exactly 10 digits, a pincode of exactly 6, a UTR of exactly 12, one of
    the three delivery states, non-empty customer, address and book fields, and
    statuses that belong to their enumerations. *)
Theorem stored_orders_well_formed (E : env) (w : world) (i : nat) (o : Payment) :
  reachable E w ->
  payments w !! i = Some o ->
  digits_exactly 10 (mobile o) = true
  /\ digits_exactly 6 (pincode (address o)) = true
  /\ digits_exactly 12 (utr (payment o)) = true
  /\ In (state (address o)) ["Andhra Pradesh"; "Telangana"; "Odisha"]
  /\ In (verificationStatus (payment o)) ["pending"; "verified"; "failed"]
  /\ In (orderStatus o)
        ["pending"; "confirmed"; "processing"; "shipped"; "delivered"; "cancelled"]
  /\ customerName o <> "" /\ customerEmail o <> ""
  /\ village (address o) <> "" /\ district (address o) <> ""
  /\ bookCode (bookDetails o) <> "" /\ bookName (bookDetails o) <> "".
Proof.
  intros Hreach Hi. pose proof (reachable_valid E w Hreach i o Hi) as Hv.
  unfold validate, validate_claim in Hv. rewrite !andb_true_iff in Hv.
  destruct Hv as
    [[[[[[[[[[[[[[Hn He] [_ Hm]] Hvi] Hd] [_ Hp]] [_ Hs]] Hbc] Hbn] _] [_ Hu]] _] _] Hvs] Hos].
  repeat split; auto using str_includes_In, required_nonempty.
Qed.

(** The theorem at the sample order after it was delivered. *)
Lemma stored_orders_well_formed_witness :
  digits_exactly 10 (mobile Sample.delivered_order) = true
  /\ In (orderStatus Sample.delivered_order)
        ["pending"; "confirmed"; "processing"; "shipped"; "delivered"; "cancelled"].
Proof.
  destruct (stored_orders_well_formed Sample.E_down Sample.w_delivered 0
              Sample.delivered_order) as (Hm & _ & _ & _ & _ & Hos & _).
  - exact (sample_reachable Sample.delivered).
  - vm_compute. reflexivity.
  - split; [exact Hm|exact Hos].
Defined.

(** X4.  In every reachable store, an order that has a [confirmedDate] has the
    verification status verified: the date is written only by a Decide whose
    outcome is exactly "verified", and every other Decide clears it. *)
Theorem confirmedDate_means_verified (E : env) (w : world) (i : nat) (o : Payment) (t : Z) :
  reachable E w ->
  payments w !! i = Some o ->
  confirmedDate o = Some t ->
  verificationStatus (payment o) = "verified".
Proof.
  intros Hreach Hi.
  revert t.
  apply (reachable_orders E
           (fun o => forall t, confirmedDate o = Some t ->
                               verificationStatus (payment o) = "verified"))
    with (w := w) (i := i); auto.
  - intros now j a r c Hstep Ha t Ht. destruct Hstep as [r0|b _|b _ _|].
    + eauto.
    + rewrite decided_confirmedDate in Ht. rewrite decided_verificationStatus.
      destruct (strict_eq_str _ _) eqn:Hs; [|discriminate].
      apply strict_eq_str_eq in Hs. rewrite Hs. reflexivity.
    + destruct (advanced_keeps b now a) as (Hc & Hp & _).
      rewrite Hc in Ht. rewrite Hp. eauto.
    + destruct (swept_keeps now a) as (Hc & _ & _ & Hp & _).
      rewrite Hc in Ht. rewrite Hp. eauto.
  - intros b bookname now _ t Ht. discriminate.
Qed.

(** The theorem at the sample order after it was confirmed. *)
Lemma confirmedDate_means_verified_witness :
  verificationStatus (payment Sample.confirmed_order) = "verified".
Proof.
  apply (confirmedDate_means_verified Sample.E_down Sample.w_confirmed 0
           Sample.confirmed_order 2000).
  - exact (sample_reachable Sample.confirmed).
  - vm_compute. reflexivity.
  - vm_compute. reflexivity.
Defined.

(** X5.  In every reachable store, an order marked as notified has an
    [emailSentDate], and that date lies two hours or more after the order's
    creation; an order not marked has none.  So no customer is sent the
    deferred notification earlier than two hours after placing the order. *)
Theorem emailSent_means_two_hours (E : env) (w : world) (i : nat) (o : Payment) :
  reachable E w ->
  payments w !! i = Some o ->
  if emailSent o
  then exists t, emailSentDate o = Some t /\ createdAt o + 2 * 60 * 60 * 1000 <= t
  else emailSentDate o = None.
Proof.
  intros Hreach Hi.
  apply (reachable_orders E
           (fun o => if emailSent o
                     then exists t, emailSentDate o = Some t
                                    /\ createdAt o + 2 * 60 * 60 * 1000 <= t
                     else emailSentDate o = None))
    with (w := w) (i := i); auto.
  - intros now j a r c Hstep Ha. destruct Hstep as [r0|b _|b _ _|].
    + exact Ha.
    + exact Ha.
    + destruct (advanced_keeps b now a) as (_ & _ & _ & Hs & Hc & _).
      rewrite Hs, Hc, advanced_emailSentDate. exact Ha.
    + unfold swept. destruct (EmailScheduler.readyForEmail now a) eqn:Hr;
        cbn [andb]; [|exact Ha].
      destruct (validate a); [|exact Ha].
      cbn [marked set_emailSent set_emailSentDate emailSent emailSentDate createdAt].
      exists now. split; [reflexivity|].
      apply readyForEmail_iff in Hr as (_ & _ & Hr). lia.
  - intros b bookname now _. reflexivity.
Qed.

(** The theorem at the sample order after a sweep that found it eligible. *)
Lemma emailSent_means_two_hours_witness :
  exists t,
    emailSentDate
      (marked 7201000 Sample.confirmed_order) = Some t
    /\ createdAt (marked 7201000 Sample.confirmed_order) + 2 * 60 * 60 * 1000 <= t.
Proof.
  pose proof (emailSent_means_two_hours Sample.E_down
                (run Sample.E_down (Sample.confirmed ++ [(Sweep, 7201000)]) empty_world)
                0 (marked 7201000 Sample.confirmed_order)) as H.
  apply H.
  - apply sample_reachable.
  - vm_compute. reflexivity.
Defined.

(** ** The dates of an order and the clock *)

Section Clock.
Context (E : env).

Lemma dated_within_weaken lo t t' d :
  t <= t' -> dated_within lo t d -> dated_within lo t' d.
Proof. intros Hle H x Hx. specialize (H x Hx). lia. Qed.

Lemma dated_within_None lo hi : dated_within lo hi None.
Proof. intros x Hx. discriminate. Qed.

Lemma dated_within_Some lo hi x : lo <= x <= hi -> dated_within lo hi (Some x).
Proof. intros H y Hy. injection Hy as <-. exact H. Qed.

Lemma dates_in_order_weaken t t' o :
  t <= t' -> dates_in_order t o -> dates_in_order t' o.
Proof.
  intros Hle (Hc & H1 & H2 & H3 & H4). unfold dates_in_order.
  pose proof (fun d => dated_within_weaken (createdAt o) t t' d Hle) as Hw.
  split; [lia|]. split; [auto|]. split; [auto|]. split; auto.
Qed.

Lemma order_step_dates_in_order now i o r o' :
  order_step now i o r o' -> dates_in_order now o -> dates_in_order now o'.
Proof.
  intros Hstep (Hc & H1 & H2 & H3 & H4). destruct Hstep as [r0|b _|b _ _|].
  - exact (conj Hc (conj H1 (conj H2 (conj H3 H4)))).
  - unfold dates_in_order.
    change (createdAt (PaymentController.decided b now o)) with (createdAt o).
    rewrite decided_confirmedDate.
    refine (conj Hc (conj _ (conj H2 (conj H3 H4)))).
    destruct (strict_eq_str _ _); [apply dated_within_Some; lia|apply dated_within_None].
  - unfold dates_in_order.
    destruct (advanced_keeps b now o) as (-> & _ & _ & _ & -> & _).
    rewrite advanced_shippedDate, advanced_deliveredDate, advanced_emailSentDate.
    refine (conj Hc (conj H1 (conj _ (conj _ H4)))).
    + destruct (_ && _); [apply dated_within_Some; lia|exact H2].
    + destruct (_ && _); [apply dated_within_Some; lia|exact H3].
  - unfold dates_in_order.
    destruct (swept_keeps now o) as (-> & -> & -> & _ & _ & _ & ->).
    refine (conj Hc (conj H1 (conj H2 (conj H3 _)))).
    unfold swept. destruct (_ && _); [|exact H4].
    cbn [marked set_emailSent set_emailSentDate emailSentDate].
    apply dated_within_Some; lia.
Qed.

Lemma handle_dates_in_order r now t w :
  t <= now ->
  (forall i o, payments w !! i = Some o -> dates_in_order t o) ->
  forall i o, payments (handle E r now w) !! i = Some o -> dates_in_order now o.
Proof.
  intros Hle Hw.
  apply (store_step_forall E (dates_in_order now) now (payments w) r).
  - intros i o r0 o'. apply order_step_dates_in_order.
  - intros b bookname _ _. unfold dates_in_order.
    cbn [PaymentController.newOrder createdAt confirmedDate shippedDate deliveredDate
         emailSentDate].
    refine (conj _ (conj _ (conj _ (conj _ _)))); [lia|apply dated_within_None..].
  - apply handle_store_step.
  - intros i o Hi. eapply dates_in_order_weaken; eauto.
Qed.

End Clock.

(** X6.  When the clock does not go back over a run of requests, every date
    the run leaves on an order (confirmed, shipped, delivered, e-mail sent) is
    no earlier than the order's creation and no later than the last request,
    provided that was so before the run; in particular from the empty store. *)
Theorem dates_follow_creation
    (E : env) (tr : list (request * Z)) (t : Z) (w : world) :
  clocked t tr ->
  (forall i o, payments w !! i = Some o -> dates_in_order t o) ->
  forall i o,
    payments (run E tr w) !! i = Some o ->
    dates_in_order (last_time t tr) o.
Proof.
  revert t w. induction tr as [|[r now] rest IH]; intros t w Hclock Hw; cbn [run last_time].
  - exact Hw.
  - destruct Hclock as [Hle Hrest]. apply IH; [exact Hrest|].
    now apply (handle_dates_in_order E r now t w).
Qed.

(** The theorem over the run that placed, confirmed, shipped and delivered
    the sample order: the clock of that run does not go back, and the dates
    of the order it leaves are in order. *)
Lemma dates_follow_creation_witness :
  clocked 0 Sample.delivered
  /\ dates_in_order (last_time 0 Sample.delivered) Sample.delivered_order.
Proof.
  assert (Hc : clocked 0 Sample.delivered) by (cbn; lia).
  split; [exact Hc|].
  apply (dates_follow_creation Sample.E_down Sample.delivered 0 empty_world Hc)
    with (i := 0%nat).
  - intros i o Hi. discriminate.
  - vm_compute. reflexivity.
Defined.

(** ** The schema's setter [trim] *)

Section Setters.

Lemma trimStart_eq s :
  trimStart s = match strip_space s with Some r => trimStart r | None => s end.
Proof.
  destruct s as [|c1 [|c2 [|c3 r3]]]; cbn [trimStart strip_space]; try reflexivity.
  - destruct (is_space c1); reflexivity.
  - destruct (is_space c1); [reflexivity|]. destruct (is_space2 c1 c2); reflexivity.
  - destruct (is_space c1); [reflexivity|]. destruct (is_space2 c1 c2); [reflexivity|].
    destruct (is_space3 c1 c2 c3); reflexivity.
Qed.

Lemma all_space_eq s :
  all_space s = match s with
                | EmptyString => true
                | _ => match strip_space s with Some r => all_space r | None => false end
                end.
Proof.
  destruct s as [|c1 [|c2 [|c3 r3]]]; cbn [all_space strip_space]; try reflexivity.
  - destruct (is_space c1); reflexivity.
  - destruct (is_space c1); [reflexivity|]. destruct (is_space2 c1 c2); reflexivity.
  - destruct (is_space c1); [reflexivity|]. destruct (is_space2 c1 c2); [reflexivity|].
    destruct (is_space3 c1 c2 c3); reflexivity.
Qed.

Lemma strip_space_length s r :
  strip_space s = Some r -> (String.length r < String.length s)%nat.
Proof.
  destruct s as [|c1 [|c2 [|c3 r3]]]; cbn [strip_space]; try discriminate.
  - destruct (is_space c1); [|discriminate]. intros [= <-]. cbn. lia.
  - destruct (is_space c1); [intros [= <-]; cbn; lia|].
    destruct (is_space2 c1 c2); [|discriminate]. intros [= <-]. cbn. lia.
  - destruct (is_space c1); [intros [= <-]; cbn; lia|].
    destruct (is_space2 c1 c2); [intros [= <-]; cbn; lia|].
    destruct (is_space3 c1 c2 c3); [|discriminate]. intros [= <-]. cbn. lia.
Qed.

(** What follows a string does not change whether it begins with white
    space. *)
Lemma strip_space_app s r t :
  strip_space s = Some r -> strip_space (s ++ t)%string = Some (r ++ t)%string.
Proof.
  destruct s as [|c1 [|c2 [|c3 r3]]]; cbn [strip_space append]; try discriminate.
  - destruct (is_space c1); [|discriminate]. intros [= <-]. reflexivity.
  - destruct (is_space c1); [intros [= <-]; reflexivity|].
    destruct (is_space2 c1 c2); [|discriminate]. intros [= <-]. reflexivity.
  - destruct (is_space c1); [intros [= <-]; reflexivity|].
    destruct (is_space2 c1 c2); [intros [= <-]; reflexivity|].
    destruct (is_space3 c1 c2 c3); [|discriminate]. intros [= <-]. reflexivity.
Qed.

Lemma string_length_ind (P : string -> Prop) :
  (forall s, (forall r, (String.length r < String.length s)%nat -> P r) -> P s) ->
  forall s, P s.
Proof.
  intros H s. remember (String.length s) as n eqn:Hn. revert s Hn.
  induction n as [n IH] using lt_wf_ind. intros s ->. apply H.
  intros r Hr. now apply (IH (String.length r)).
Qed.

Lemma strip_space_trimStart s : strip_space (trimStart s) = None.
Proof.
  induction s as [s IH] using string_length_ind.
  rewrite trimStart_eq. destruct (strip_space s) as [r|] eqn:Hs; [|exact Hs].
  apply IH. now apply strip_space_length.
Qed.

Lemma trimStart_fixed s : strip_space s = None -> trimStart s = s.
Proof. intros H. now rewrite trimStart_eq, H. Qed.

Lemma all_space_app s t :
  all_space s = true -> all_space t = true -> all_space (s ++ t)%string = true.
Proof.
  induction s as [s IH] using string_length_ind. intros Hs Ht.
  destruct s as [|c r] eqn:E; [exact Ht|]. rewrite <- E in *.
  rewrite all_space_eq in Hs. rewrite E in Hs at 1.
  destruct (strip_space s) as [r'|] eqn:Hr; [|discriminate].
  rewrite all_space_eq. rewrite (strip_space_app s r' t Hr).
  rewrite E at 1. cbn [append]. apply IH; auto. now apply strip_space_length.
Qed.

(** [trimEnd] cuts a suffix of white space off. *)
Lemma trimEnd_split s : exists t, s = (trimEnd s ++ t)%string /\ all_space t = true.
Proof.
  induction s as [|c r (t & Ht & Hs)]; [now exists ""|].
  cbn [trimEnd]. destruct (all_space (String c r)) eqn:Ha.
  - now exists (String c r).
  - exists t. split; [|exact Hs]. cbn [append]. now rewrite <- Ht.
Qed.

Lemma all_space_trimEnd c r :
  all_space (String c r) = false -> all_space (String c (trimEnd r)) = false.
Proof.
  intros H. destruct (all_space (String c (trimEnd r))) eqn:Ha; [|reflexivity].
  destruct (trimEnd_split r) as (t & Ht & Hs).
  rewrite Ht in H.
  change (String c (trimEnd r ++ t)%string) with (String c (trimEnd r) ++ t)%string in H.
  now rewrite all_space_app in H.
Qed.

Lemma trimEnd_idem s : trimEnd (trimEnd s) = trimEnd s.
Proof.
  induction s as [|c r IH]; [reflexivity|].
  cbn [trimEnd]. destruct (all_space (String c r)) eqn:Ha; [reflexivity|].
  cbn [trimEnd]. now rewrite (all_space_trimEnd c r Ha), IH.
Qed.

Lemma strip_space_trimEnd s : strip_space s = None -> strip_space (trimEnd s) = None.
Proof.
  intros H. destruct (strip_space (trimEnd s)) as [r|] eqn:Hr; [|reflexivity].
  destruct (trimEnd_split s) as (t & Ht & _).
  rewrite Ht in H. now rewrite (strip_space_app _ _ t Hr) in H.
Qed.

Lemma trim_idem s : trim (trim s) = trim s.
Proof.
  unfold trim.
  rewrite (trimStart_fixed (trimEnd (trimStart s))).
  - apply trimEnd_idem.
  - apply strip_space_trimEnd, strip_space_trimStart.
Qed.

Lemma all_space_suffix_trimEnd s a t :
  trimEnd s = (a ++ t)%string -> all_space t = true -> t = "".
Proof.
  revert a. induction s as [|c r IH]; intros a.
  - cbn [trimEnd]. destruct a; cbn [append]; [intros H; now rewrite <- H|discriminate].
  - cbn [trimEnd]. destruct (all_space (String c r)) eqn:Ha.
    + destruct a; cbn [append]; [intros H; now rewrite <- H|discriminate].
    + destruct a as [|c' a']; cbn [append].
      * intros H Hs. rewrite <- H in Hs. now rewrite (all_space_trimEnd c r Ha) in Hs.
      * intros [= _ Hr]. now apply (IH a').
Qed.

(** A trimmed string does not begin with a white-space character, and no
    non-empty end of it is white space. *)
Lemma trim_edges s :
  strip_space (trim s) = None
  /\ forall a t, trim s = (a ++ t)%string -> all_space t = true -> t = "".
Proof.
  split.
  - apply strip_space_trimEnd, strip_space_trimStart.
  - intros a t. apply all_space_suffix_trimEnd.
Qed.

(** The String cast of a number prints every digit up to [2^53], the rounded
    double beyond, and the exponent form from [1e21] on. *)
Example castString_numbers :
  castString (JNum 9876543210) = "9876543210"
  /\ castString (JNum (2 ^ 53 + 1)) = "9007199254740992"
  /\ castString (JNum (2 ^ 64)) = "18446744073709552000"
  /\ castString (JNum (10 ^ 21)) = "1e+21"
  /\ castString (JNum (- 123456789012345678901234567890)) = "-1.2345678901234568e+29".
Proof. repeat split; vm_compute; reflexivity. Qed.

(** [trim] knows the white space that takes more than one byte: a no-break
    space (U+00A0) and an em space (U+2003) around a name are removed, and
    the last byte of a letter that is not white space is kept. *)
Example trim_unicode_space :
  trim (String (ascii_of_nat 194) (String (ascii_of_nat 160)
          (String.append " Asha Rao"
             (String (ascii_of_nat 226) (String (ascii_of_nat 128)
                (String (ascii_of_nat 131) " ")))))) = "Asha Rao"
  /\ trim (String (ascii_of_nat 194) (String (ascii_of_nat 160) "")) = ""
  /\ trim (String (ascii_of_nat 195) (String (ascii_of_nat 160) " "))
     = String (ascii_of_nat 195) (String (ascii_of_nat 160) "").
Proof. repeat split. Qed.

End Setters.

(** X7.  The text fields of a stored order that the schema trims are stored
    trimmed: the customer name, the village, the district, the book code and
    the book name of every order of every reachable store neither begin nor
    end with a white-space character of [String.prototype.trim], so trimming
    them again changes nothing.  (The e-mail address, which the schema also
    lower-cases, is left out.) *)
Theorem stored_text_is_normalised (E : env) (w : world) (i : nat) (o : Payment) :
  reachable E w ->
  payments w !! i = Some o ->
  forall s,
    In s [customerName o; village (address o); district (address o);
          bookCode (bookDetails o); bookName (bookDetails o)] ->
    trim s = s
    /\ strip_space s = None
    /\ (forall a t, s = (a ++ t)%string -> all_space t = true -> t = "").
Proof.
  intros Hreach Hi.
  assert (Hfix : trim (customerName o) = customerName o
                 /\ trim (village (address o)) = village (address o)
                 /\ trim (district (address o)) = district (address o)
                 /\ trim (bookCode (bookDetails o)) = bookCode (bookDetails o)
                 /\ trim (bookName (bookDetails o)) = bookName (bookDetails o)).
  { apply (reachable_orders E
             (fun o => trim (customerName o) = customerName o
                       /\ trim (village (address o)) = village (address o)
                       /\ trim (district (address o)) = district (address o)
                       /\ trim (bookCode (bookDetails o)) = bookCode (bookDetails o)
                       /\ trim (bookName (bookDetails o)) = bookName (bookDetails o)))
      with (w := w) (i := i); auto.
    - intros now j a r c Hstep Ha.
      destruct (order_step_same_claim now j a r c Hstep)
        as (-> & _ & _ & -> & -> & _). exact Ha.
    - intros b bookname now _.
      cbn [PaymentController.newOrder customerName address village district
           bookDetails bookCode bookName].
      rewrite !trim_idem. repeat split. }
  assert (Hedges : forall s, trim s = s ->
            trim s = s /\ strip_space s = None
            /\ (forall a t, s = (a ++ t)%string -> all_space t = true -> t = "")).
  { intros s Hs. split; [exact Hs|]. rewrite <- Hs. apply trim_edges. }
  destruct Hfix as (H1 & H2 & H3 & H4 & H5).
  intros s [<-|[<-|[<-|[<-|[<-|[]]]]]]; now apply Hedges.
Qed.

(** The theorem for an order placed with a no-break space before the name and
    an ordinary space after it. *)
Lemma stored_text_is_normalised_witness :
  trim "Asha Rao" = "Asha Rao" /\ strip_space "Asha Rao" = None.
Proof.
  pose (b := mkCreateBody
               (JStr (String (ascii_of_nat 194) (String (ascii_of_nat 160) "Asha Rao ")))
               (JStr " Asha@Example.COM") (JStr "9876543210")
               (JStr "Kota") (JStr "Guntur") (JStr "522001") (JStr "Odisha")
               (JStr "B001") (JStr "Ramayana") (JStr "123456789012") (JNum 35)).
  destruct (stored_text_is_normalised Sample.E_down
              (run Sample.E_down [(CreateOrder b, 1000)] empty_world) 0
              (PaymentController.newOrder b "Ramayana" 1000)
              (sample_reachable [(CreateOrder b, 1000)]) eq_refl "Asha Rao")
    as (Hn & Hs & _).
  - left. vm_compute. reflexivity.
  - split; [exact Hn|exact Hs].
Defined.

(** ** How the requests compose *)

Section Composition.
Context (E : env).


Lemma advanced_adminNotes b now o :
  adminNotes (PaymentController.advanced b now o) =
    if truthy (req_statusNotes b) then castString (req_statusNotes b) else adminNotes o.
Proof. split_advanced b o; reflexivity. Qed.

Lemma advanced_advanced b now1 now2 o :
  PaymentController.advanced b now2 (PaymentController.advanced b now1 o) =
  PaymentController.advanced b now1 o.
Proof.
  unfold PaymentController.advanced. cbv zeta.
  destruct o as [? ? ? ? ? ? ? ? ? ? sd dd ? ? ?].
  generalize (strict_eq_str (req_status b) "shipped") as s.
  generalize (strict_eq_str (req_status b) "delivered") as d.
  generalize (truthy (req_statusNotes b)) as n.
  generalize (castString (req_status b)) as st.
  generalize (castString (req_statusNotes b)) as nt.
  intros nt st n d s.
  destruct s, d, n, sd, dd; reflexivity.
Qed.

End Composition.



(** X9.  Repeating an AdvanceStatus changes nothing in the store: sent a
    second time with the same body, at whatever time, the request gets the same
    answer, with the same document, and leaves the store as the first left it
    (a [shippedDate] or [deliveredDate] keeps the time of the first); only the
    e-mail of the first, if it sent one, is attempted again. *)
Theorem updateOrderStatus_repeat
    (E : env) (w : world) (id : idparam) (b : StatusBody) (now1 now2 : Z) :
  let w1 := handle E (UpdateOrderStatus id b) now1 w in
  let w2 := handle E (UpdateOrderStatus id b) now2 w1 in
  payments w2 = payments w1
  /\ fst (PaymentController.updateOrderStatus E id b now2 w1) =
     fst (PaymentController.updateOrderStatus E id b now1 w)
  /\ exists es,
       List.map fst (outbox w1) = List.map fst (outbox w) ++ es
       /\ List.map fst (outbox w2) = List.map fst (outbox w1) ++ es.
Proof.
  cbv zeta. cbn [handle].
  destruct (includes PaymentController.validStatuses (req_status b)) eqn:Hs.
  2:{ repeat (rewrite (updateOrderStatus_invalid E _ _ _ _ Hs); cbn [fst snd]).
      repeat split. exists []. now rewrite app_nil_r. }
  destruct id as [n|].
  2:{ repeat (rewrite (updateOrderStatus_malformed E _ _ _ Hs); cbn [fst snd]).
      repeat split. exists []. now rewrite app_nil_r. }
  destruct (payments w !! n) as [o|] eqn:Hn.
  2:{ repeat (rewrite (updateOrderStatus_missing E _ _ _ _ Hs Hn); cbn [fst snd]).
      repeat split. exists []. now rewrite app_nil_r. }
  rewrite (updateOrderStatus_found E _ _ _ now1 _ Hs Hn).
  pose proof (advanced_validate b now1 o Hs) as Hv1.
  pose proof (advanced_validate b now2 o Hs) as Hv2.
  destruct (validate (PaymentController.advanced b now1 o)) eqn:Hv; cbn [fst snd].
  - pose proof (lookup_lt_Some _ _ _ Hn) as Hlt.
    set (w1 := mkWorld (<[n := PaymentController.advanced b now1 o]> (payments w))
                 (outbox w ++ attempts E (List.length (outbox w))
                                (status_email (n, PaymentController.advanced b now1 o)))).
    assert (Hn1 : payments w1 !! n = Some (PaymentController.advanced b now1 o)).
    { subst w1. cbn [payments]. now apply list_lookup_insert_eq. }
    rewrite (updateOrderStatus_found E _ _ _ now2 _ Hs Hn1).
    rewrite advanced_advanced, Hv. cbn [fst snd payments outbox].
    split; [subst w1; cbn [payments]; apply list_insert_insert_eq|].
    split; [reflexivity|].
    exists (status_email (n, PaymentController.advanced b now1 o)).
    subst w1. cbn [outbox]. rewrite !List.map_app, !attempts_emails. auto.
  - rewrite (updateOrderStatus_found E _ _ _ now2 _ Hs Hn).
    rewrite Hv2, <- Hv1. cbn [fst snd].
    repeat split. exists []. now rewrite app_nil_r.
Qed.



(** ** The mail transport and the answers *)

Section Transport.
Context (E1 E2 : env).
Hypothesis same_catalogue : forall code, Book_findOne E1 code = Book_findOne E2 code.

Lemma handle_transport_free r now w1 w2 :
  payments w1 = payments w2 ->
  payments (handle E1 r now w1) = payments (handle E2 r now w2)
  /\ answer E1 r now w1 = answer E2 r now w2.
Proof.
  intros Hp. destruct r as [b|i|i b|i b|]; cbn [handle answer].
  - rewrite !createOrder_eq, <- same_catalogue, <- Hp.
    destruct (PaymentController.missing_field b); [auto|].
    destruct (negb (includes _ (req_state b))); [auto|].
    destruct (Book_findOne E1 _) as [bookname|]; [|auto].
    destruct (negb (strict_eq_num _ _)); [auto|].
    destruct (existsb _ (payments w1)); [auto|].
    destruct (validate _); [|auto].
    cbn [fst snd logged payments]. now rewrite Hp.
  - destruct i as [n|]; [|auto].
    destruct (payments w1 !! n) as [o|] eqn:Hn.
    + rewrite (getOrder_found n o w1 Hn), (getOrder_found n o w2); [auto|congruence].
    + rewrite (getOrder_missing n w1 Hn), (getOrder_missing n w2); [auto|congruence].
  - destruct i as [n|]; [|rewrite !confirmOrder_malformed; auto].
    destruct (payments w1 !! n) as [o|] eqn:Hn.
    + rewrite (confirmOrder_found E1 _ _ _ _ _ Hn), (confirmOrder_found E2 n o); [|congruence].
      destruct (validate _); cbn [fst snd logged payments]; [now rewrite Hp|auto].
    + rewrite (confirmOrder_missing E1 _ _ _ _ Hn), (confirmOrder_missing E2 n); [auto|congruence].
  - destruct (includes PaymentController.validStatuses (req_status b)) eqn:Hs.
    2:{ rewrite !updateOrderStatus_invalid; auto. }
    destruct i as [n|].
    2:{ rewrite !updateOrderStatus_malformed; auto. }
    destruct (payments w1 !! n) as [o|] eqn:Hn.
    + rewrite (updateOrderStatus_found E1 _ _ _ _ _ Hs Hn),
        (updateOrderStatus_found E2 n o); [|exact Hs|congruence].
      destruct (validate _); cbn [fst snd payments]; [now rewrite Hp|auto].
    + rewrite (updateOrderStatus_missing E1 _ _ _ _ Hs Hn),
        (updateOrderStatus_missing E2 n); [auto|exact Hs|congruence].
  - rewrite !checkAndSendEmails_eq. cbn [snd payments]. now rewrite Hp.
Qed.

End Transport.

(** X11.  A failure of the mail transport never fails a request and never
    changes what is stored: two systems with the same book catalogue that
    start from the same store and serve the same run of requests, under any
    two mail transports, end with the same store, and every request gets the
    same answer in both. *)
Theorem mail_failures_are_swallowed
    (E1 E2 : env) (tr : list (request * Z)) (w1 w2 : world) :
  (forall code, Book_findOne E1 code = Book_findOne E2 code) ->
  payments w1 = payments w2 ->
  payments (run E1 tr w1) = payments (run E2 tr w2)
  /\ forall r now,
       answer E1 r now (run E1 tr w1) = answer E2 r now (run E2 tr w2).
Proof.
  intros Hcat. revert w1 w2.
  induction tr as [|[r now] rest IH]; intros w1 w2 Hp; cbn [run].
  - split; [exact Hp|]. intros r now.
    now apply (handle_transport_free E1 E2 Hcat r now w1 w2).
  - apply IH. now apply (handle_transport_free E1 E2 Hcat r now w1 w2).
Qed.

(** The theorem for the run that placed and confirmed the sample order, once
    with the transport that refuses every attempt and once with the one that
    accepts every one. *)
Lemma mail_failures_are_swallowed_witness :
  payments (run Sample.E_down Sample.confirmed empty_world) =
  payments (run Sample.E_up Sample.confirmed empty_world).
Proof.
  destruct (mail_failures_are_swallowed Sample.E_down Sample.E_up Sample.confirmed
              empty_world empty_world) as (H & _).
  - intros code. reflexivity.
  - reflexivity.
  - exact H.
Defined.

(** ** Notes and notifications *)

(** X12.  The admin notes of a stored order: an accepted Decide always
    overwrites them, with the notes of the request or, when the request has
    none, with the empty string; an accepted AdvanceStatus overwrites them only
    when the request has notes and keeps them otherwise; no other request
    changes them. *)
Theorem adminNotes_writes (E : env) (w : world) (i : nat) (o : Payment) (now : Z) :
  payments w !! i = Some o ->
  (forall b,
      validate (PaymentController.decided b now o) = true ->
      exists o',
        payments (handle E (ConfirmOrder (ObjectId i) b) now w) !! i = Some o'
        /\ adminNotes o' =
             if truthy (req_adminNotes b) then castString (req_adminNotes b) else "")
  /\ (forall b,
      includes PaymentController.validStatuses (req_status b) = true ->
      validate (PaymentController.advanced b now o) = true ->
      exists o',
        payments (handle E (UpdateOrderStatus (ObjectId i) b) now w) !! i = Some o'
        /\ adminNotes o' =
             if truthy (req_statusNotes b) then castString (req_statusNotes b)
             else adminNotes o)
  /\ (forall r,
      (forall b, r <> ConfirmOrder (ObjectId i) b) ->
      (forall b, r <> UpdateOrderStatus (ObjectId i) b) ->
      exists o',
        payments (handle E r now w) !! i = Some o' /\ adminNotes o' = adminNotes o).
Proof.
  intros Hi. pose proof (lookup_lt_Some _ _ _ Hi) as Hlt. split; [|split].
  - intros b Hv. cbn [handle]. rewrite (confirmOrder_found E _ _ _ _ _ Hi), Hv.
    cbn [snd logged payments]. eexists. split; [now apply list_lookup_insert_eq|].
    cbn [PaymentController.decided set_adminNotes adminNotes]. unfold js_or.
    now destruct (truthy (req_adminNotes b)).
  - intros b Hs Hv. cbn [handle]. rewrite (updateOrderStatus_found E _ _ _ _ _ Hs Hi), Hv.
    cbn [snd payments]. eexists. split; [now apply list_lookup_insert_eq|].
    apply advanced_adminNotes.
  - intros r Hc Hu. destruct (handle_lookup E r now w i o Hi) as (o' & Ho' & Hstep).
    exists o'. split; [exact Ho'|].
    destruct Hstep as [r0|b _|b _ _|]; auto.
    + now destruct (Hc b).
    + now destruct (Hu b).
    + unfold swept. now destruct (_ && _).
Qed.

(** The theorem at the sample order: rejected with the note "bad UTR" and then
    moved to processing without notes, it still carries the note. *)
Lemma adminNotes_writes_witness :
  exists o',
    payments (handle Sample.E_down
                (UpdateOrderStatus (ObjectId 0) (Sample.to_status "processing")) 3000
                (handle Sample.E_down (ConfirmOrder (ObjectId 0) Sample.failed) 2000
                   Sample.w_placed)) !! 0%nat = Some o'
    /\ adminNotes o' = "bad UTR".
Proof.
  destruct (adminNotes_writes Sample.E_down
              (handle Sample.E_down (ConfirmOrder (ObjectId 0) Sample.failed) 2000
                 Sample.w_placed)
              0 (PaymentController.decided Sample.failed 2000 Sample.placed_order) 3000)
    as (_ & Hadv & _).
  - vm_compute. reflexivity.
  - destruct (Hadv (Sample.to_status "processing")) as (o' & Ho' & Hn).
    + vm_compute. reflexivity.
    + vm_compute. reflexivity.
    + exists o'. split; [exact Ho'|exact Hn].
Defined.

(** X13.  An accepted AdvanceStatus attempts exactly one e-mail, the status
    update to the order's customer, when the new status is processing, shipped
    or delivered, and none when it is pending, confirmed or cancelled; an
    AdvanceStatus that is refused (unknown status, unknown or malformed id,
    refused save) attempts none. *)
Theorem updateOrderStatus_mail
    (E : env) (w : world) (id : idparam) (b : StatusBody) (now : Z) :
  let w' := handle E (UpdateOrderStatus id b) now w in
  (status_of_answer (fst (PaymentController.updateOrderStatus E id b now w)) = 200%nat ->
   exists n o,
     id = ObjectId n /\ payments w !! n = Some o
     /\ List.map fst (outbox w') =
          List.map fst (outbox w)
          ++ (if includes ["processing"; "shipped"; "delivered"] (req_status b)
              then [mkEmail OrderStatusUpdateEmail (customerEmail o) n]
              else []))
  /\ (status_of_answer (fst (PaymentController.updateOrderStatus E id b now w)) <> 200%nat ->
      w' = w).
Proof.
  cbv zeta. cbn [handle].
  destruct (includes PaymentController.validStatuses (req_status b)) eqn:Hs.
  2:{ rewrite (updateOrderStatus_invalid E _ _ _ _ Hs). cbn. split; [discriminate|auto]. }
  destruct id as [n|].
  2:{ rewrite (updateOrderStatus_malformed E _ _ _ Hs). cbn. split; [discriminate|auto]. }
  destruct (payments w !! n) as [o|] eqn:Hn.
  2:{ rewrite (updateOrderStatus_missing E _ _ _ _ Hs Hn). cbn. split; [discriminate|auto]. }
  rewrite (updateOrderStatus_found E _ _ _ _ _ Hs Hn).
  destruct (validate _); cbn [fst snd status_of_answer status];
    [|split; [discriminate|auto]].
  split; [|intros H; now destruct H].
  intros _. exists n, o. split; [reflexivity|]. split; [exact Hn|].
  cbn [outbox]. rewrite List.map_app, attempts_emails. f_equal.
  unfold status_email. cbn [fst snd]. rewrite advanced_orderStatus.
  destruct (advanced_keeps b now o) as (_ & _ & _ & _ & _ & -> & _).
  apply includes_validStatuses in Hs.
  repeat (destruct Hs as [Hs|Hs]); rewrite Hs; reflexivity.
Qed.

(** The theorem at the sample order that was confirmed, moved to cancelled:
    the request is answered 200 and attempts no e-mail. *)
Lemma updateOrderStatus_mail_witness :
  List.map fst
    (outbox (handle Sample.E_up
               (UpdateOrderStatus (ObjectId 0) (Sample.to_status "cancelled")) 3000
               Sample.w_confirmed)) =
  List.map fst (outbox Sample.w_confirmed).
Proof.
  destruct (updateOrderStatus_mail Sample.E_up Sample.w_confirmed (ObjectId 0)
              (Sample.to_status "cancelled") 3000) as (Hok & _).
  destruct Hok as (n & o & _ & _ & Hout).
  - vm_compute. reflexivity.
  - rewrite Hout.
    assert (Hc : includes ["processing"; "shipped"; "delivered"]
                   (req_status (Sample.to_status "cancelled")) = false)
      by (vm_compute; reflexivity).
    rewrite Hc. apply app_nil_r.
Defined.

(** X14.  The customer is written to twice about one decision.  When a Decide
    on a stored order not yet marked as notified is accepted and a sweep runs
    two hours or more after the order's creation, the run has attempted the
    immediate e-mail of the Decide and, in the sweep, the deferred e-mail for
    the same order, both to the order's customer and both about the same
    outcome. *)
Theorem decision_is_notified_twice
    (E : env) (w : world) (i : nat) (o : Payment) (b : ConfirmBody) (now later : Z) :
  payments w !! i = Some o ->
  emailSent o = false ->
  validate (PaymentController.decided b now o) = true ->
  createdAt o <= EmailScheduler.twoHoursAgo later ->
  exists log,
    List.map fst
      (outbox (handle E Sweep later (handle E (ConfirmOrder (ObjectId i) b) now w))) =
      List.map fst (outbox w)
      ++ [mkEmail (if strict_eq_str (req_verificationStatus b) "verified"
                   then OrderConfirmedEmail else OrderCancelledEmail)
                  (customerEmail o) i]
      ++ log
    /\ In (mkEmail (if strict_eq_str (req_verificationStatus b) "verified"
                    then DeferredConfirmedEmail else DeferredCancelledEmail)
                   (customerEmail o) i) log.
Proof.
  intros Hi Hsent Hv Hold. pose proof (lookup_lt_Some _ _ _ Hi) as Hlt.
  assert (Hfirst : handle E (ConfirmOrder (ObjectId i) b) now w =
                   logged E (decision_email b (i, PaymentController.decided b now o))
                     (mkWorld (<[i := PaymentController.decided b now o]> (payments w))
                        (outbox w))).
  { cbn [handle]. now rewrite (confirmOrder_found E _ _ _ _ _ Hi), Hv. }
  rewrite sweep_outbox, Hfirst. cbn [logged payments outbox].
  eexists. split.
  - rewrite !List.map_app, attempts_emails. cbn [List.map fst].
    rewrite <- app_assoc. reflexivity.
  - apply List.in_map_iff. exists (i, PaymentController.decided b now o). split.
    + unfold deferred_email. cbn [fst snd]. rewrite decided_orderStatus.
      change (customerEmail (PaymentController.decided b now o)) with (customerEmail o).
      now destruct (strict_eq_str _ _).
    + apply selected_lookup. split; [now apply list_lookup_insert_eq|].
      unfold EmailScheduler.readyForEmail.
      change (createdAt (PaymentController.decided b now o)) with (createdAt o).
      change (emailSent (PaymentController.decided b now o)) with (emailSent o).
      rewrite Hsent, decided_orderStatus.
      apply Z.leb_le in Hold. rewrite Hold. now destruct (strict_eq_str _ _).
Qed.

(** The theorem at the sample order, confirmed at time 2000 and swept two
    hours after it was placed. *)
Lemma decision_is_notified_twice_witness :
  exists log,
    List.map fst
      (outbox (handle Sample.E_up Sweep 7201000
                 (handle Sample.E_up (ConfirmOrder (ObjectId 0) Sample.verified) 2000
                    Sample.w_placed))) =
      List.map fst (outbox Sample.w_placed)
      ++ [mkEmail OrderConfirmedEmail "asha@example.com" 0] ++ log
    /\ In (mkEmail DeferredConfirmedEmail "asha@example.com" 0) log.
Proof.
  apply (decision_is_notified_twice Sample.E_up Sample.w_placed 0 Sample.placed_order
           Sample.verified 2000 7201000).
  - vm_compute. reflexivity.
  - vm_compute. reflexivity.
  - vm_compute. reflexivity.
  - vm_compute. discriminate.
Defined.

(** ** The listing *)

Section Listing.

Lemma newer_first_trans : Transitive newer_first.
Proof. intros x y z. unfold newer_first. lia. Qed.

Lemma newer_first_total : Total newer_first.
Proof. intros x y. unfold newer_first. lia. Qed.

Lemma documents_lookup l (d : doc) : d ∈ documents l <-> l !! fst d = Some (snd d).
Proof.
  unfold documents. rewrite elem_of_lookup_imap. split.
  - intros (i & x & -> & Hi). exact Hi.
  - intros H. exists (fst d), (snd d). split; [now destruct d|exact H].
Qed.

Lemma documents_NoDup l : NoDup (List.map fst (documents l)).
Proof.
  unfold documents.
  pose proof (proj1 (selected_ids_from (fun _ => true) l 0)) as H.
  cbn [Nat.add] in H.
  assert (Hf : forall l' : list doc, List.filter (fun _ => true) l' = l').
  { induction l' as [|x r IH]; cbn; [reflexivity|now rewrite IH]. }
  now rewrite Hf in H.
Qed.

Lemma newest_Permutation l : merge_sort newer_first (documents l) ≡ₚ documents l.
Proof. apply merge_sort_Permutation. Qed.

End Listing.

(** X15.  [getAllOrders] only reads: it answers 200 and leaves the world as it
    is.  It returns the stored orders created last, at most 100 of them and
    all of them when the store holds 100 or fewer, each once and the later
    created first; an order it leaves out is no newer than any it returns; and
    [total] is the number of orders returned, not the number stored. *)
Theorem getAllOrders_newest_first (w : world) :
  exists orders,
    getAllOrders w =
      (Done (mkListResponse 200 true (OrdersListed orders (List.length orders))), w)
    /\ List.length orders = Nat.min 100 (List.length (payments w))
    /\ StronglySorted newer_first orders
    /\ NoDup (List.map fst orders)
    /\ (forall d, In d orders -> payments w !! fst d = Some (snd d))
    /\ (forall i o,
          payments w !! i = Some o ->
          ~ In (i, o) orders ->
          forall d, In d orders -> createdAt o <= createdAt (snd d)).
Proof.
  set (sorted := merge_sort newer_first (documents (payments w))).
  exists (take 100 sorted).
  pose proof (newest_Permutation (payments w)) as Hperm. fold sorted in Hperm.
  assert (Hsorted : StronglySorted newer_first (take 100 sorted ++ drop 100 sorted)).
  { rewrite take_drop.
    pose proof newer_first_trans as Htrans. pose proof newer_first_total as Htotal.
    apply StronglySorted_merge_sort; assumption. }
  split; [reflexivity|]. split; [|split; [|split; [|split]]].
  - rewrite length_take. f_equal. rewrite Hperm. unfold documents. apply length_imap.
  - eapply StronglySorted_app_1_l. exact Hsorted.
  - rewrite <- List.firstn_map.
    eapply sublist_NoDup; [|apply sublist_take].
    assert (Hp : List.map fst sorted ≡ₚ List.map fst (documents (payments w)))
      by (now apply Permutation.Permutation_map).
    rewrite Hp. apply documents_NoDup.
  - intros d Hd. apply documents_lookup. rewrite <- Hperm.
    apply list_elem_of_In in Hd. apply elem_of_take in Hd as (j & Hj & _).
    eapply list_elem_of_lookup_2; eauto.
  - intros i o Hi Hout d Hd.
    assert (Hin : (i, o) ∈ take 100 sorted ++ drop 100 sorted).
    { rewrite take_drop, Hperm. now apply documents_lookup. }
    apply elem_of_app in Hin as [Hin|Hin].
    + apply list_elem_of_In in Hin. contradiction.
    + apply list_elem_of_In in Hd.
      exact (StronglySorted_app_1_elem_of _ _ _ _ _ Hsorted Hd Hin).
Qed.

(** The listing of the store that holds an order placed at time 1000 and one
    placed at time 2000, evaluated: the later one comes first. *)
Example getAllOrders_two_orders :
  let later :=
    mkCreateBody (JStr "Ravi") (JStr "ravi@example.com") (JStr "9123456780")
      (JStr "Puri") (JStr "Puri") (JStr "752001") (JStr "Odisha")
      (JStr "B001") (JStr "Ramayana") (JStr "210987654321") (JNum 35) in
  let w := run Sample.E_up [(CreateOrder Sample.order_body, 1000); (CreateOrder later, 2000)]
             empty_world in
  exists o1 o0,
    fst (getAllOrders w) =
      Done (mkListResponse 200 true (OrdersListed [(1%nat, o1); (0%nat, o0)] 2)).
Proof. cbv zeta. eexists. eexists. vm_compute. reflexivity. Qed.

(** * Properties of the OTP controller *)

Section OtpFacts.
Import OtpController.
Context (E : otp_env).

Lemma find_email_Some e l i :
  find_email e l = Some i -> exists u, l !! i = Some u /\ u_email u = e.
Proof.
  revert i. induction l as [|u r IH]; intros i; cbn; [discriminate|].
  destruct (String.eqb (u_email u) e) eqn:He.
  - intros [= <-]. exists u. split; [reflexivity|now apply String.eqb_eq].
  - destruct (find_email e r) as [j|]; [|discriminate].
    intros [= <-]. cbn. now apply IH.
Qed.

Lemma find_email_None e l :
  find_email e l = None -> forall i u, l !! i = Some u -> u_email u <> e.
Proof.
  induction l as [|u r IH]; cbn; intros H i u' Hi; [discriminate|].
  destruct (String.eqb (u_email u) e) eqn:He; [discriminate|].
  destruct (find_email e r) as [j|] eqn:Hr; [discriminate|].
  destruct i as [|i]; cbn in Hi.
  - injection Hi as <-. intros Heq. rewrite Heq, String.eqb_refl in He. discriminate.
  - eapply IH; eauto.
Qed.

Lemma find_email_insert e l i u :
  find_email e l = Some i -> u_email u = e -> find_email e (<[i := u]> l) = Some i.
Proof.
  revert i. induction l as [|a r IH]; intros i; cbn; [discriminate|].
  destruct (String.eqb (u_email a) e) eqn:He.
  - intros [= <-] Hu. cbn. now rewrite Hu, String.eqb_refl.
  - destruct (find_email e r) as [j|] eqn:Hr; [|discriminate].
    intros [= <-] Hu. simpl. rewrite He. now rewrite (IH j eq_refl Hu).
Qed.

Lemma find_email_insert_other e l i u u0 :
  l !! i = Some u0 -> u_email u = u_email u0 ->
  find_email e (<[i := u]> l) = find_email e l.
Proof.
  revert i. induction l as [|a r IH]; intros i Hi Hu; [reflexivity|].
  destruct i as [|i]; simpl in *.
  - injection Hi as ->. now rewrite Hu.
  - now rewrite (IH i Hi Hu).
Qed.

Lemma find_email_app e l u :
  find_email e l = None -> u_email u = e ->
  find_email e (l ++ [u]) = Some (List.length l).
Proof.
  induction l as [|a r IH]; cbn; intros H Hu.
  - now rewrite Hu, String.eqb_refl.
  - destruct (String.eqb (u_email a) e); [discriminate|].
    destruct (find_email e r); [discriminate|]. now rewrite (IH eq_refl Hu).
Qed.

(** [verifyOTP] as an equation. *)
Lemma verifyOTP_eq b now w :
  verifyOTP E b now w =
    if negb (truthy (verify_email b)) || negb (truthy (verify_otp b))
    then (ODone (mkOtpResponse 400 false EmailAndOtpRequired), w)
    else
      match find_email (User_email E (verify_email b)) (users w) with
      | None => (ODone (mkOtpResponse 400 false UserNotFoundOrOtpMissing), w)
      | Some i =>
          match users w !! i with
          | None => (ODone (mkOtpResponse 400 false UserNotFoundOrOtpMissing), w)
          | Some u =>
              if no_otp u then (ODone (mkOtpResponse 400 false UserNotFoundOrOtpMissing), w)
              else if expired u now then (ODone (mkOtpResponse 400 false OtpExpired), w)
              else
                match bcrypt_compare E (verify_otp b)
                        (match u_otp u with Some h => h | None => "" end) with
                | None => (ODone (mkOtpResponse 500 false VerificationFailed), w)
                | Some false => (ODone (mkOtpResponse 400 false InvalidOtp), w)
                | Some true =>
                    if User_validate E (verified_user u)
                    then (ODone (mkOtpResponse 200 true
                                   (AccountCreated i (u_email u) (u_fullname u) true
                                      (jwt_sign E i (u_email u)))),
                          mkOtpWorld (<[i := verified_user u]> (users w))
                            (otp_outbox w) (draws w))
                    else (ODone (mkOtpResponse 500 false VerificationFailed), w)
                end
          end
      end.
Proof.
  unfold verifyOTP. destruct (_ || _); [reflexivity|].
  unfold otry, obind, User_findOne.
  destruct (find_email _ (users w)) as [i|]; [|reflexivity].
  destruct (users w !! i) as [u|]; [|reflexivity]. cbn [option_map].
  destruct (no_otp u); [reflexivity|].
  destruct (expired u now); [reflexivity|].
  unfold compare. destruct (bcrypt_compare E _ _) as [[|]|]; cbn; try reflexivity.
  unfold User_save. cbn [fst snd]. destruct (User_validate E _); reflexivity.
Qed.

(** [sendOTP] as an equation. *)
Lemma sendOTP_eq b now w :
  sendOTP E b now w =
    if negb (truthy (send_email b)) || negb (truthy (send_fullname b))
       || negb (truthy (send_password b))
    then (ODone (mkOtpResponse 400 false FieldsRequired), w)
    else if negb (mail_configured E)
    then (ODone (mkOtpResponse 500 false NotConfigured), w)
    else if match find_email (User_email E (send_email b)) (users w) with
            | Some i => match users w !! i with Some u => u_verified u | None => false end
            | None => false
            end
    then (ODone (mkOtpResponse 400 false AlreadyVerified), w)
    else
      let otp := generateOTP E (draws w) in
      match bcrypt_hash E (JStr otp), bcrypt_hash E (send_password b) with
      | Some otpHash, Some passwordHash =>
          let u := mkUser (User_email E (send_email b)) (User_fullname E (send_fullname b))
                     passwordHash (Some otpHash) (Some (now + FIVE_MINUTES)) false in
          let r := otp_transport E (List.length (otp_outbox w)) (send_email b) in
          (ODone match r with
                 | MailSent => mkOtpResponse 200 true OtpSent
                 | MailFailed e =>
                     mkOtpResponse 500 false (SendFailed (failure_message (MailError e)))
                 end,
           mkOtpWorld
             (match find_email (User_email E (send_email b)) (users w) with
              | Some i => <[i := u]> (users w)
              | None => users w ++ [u]
              end)
             (otp_outbox w ++ [mkOtpMail (send_email b) otp r])
             (S (draws w)))
      | _, _ =>
          (ODone (mkOtpResponse 500 false (SendFailed FailedToSendOTP)),
           mkOtpWorld (users w) (otp_outbox w) (S (draws w)))
      end.
Proof.
  unfold sendOTP. destruct (_ || _); [reflexivity|].
  destruct (negb (mail_configured E)); [reflexivity|].
  unfold otry, obind at 1, User_findOne.
  destruct (find_email _ (users w)) as [i|] eqn:Hf.
  - destruct (users w !! i) as [u|]; cbn [option_map].
    + destruct (u_verified u); [reflexivity|].
      unfold obind, draw_otp, hash. cbv zeta.
      destruct (bcrypt_hash E (JStr _)); [|reflexivity].
      destruct (bcrypt_hash E (send_password b)); [|reflexivity].
      unfold oret, User_upsert, send_mail. cbn [users otp_outbox draws]. rewrite Hf.
      cbn [users otp_outbox draws]. destruct (otp_transport E _ _); reflexivity.
    + unfold obind, draw_otp, hash. cbv zeta.
      destruct (bcrypt_hash E (JStr _)); [|reflexivity].
      destruct (bcrypt_hash E (send_password b)); [|reflexivity].
      unfold oret, User_upsert, send_mail. cbn [users otp_outbox draws]. rewrite Hf.
      cbn [users otp_outbox draws]. destruct (otp_transport E _ _); reflexivity.
  - unfold obind, draw_otp, hash. cbv zeta.
    destruct (bcrypt_hash E (JStr _)); [|reflexivity].
    destruct (bcrypt_hash E (send_password b)); [|reflexivity].
    unfold oret, User_upsert, send_mail. cbn [users otp_outbox draws]. rewrite Hf.
    cbn [users otp_outbox draws]. destruct (otp_transport E _ _); reflexivity.
Qed.

End OtpFacts.

Section OtpSteps.
Import OtpController.
Context (E : otp_env).

(** What one request does to the users: nothing, or it rewrites the first user
    with some address (verifying an unverified one with an OTP, or resetting an
    unverified one), or it appends an unverified user with a new address. *)
Lemma otp_handle_users r now w :
  users (otp_handle E r now w) = users w
  \/ (exists i u0 u',
        users w !! i = Some u0
        /\ find_email (u_email u0) (users w) = Some i
        /\ u_email u' = u_email u0
        /\ users (otp_handle E r now w) = <[i := u']> (users w)
        /\ ((u' = verified_user u0 /\ no_otp u0 = false)
            \/ (u_verified u0 = false /\ u_verified u' = false)))
  \/ (exists u',
        find_email (u_email u') (users w) = None
        /\ u_verified u' = false
        /\ users (otp_handle E r now w) = users w ++ [u']).
Proof.
  destruct r as [b|b]; cbn [otp_handle].
  - rewrite sendOTP_eq.
    destruct (_ || _); [now left|].
    destruct (negb (mail_configured E)); [now left|].
    destruct (find_email _ (users w)) as [i|] eqn:Hf.
    + destruct (find_email_Some _ _ _ Hf) as (u0 & Hi & He). rewrite Hi.
      destruct (u_verified u0) eqn:Hv; [now left|]. cbv zeta.
      destruct (bcrypt_hash E (JStr _)) as [oh|]; [|now left].
      destruct (bcrypt_hash E (send_password b)) as [ph|]; [|now left].
      right. left.
      exists i, u0,
        (mkUser (User_email E (send_email b)) (User_fullname E (send_fullname b)) ph
           (Some oh) (Some (now + FIVE_MINUTES)) false).
      cbn [snd users u_email u_verified].
      split; [exact Hi|]. split; [now rewrite He|]. split; [now rewrite He|].
      split; [reflexivity|]. right. split; [exact Hv|reflexivity].
    + cbv zeta.
      destruct (bcrypt_hash E (JStr _)) as [oh|]; [|now left].
      destruct (bcrypt_hash E (send_password b)) as [ph|]; [|now left].
      right. right.
      exists (mkUser (User_email E (send_email b)) (User_fullname E (send_fullname b)) ph
                (Some oh) (Some (now + FIVE_MINUTES)) false).
      cbn [snd users u_email u_verified].
      split; [exact Hf|]. split; reflexivity.
  - rewrite verifyOTP_eq.
    destruct (_ || _); [now left|].
    destruct (find_email _ (users w)) as [i|] eqn:Hf; [|now left].
    destruct (find_email_Some _ _ _ Hf) as (u0 & Hi & He). rewrite Hi.
    destruct (no_otp u0) eqn:Hno; [now left|].
    destruct (expired u0 now); [now left|].
    destruct (bcrypt_compare E _ _) as [[|]|]; try now left.
    destruct (User_validate E _); [|now left].
    right. left. exists i, u0, (verified_user u0). cbn [snd users].
    split; [exact Hi|]. split; [now rewrite He|]. split; [reflexivity|].
    split; [reflexivity|]. left. auto.
Qed.

Lemma otp_run_invariant (P : otp_world -> Prop) :
  (forall w r now, P w -> P (otp_handle E r now w)) ->
  forall tr w, P w -> P (otp_run E tr w).
Proof.
  intros Hstep tr. induction tr as [|[r now] rest IH]; intros w Hw; cbn [otp_run]; auto.
Qed.

Lemma otp_verified_cleared tr :
  forall i u, users (otp_run E tr empty_otp_world) !! i = Some u ->
              u_verified u = true -> u_otp u = None.
Proof.
  apply (otp_run_invariant
           (fun w => forall i u, users w !! i = Some u -> u_verified u = true -> u_otp u = None)).
  - intros w r now Hw i u Hi Hv.
    destruct (otp_handle_users r now w)
      as [Heq|[(j & u0 & u' & Hj & _ & _ & Heq & Hkind)|(u' & _ & Hv' & Heq)]];
      rewrite Heq in Hi.
    + eauto.
    + apply list_lookup_insert_Some in Hi as [(-> & <- & _)|[_ Hi]]; [|eauto].
      destruct Hkind as [[-> _]|[_ Hv']]; [reflexivity|congruence].
    + apply lookup_app_Some in Hi as [Hi|[_ Hi]]; [eauto|].
      apply list_lookup_singleton_Some in Hi as [_ <-]. congruence.
  - intros i u Hi. discriminate.
Qed.

End OtpSteps.

(** X16.  [verifyOTP] verifies only against the stored hash and only in time.
    It never sends mail and never throws; it changes the store only when it
    answers 200, and it answers 200 only when the first user with the address
    has an OTP hash, [bcrypt.compare] accepts the submitted OTP against it and
    the OTP's expiry time has not passed; what it then changes is that one
    user, who becomes verified and loses the OTP and its expiry time. *)
Theorem verifyOTP_sound
    (E : OtpController.otp_env) (b : OtpController.VerifyBody) (now : Z)
    (w : OtpController.otp_world) :
  exists r w',
    OtpController.verifyOTP E b now w = (OtpController.ODone r, w')
    /\ OtpController.otp_outbox w' = OtpController.otp_outbox w
    /\ (OtpController.otp_status r <> 200%nat -> w' = w)
    /\ (OtpController.otp_status r = 200%nat ->
        exists i u h,
          OtpController.users w !! i = Some u
          /\ OtpController.u_email u = OtpController.User_email E (OtpController.verify_email b)
          /\ OtpController.u_otp u = Some h
          /\ OtpController.bcrypt_compare E (OtpController.verify_otp b) h = Some true
          /\ (forall t, OtpController.u_otpExpiresAt u = Some t -> now <= t)
          /\ OtpController.users w' =
               <[i := OtpController.verified_user u]> (OtpController.users w)).
Proof.
  rewrite verifyOTP_eq.
  destruct (_ || _); [eexists; eexists; repeat split; cbn; discriminate|].
  destruct (OtpController.find_email _ (OtpController.users w)) as [i|] eqn:Hf;
    [|eexists; eexists; repeat split; cbn; discriminate].
  destruct (find_email_Some _ _ _ Hf) as (u & Hi & He). rewrite Hi.
  destruct (OtpController.no_otp u) eqn:Hno;
    [eexists; eexists; repeat split; cbn; discriminate|].
  destruct (OtpController.expired u now) eqn:Hex;
    [eexists; eexists; repeat split; cbn; discriminate|].
  destruct (OtpController.u_otp u) as [h|] eqn:Hh.
  2:{ unfold OtpController.no_otp in Hno. rewrite Hh in Hno. discriminate. }
  destruct (OtpController.bcrypt_compare E _ h) as [[|]|] eqn:Hc;
    try (eexists; eexists; repeat split; cbn; discriminate).
  destruct (OtpController.User_validate E _);
    [|eexists; eexists; repeat split; cbn; discriminate].
  eexists. eexists. split; [reflexivity|]. split; [reflexivity|].
  split; [intros H; now destruct H|]. intros _.
  exists i, u, h. repeat split; auto.
  intros t Ht. unfold OtpController.expired in Hex. rewrite Ht in Hex.
  apply Z.ltb_ge in Hex. exact Hex.
Qed.

(** The theorem in the sample world: the right OTP is accepted, and so the
    toy comparison accepted it against the stored hash. *)
Lemma verifyOTP_sound_witness :
  exists h,
    OtpController.bcrypt_compare OtpSample.E_up (JStr "123456") h = Some true.
Proof.
  destruct (verifyOTP_sound OtpSample.E_up OtpSample.right_otp 2000 OtpSample.w_sent)
    as (r & w' & Heq & _ & _ & Hok).
  vm_compute in Heq. injection Heq as <- <-.
  destruct (Hok eq_refl) as (i & u & h & _ & _ & _ & Hc & _).
  exists h. exact Hc.
Defined.

(** X17.  An OTP works once.  After a [verifyOTP] that answered 200, every
    further [verifyOTP] for the same address, with whatever OTP and at whatever
    time, is answered 400 and changes nothing: the stored hash is gone. *)
Theorem verifyOTP_once
    (E : OtpController.otp_env) (b b' : OtpController.VerifyBody) (now now' : Z)
    (w w' : OtpController.otp_world) (r : OtpController.otp_response) :
  OtpController.verifyOTP E b now w = (OtpController.ODone r, w') ->
  OtpController.otp_status r = 200%nat ->
  OtpController.User_email E (OtpController.verify_email b') =
    OtpController.User_email E (OtpController.verify_email b) ->
  exists r',
    OtpController.verifyOTP E b' now' w' = (OtpController.ODone r', w')
    /\ OtpController.otp_status r' = 400%nat
    /\ OtpController.otp_success r' = false.
Proof.
  intros Heq Hst Hmail. rewrite verifyOTP_eq in Heq.
  destruct (_ || _); [injection Heq as <- <-; discriminate|].
  destruct (OtpController.find_email _ (OtpController.users w)) as [i|] eqn:Hf;
    [|injection Heq as <- <-; discriminate].
  destruct (find_email_Some _ _ _ Hf) as (u & Hi & He). rewrite Hi in Heq.
  destruct (OtpController.no_otp u); [injection Heq as <- <-; discriminate|].
  destruct (OtpController.expired u now); [injection Heq as <- <-; discriminate|].
  destruct (OtpController.bcrypt_compare E _ _) as [[|]|];
    try (injection Heq as <- <-; discriminate).
  destruct (OtpController.User_validate E _); [|injection Heq as <- <-; discriminate].
  injection Heq as <- <-. rewrite verifyOTP_eq.
  destruct (_ || _); [eauto|]. cbn [OtpController.users]. rewrite Hmail.
  rewrite (find_email_insert _ _ _ (OtpController.verified_user u) Hf He).
  rewrite list_lookup_insert_eq; [|now apply lookup_lt_Some in Hi].
  cbn. eauto.
Qed.

(** The theorem in the sample world: the right OTP, sent a second time, is
    refused. *)
Lemma verifyOTP_once_witness :
  exists r',
    OtpController.verifyOTP OtpSample.E_up OtpSample.right_otp 2500 OtpSample.w_verified =
      (OtpController.ODone r', OtpSample.w_verified)
    /\ OtpController.otp_status r' = 400%nat
    /\ OtpController.otp_success r' = false.
Proof.
  apply (verifyOTP_once OtpSample.E_up OtpSample.right_otp OtpSample.right_otp 2000 2500
           OtpSample.w_sent OtpSample.w_verified
           (OtpController.mkOtpResponse 200 true
              (OtpController.AccountCreated 0 "asha@example.com" "Asha" true
                 "asha@example.com"))).
  - vm_compute. reflexivity.
  - reflexivity.
  - reflexivity.
Defined.

(** X18.  A verified account is final for these two handlers: in a store that
    only they have written, a user who is verified is left exactly as it is by
    every further run of [sendOTP] and [verifyOTP] requests, for whatever
    address: [sendOTP] refuses a verified address and [verifyOTP] finds no OTP
    on it. *)
Theorem verified_account_is_final
    (E : OtpController.otp_env) (before after : list (OtpController.otp_request * Z))
    (i : nat) (u : OtpController.User) :
  OtpController.users (OtpController.otp_run E before OtpController.empty_otp_world) !! i
    = Some u ->
  OtpController.u_verified u = true ->
  OtpController.users
    (OtpController.otp_run E after
       (OtpController.otp_run E before OtpController.empty_otp_world)) !! i = Some u.
Proof.
  intros Hi Hv. pose proof (otp_verified_cleared E before i u Hi Hv) as Hotp.
  revert Hi. generalize (OtpController.otp_run E before OtpController.empty_otp_world).
  induction after as [|[r now] rest IH]; intros w Hi; cbn [OtpController.otp_run];
    [exact Hi|].
  apply IH.
  destruct (otp_handle_users E r now w)
    as [Heq|[(j & u0 & u' & Hj & _ & _ & Heq & Hkind)|(u' & _ & _ & Heq)]];
    rewrite Heq.
  - exact Hi.
  - destruct (decide (j = i)) as [->|Hne].
    + rewrite Hi in Hj. injection Hj as <-. exfalso.
      destruct Hkind as [[_ Hno]|[Hv0 _]]; [|congruence].
      unfold OtpController.no_otp in Hno. rewrite Hotp in Hno. discriminate.
    + now rewrite list_lookup_insert_ne.
  - now apply lookup_app_l_Some.
Qed.

(** The theorem in the sample world: a new [sendOTP] for the verified
    address leaves the user as it is. *)
Lemma verified_account_is_final_witness :
  exists u,
    OtpController.users
      (OtpController.otp_run OtpSample.E_up
         [(OtpController.SendOTP OtpSample.signup, 5000)] OtpSample.w_verified) !! 0%nat
      = Some u
    /\ OtpController.u_verified u = true.
Proof.
  exists (OtpController.mkUser "asha@example.com" "Asha" "#secret" None None true).
  split; [|reflexivity].
  apply (verified_account_is_final OtpSample.E_up
           [(OtpController.SendOTP OtpSample.signup, 1000);
            (OtpController.VerifyOTP OtpSample.right_otp, 2000)]
           [(OtpController.SendOTP OtpSample.signup, 5000)] 0).
  - vm_compute. reflexivity.
  - reflexivity.
Defined.

(** X19.  What [sendOTP] leaves behind when the mail fails.  For a request
    with all three fields, with the mail account configured, for an address
    that is not verified and with both hashes computed, the user is upserted
    before the mail is attempted: whatever the transport does, the first user
    with the address ends unverified, with the new password hash, the new OTP
    hash and an expiry five minutes ahead; the answer is 200 when the mail
    went out and 500 when it did not, and the failed attempt is not undone. *)
Theorem sendOTP_upserts_before_mail
    (E : OtpController.otp_env) (b : OtpController.SendBody) (now : Z)
    (w : OtpController.otp_world) (otpHash passwordHash : string) :
  truthy (OtpController.send_email b) = true ->
  truthy (OtpController.send_fullname b) = true ->
  truthy (OtpController.send_password b) = true ->
  OtpController.mail_configured E = true ->
  (forall i u,
      OtpController.find_email (OtpController.User_email E (OtpController.send_email b))
        (OtpController.users w) = Some i ->
      OtpController.users w !! i = Some u ->
      OtpController.u_verified u = false) ->
  OtpController.bcrypt_hash E (JStr (OtpController.generateOTP E (OtpController.draws w)))
    = Some otpHash ->
  OtpController.bcrypt_hash E (OtpController.send_password b) = Some passwordHash ->
  exists r w' i,
    OtpController.sendOTP E b now w = (OtpController.ODone r, w')
    /\ OtpController.find_email (OtpController.User_email E (OtpController.send_email b))
         (OtpController.users w') = Some i
    /\ OtpController.users w' !! i =
         Some (OtpController.mkUser
                 (OtpController.User_email E (OtpController.send_email b))
                 (OtpController.User_fullname E (OtpController.send_fullname b))
                 passwordHash (Some otpHash) (Some (now + 5 * 60 * 1000)) false)
    /\ OtpController.otp_outbox w' =
         OtpController.otp_outbox w
         ++ [OtpController.mkOtpMail (OtpController.send_email b)
               (OtpController.generateOTP E (OtpController.draws w))
               (OtpController.otp_transport E (List.length (OtpController.otp_outbox w))
                  (OtpController.send_email b))]
    /\ match OtpController.otp_transport E (List.length (OtpController.otp_outbox w))
               (OtpController.send_email b) with
       | OtpController.MailSent =>
           r = OtpController.mkOtpResponse 200 true OtpController.OtpSent
       | OtpController.MailFailed e =>
           OtpController.otp_status r = 500%nat /\ OtpController.otp_success r = false
       end.
Proof.
  intros He Hn Hp Hconf Hnv Hoh Hph. rewrite sendOTP_eq, He, Hn, Hp, Hconf.
  cbn [negb orb]. cbv zeta. rewrite Hoh, Hph.
  destruct (OtpController.find_email _ (OtpController.users w)) as [i|] eqn:Hf.
  - destruct (find_email_Some _ _ _ Hf) as (u0 & Hi & Hu0). rewrite Hi.
    rewrite (Hnv i u0 eq_refl Hi).
    eexists. eexists. exists i. split; [reflexivity|]. cbn [OtpController.users].
    split; [apply find_email_insert; [exact Hf|reflexivity]|].
    split; [apply list_lookup_insert_eq; now apply lookup_lt_Some in Hi|].
    split; [reflexivity|].
    destruct (OtpController.otp_transport E _ _); cbn; auto.
  - eexists. eexists. exists (List.length (OtpController.users w)).
    split; [reflexivity|]. cbn [OtpController.users OtpController.otp_outbox].
    split; [apply find_email_app; [exact Hf|reflexivity]|].
    split; [apply list_lookup_middle; reflexivity|].
    split; [reflexivity|].
    destruct (OtpController.otp_transport E _ _); cbn; auto.
Qed.

(** The theorem in the sample environment whose transport refuses the mail:
    the answer is 500 and the user is stored all the same. *)
Lemma sendOTP_upserts_before_mail_witness :
  exists r w',
    OtpController.sendOTP OtpSample.E_down OtpSample.signup 1000
      OtpController.empty_otp_world = (OtpController.ODone r, w')
    /\ OtpController.otp_status r = 500%nat
    /\ OtpController.users w' !! 0%nat =
         Some (OtpController.mkUser "asha@example.com" "Asha" "#secret"
                 (Some "#123456") (Some 301000) false).
Proof.
  destruct (sendOTP_upserts_before_mail OtpSample.E_down OtpSample.signup 1000
              OtpController.empty_otp_world "#123456" "#secret")
    as (r & w' & i & Heq & Hf & Hi & _ & Hr); try reflexivity.
  - intros i u Hf. discriminate.
  - exists r, w'. split; [exact Heq|].
    assert (Hi0 : i = 0%nat).
    { pose proof Heq as Heq'. vm_compute in Heq'. injection Heq' as _ Hw.
      rewrite <- Hw in Hf. vm_compute in Hf. now injection Hf as <-. }
    subst i. split; [|exact Hi]. cbn in Hr. tauto.
Defined.

(** X20.  The round trip of a sign-up.  After a [sendOTP] that answered 200, a
    [verifyOTP] for the same address, with an OTP that [bcrypt.compare] accepts
    against the hash just stored, is answered 200 and leaves the user verified
    when it comes no later than five minutes (300,000 ms) after the [sendOTP],
    the last millisecond included, and is answered 400, OTP expired, changing
    nothing, when it comes later, provided the hash is not the empty string and
    the user document passes the schema's validators at the save. *)
Theorem sendOTP_then_verifyOTP
    (E : OtpController.otp_env) (b : OtpController.SendBody)
    (vb : OtpController.VerifyBody) (now later : Z)
    (w w1 : OtpController.otp_world) (r : OtpController.otp_response) :
  OtpController.sendOTP E b now w = (OtpController.ODone r, w1) ->
  OtpController.otp_status r = 200%nat ->
  truthy (OtpController.verify_email vb) = true ->
  truthy (OtpController.verify_otp vb) = true ->
  OtpController.User_email E (OtpController.verify_email vb) =
    OtpController.User_email E (OtpController.send_email b) ->
  (forall h,
      OtpController.bcrypt_hash E
        (JStr (OtpController.generateOTP E (OtpController.draws w))) = Some h ->
      h <> "" /\ OtpController.bcrypt_compare E (OtpController.verify_otp vb) h = Some true) ->
  (forall u, OtpController.User_validate E (OtpController.verified_user u) = true) ->
  if later <=? now + 5 * 60 * 1000
  then exists i w2 token pw,
      OtpController.verifyOTP E vb later w1 =
        (OtpController.ODone
           (OtpController.mkOtpResponse 200 true
              (OtpController.AccountCreated i
                 (OtpController.User_email E (OtpController.send_email b))
                 (OtpController.User_fullname E (OtpController.send_fullname b))
                 true token)), w2)
      /\ OtpController.users w2 !! i =
           Some (OtpController.mkUser
                   (OtpController.User_email E (OtpController.send_email b))
                   (OtpController.User_fullname E (OtpController.send_fullname b))
                   pw None None true)
  else OtpController.verifyOTP E vb later w1 =
         (OtpController.ODone (OtpController.mkOtpResponse 400 false OtpController.OtpExpired),
          w1).
Proof.
  intros Heq Hst Hve Hvo Hmail Hcmp Hval. rewrite sendOTP_eq in Heq.
  destruct (_ || _); [injection Heq as <- <-; discriminate|].
  destruct (negb (OtpController.mail_configured E));
    [injection Heq as <- <-; discriminate|].
  match type of Heq with
  | (if ?c then _ else _) = _ => destruct c; [injection Heq as <- <-; discriminate|]
  end.
  cbv zeta in Heq.
  destruct (OtpController.bcrypt_hash E (JStr _)) as [oh|] eqn:Hoh;
    [|injection Heq as <- <-; discriminate].
  destruct (OtpController.bcrypt_hash E (OtpController.send_password b)) as [ph|];
    [|injection Heq as <- <-; discriminate].
  destruct (Hcmp oh eq_refl) as [Hne Hc].
  injection Heq as _ <-.
  set (u := OtpController.mkUser
              (OtpController.User_email E (OtpController.send_email b))
              (OtpController.User_fullname E (OtpController.send_fullname b))
              ph (Some oh) (Some (now + OtpController.FIVE_MINUTES)) false).
  assert (Hfound : exists i,
             OtpController.find_email
               (OtpController.User_email E (OtpController.send_email b))
               (match OtpController.find_email
                        (OtpController.User_email E (OtpController.send_email b))
                        (OtpController.users w) with
                | Some i => <[i := u]> (OtpController.users w)
                | None => OtpController.users w ++ [u]
                end) = Some i
             /\ (match OtpController.find_email
                        (OtpController.User_email E (OtpController.send_email b))
                        (OtpController.users w) with
                 | Some i => <[i := u]> (OtpController.users w)
                 | None => OtpController.users w ++ [u]
                 end) !! i = Some u).
  { destruct (OtpController.find_email _ (OtpController.users w)) as [i|] eqn:Hf.
    - destruct (find_email_Some _ _ _ Hf) as (u0 & Hi & _). exists i. split.
      + apply find_email_insert; [exact Hf|reflexivity].
      + apply list_lookup_insert_eq. now apply lookup_lt_Some in Hi.
    - exists (List.length (OtpController.users w)). split.
      + apply find_email_app; [exact Hf|reflexivity].
      + apply list_lookup_middle. reflexivity. }
  destruct Hfound as (i & Hfi & Hui).
  rewrite verifyOTP_eq, Hve, Hvo, Hmail. cbn [negb orb OtpController.users].
  rewrite Hfi, Hui.
  assert (Hno : OtpController.no_otp u = false).
  { unfold OtpController.no_otp, u. cbn. now apply String.eqb_neq. }
  rewrite Hno. unfold OtpController.expired.
  cbn [OtpController.u_otpExpiresAt OtpController.u_otp u].
  unfold OtpController.FIVE_MINUTES.
  destruct (later <=? now + 5 * 60 * 1000) eqn:Hle.
  - apply Z.leb_le in Hle.
    assert (Hlt : (now + 5 * 60 * 1000 <? later) = false) by (apply Z.ltb_ge; lia).
    rewrite Hlt, Hc, Hval.
    eexists i, _, _, ph. split; [reflexivity|].
    cbn [OtpController.users]. apply list_lookup_insert_eq.
    now apply lookup_lt_Some in Hui.
  - apply Z.leb_gt in Hle.
    assert (Hlt : (now + 5 * 60 * 1000 <? later) = true) by (apply Z.ltb_lt; lia).
    now rewrite Hlt.
Qed.

(** The theorem in the sample world: the OTP is accepted exactly five minutes
    after it was sent. *)
Lemma sendOTP_then_verifyOTP_witness :
  exists i w2 token pw,
    OtpController.verifyOTP OtpSample.E_up OtpSample.right_otp 301000 OtpSample.w_sent =
      (OtpController.ODone
         (OtpController.mkOtpResponse 200 true
            (OtpController.AccountCreated i "asha@example.com" "Asha" true token)), w2)
    /\ OtpController.users w2 !! i =
         Some (OtpController.mkUser "asha@example.com" "Asha" pw None None true).
Proof.
  pose proof (sendOTP_then_verifyOTP OtpSample.E_up OtpSample.signup OtpSample.right_otp
                1000 301000 OtpController.empty_otp_world OtpSample.w_sent
                (OtpController.mkOtpResponse 200 true OtpController.OtpSent)) as H.
  assert (Hle : (301000 <=? 1000 + 5 * 60 * 1000) = true) by reflexivity.
  rewrite Hle in H. apply H; try reflexivity.
  - intros h Hh. vm_compute in Hh. injection Hh as <-. split; [discriminate|reflexivity].
Defined.

(** X21.  The two handlers never store two users with one address: run from
    the empty store, any sequence of [sendOTP] and [verifyOTP] requests leaves
    the addresses of the stored users pairwise distinct. *)
Theorem otp_addresses_are_unique
    (E : OtpController.otp_env) (tr : list (OtpController.otp_request * Z)) :
  NoDup (List.map OtpController.u_email
           (OtpController.users (OtpController.otp_run E tr OtpController.empty_otp_world))).
Proof.
  apply (otp_run_invariant E
           (fun w => NoDup (List.map OtpController.u_email (OtpController.users w)))).
  - intros w r now Hw.
    destruct (otp_handle_users E r now w)
      as [Heq|[(j & u0 & u' & Hj & _ & He & Heq & _)|(u' & Hf & _ & Heq)]];
      rewrite Heq.
    + exact Hw.
    + now rewrite (map_insert_same _ _ _ _ _ Hj He).
    + rewrite List.map_app. cbn [List.map]. apply NoDup_app.
      split; [exact Hw|]. split; [|apply NoDup_singleton].
      intros e Hin Hin'. apply list_elem_of_singleton in Hin'. subst e.
      apply list_elem_of_In, List.in_map_iff in Hin as (u & Hu & Hin).
      apply list_elem_of_In, list_elem_of_lookup in Hin as (i & Hi).
      exact (find_email_None _ _ Hf i u Hi Hu).
  - constructor.
Qed.

(** ** The remaining theorems at sample inputs *)

(** X1 at the sample order on the empty store. *)
Lemma createOrder_outcome_witness :
  exists bookname o w',
    PaymentController.createOrder Sample.E_down Sample.order_body 1000 empty_world =
      (Done (mkResponse 201 true (OrderPlaced 0 bookname (JNum 35) (JStr "123456789012"))),
       w')
    /\ payments w' = [o]
    /\ validate o = true.
Proof.
  pose proof (createOrder_outcome Sample.E_down Sample.order_body 1000 empty_world) as H.
  assert (Ha : accepted Sample.E_down Sample.order_body 1000 empty_world = true)
    by (vm_compute; reflexivity).
  rewrite Ha in H. destruct H as (bookname & o & w' & _ & Heq & Hp & _ & Hv & _).
  exists bookname, o, w'. split; [exact Heq|]. split; [exact Hp|exact Hv].
Defined.

(** X9 at the sample order: shipped a second time, it keeps its first
    shipping date. *)
Lemma updateOrderStatus_repeat_witness :
  payments (handle Sample.E_down
              (UpdateOrderStatus (ObjectId 0) (Sample.to_status "shipped")) 9000
              (handle Sample.E_down
                 (UpdateOrderStatus (ObjectId 0) (Sample.to_status "shipped")) 3000
                 Sample.w_confirmed)) =
  payments (handle Sample.E_down
              (UpdateOrderStatus (ObjectId 0) (Sample.to_status "shipped")) 3000
              Sample.w_confirmed).
Proof.
  exact (proj1 (updateOrderStatus_repeat Sample.E_down Sample.w_confirmed (ObjectId 0)
                  (Sample.to_status "shipped") 3000 9000)).
Defined.

(** X15 in the sample world: the one stored order is listed. *)
Lemma getAllOrders_newest_first_witness :
  exists orders,
    getAllOrders Sample.w_placed =
      (Done (mkListResponse 200 true (OrdersListed orders (List.length orders))),
       Sample.w_placed)
    /\ List.length orders = 1%nat.
Proof.
  destruct (getAllOrders_newest_first Sample.w_placed) as (orders & Heq & Hlen & _).
  exists orders. split; [exact Heq|]. rewrite Hlen. vm_compute. reflexivity.
Defined.

(** X21 for a sign-up sent twice: one user is stored. *)
Lemma otp_addresses_are_unique_witness :
  NoDup (List.map OtpController.u_email
           (OtpController.users
              (OtpController.otp_run OtpSample.E_up
                 [(OtpController.SendOTP OtpSample.signup, 1000);
                  (OtpController.SendOTP OtpSample.signup, 2000)]
                 OtpController.empty_otp_world))).
Proof.
  apply (otp_addresses_are_unique OtpSample.E_up
           [(OtpController.SendOTP OtpSample.signup, 1000);
            (OtpController.SendOTP OtpSample.signup, 2000)]).
Defined.
